(** * Smart Energy Monitor: the advisory core, embedded and verified

    A shallow embedding of the decision logic of the Smart Energy Monitor
    backend ([backend/main.py], [backend/services/ai_assistant.py],
    [backend/services/smard_client.py]) together with the properties its
    specification states about it.

    Conventions of the embedding:
    - a Python [float] is an exact rational ([Q]); equalities between
      computed numbers are stated with [==].  [round] and the [:.nf]
      format round the exact number, half to even, where the program
      rounds a binary float: on or next to a tie the two can differ in the
      last place, so for inputs that are not fixed a rounded amount is
      given by a bound around the exact one, not by its digits;
    - a Python [str] is its UTF-8 byte string ([string]); the substring
      test on bytes agrees with the one on code points;
    - a Python value that may be [None] is a [value]; a dict key that may
      be missing is an [option];
    - an operation that may raise returns a [result];
    - the network, the clock and the time zone are explicit arguments:
      [Env] holds what the SMARD server serves during one request and the
      offset from UTC of the server's zone at each instant, [Ollama] what
      the generation backend does, [utcnow] what the clock reads in each
      iteration of a loop;
    - logging and the database rows written along the way are left out. *)

From Stdlib Require Import ZArith QArith Qround Qabs Lqa Lia List Bool.
From Stdlib Require Import Strings.String Strings.Ascii Numbers.DecimalString.
Import ListNotations.

Open Scope string_scope.
Open Scope Q_scope.

(** ** Python built-ins used by the program *)

Module Py.

(** A value read from a dict slot that the program fills with a number or
    with [None]. *)
Inductive value : Type :=
| VNone
| VNum (q : Q).

(** The exceptions that the modelled operations can raise. *)
Inductive exn : Type :=
| TypeError
| AttributeError
| ValueError
| RequestException.

Inductive result (A : Type) : Type :=
| Ok (a : A)
| Raise (e : exn).
Arguments Ok {A} a.
Arguments Raise {A} e.

Definition bind {A B} (r : result A) (k : A -> result B) : result B :=
  match r with
  | Ok a => k a
  | Raise e => Raise e
  end.

Notation "x <- r ;; k" := (bind r (fun x => k))
  (at level 61, r at next level, right associativity).

(** [try: ... except Exception: ...] around a computation: whatever it
    raises, the handler's value is returned. *)
Definition catching {A} (r : result A) (on_error : A) : A :=
  match r with
  | Ok a => a
  | Raise _ => on_error
  end.

(** [not x] for an [Optional[float]]: [None] and zero are falsy. *)
Definition falsy (v : value) : bool :=
  match v with
  | VNone => true
  | VNum q => Qeq_bool q 0
  end.

(** [x or d] for an [Optional[float]] [x] and a float [d]. *)
Definition or_default (v : value) (d : Q) : Q :=
  match v with
  | VNone => d
  | VNum q => if Qeq_bool q 0 then d else q
  end.

(** [a < b] on floats. *)
Definition ltb (a b : Q) : bool := negb (Qle_bool b a).

(** [dict.get(key, default)] on a slot that may be missing. *)
Definition get {A} (slot : option A) (default : A) : A :=
  match slot with
  | Some a => a
  | None => default
  end.

(** Arithmetic and comparison with a possibly-[None] operand raise
    [TypeError]. *)
Definition as_num (v : value) : result Q :=
  match v with
  | VNum q => Ok q
  | VNone => Raise TypeError
  end.

(** [round(x, n)]: to the nearest multiple of [10^-n], ties to the even
    one. *)
Definition round_half_even (q : Q) : Z :=
  let f := Qfloor q in
  let r := q - inject_Z f in
  if ltb r (1 # 2) then f
  else if ltb (1 # 2) r then (f + 1)%Z
  else if Z.even f then f else (f + 1)%Z.

Definition pow10 (n : nat) : Z := (10 ^ Z.of_nat n)%Z.

Definition round (q : Q) (n : nat) : Q :=
  inject_Z (round_half_even (q * inject_Z (pow10 n))) / inject_Z (pow10 n).

(** [int(x)]: truncation toward zero. *)
Definition int (q : Q) : Z := Z.quot (Qnum q) (Zpos (Qden q)).

(** [range(n)]: empty when [n <= 0]. *)
Definition range (n : Z) : list Z := map Z.of_nat (seq 0 (Z.to_nat n)).

(** [min(xs, key=...)] on a non-empty sequence [x :: xs]: the first
    element whose key is minimal. *)
Fixpoint min_from {A} (key : A -> Q) (best : A) (xs : list A) : A :=
  match xs with
  | [] => best
  | y :: ys => min_from key (if ltb (key y) (key best) then y else best) ys
  end.

(** [max(xs, key=...)]: the first element whose key is maximal. *)
Fixpoint max_from {A} (key : A -> Q) (best : A) (xs : list A) : A :=
  match xs with
  | [] => best
  | y :: ys => max_from key (if ltb (key best) (key y) then y else best) ys
  end.

(** [sum(xs)]. *)
Definition sum (xs : list Q) : Q := fold_left Qplus xs 0.

(** [str(n)] for a natural number [n]; [zfill] pads with zeros on the
    left. *)
Definition digits (n : Z) : string :=
  NilEmpty.string_of_uint (N.to_uint (Z.to_N n)).

Fixpoint zeros (k : nat) : string :=
  match k with
  | O => ""
  | S k' => String "0" (zeros k')
  end.

Definition zfill (width : nat) (s : string) : string :=
  zeros (width - String.length s) ++ s.

(** [f"{x:.nf}"] with [n >= 1]: fixed-point notation, [n] digits after the
    point, rounded half to even. *)
Definition format_f (n : nat) (q : Q) : string :=
  let scaled := round_half_even (Qabs q * inject_Z (pow10 n)) in
  let whole := (scaled / pow10 n)%Z in
  let frac := (scaled mod pow10 n)%Z in
  (if ltb q 0 then "-" else "")
    ++ digits whole ++ "." ++ zfill n (digits frac).

(** [needle in hay] on strings. *)
Fixpoint contains (needle hay : string) : bool :=
  if String.prefix needle hay then true
  else match hay with
       | EmptyString => false
       | String _ hay' => contains needle hay'
       end.

(** [s.find(needle)]: the least index at which [needle] occurs. *)
Fixpoint find (needle hay : string) : option nat :=
  if String.prefix needle hay then Some O
  else match hay with
       | EmptyString => None
       | String _ hay' => option_map S (find needle hay')
       end.

(** [str.lower()] on the UTF-8 bytes of Basic Latin and Latin-1 text:
    [A-Z] and the two-byte letters [U+00C0 .. U+00DE] (without the
    multiplication sign) move to their lower-case forms, every other byte
    stays. *)
Definition lower_ascii (c : ascii) : ascii :=
  let n := nat_of_ascii c in
  if andb (Nat.leb 65 n) (Nat.leb n 90) then ascii_of_nat (n + 32) else c.

Definition lower_latin1 (c : ascii) : ascii :=
  let n := nat_of_ascii c in
  if andb (andb (Nat.leb 128 n) (Nat.leb n 158)) (negb (Nat.eqb n 151))
  then ascii_of_nat (n + 32) else c.

Fixpoint lower (s : string) : string :=
  match s with
  | EmptyString => EmptyString
  | String c s' =>
      if Nat.eqb (nat_of_ascii c) 195 then
        match s' with
        | String d s'' => String c (String (lower_latin1 d) (lower s''))
        | EmptyString => String c EmptyString
        end
      else String (lower_ascii c) (lower s')
  end.

(** [str.isspace()] of one character, on its UTF-8 bytes.  One byte:
    U+0009..U+000D, U+001C..U+001F, U+0020.  Two bytes: U+0085, U+00A0.
    Three bytes: U+1680, U+2000..U+200A, U+2028, U+2029, U+202F, U+205F,
    U+3000. *)
Definition space1 (a : ascii) : bool :=
  let n := nat_of_ascii a in
  orb (andb (Nat.leb 9 n) (Nat.leb n 13)) (andb (Nat.leb 28 n) (Nat.leb n 32)).

Definition space2 (a b : ascii) : bool :=
  andb (Nat.eqb (nat_of_ascii a) 194)
       (orb (Nat.eqb (nat_of_ascii b) 133) (Nat.eqb (nat_of_ascii b) 160)).

Definition space3 (a b c : ascii) : bool :=
  let x := nat_of_ascii a in
  let y := nat_of_ascii b in
  let z := nat_of_ascii c in
  orb (andb (Nat.eqb x 225) (andb (Nat.eqb y 154) (Nat.eqb z 128)))
    (orb (andb (Nat.eqb x 226)
               (andb (Nat.eqb y 128)
                     (orb (andb (Nat.leb 128 z) (Nat.leb z 138))
                          (orb (Nat.eqb z 168)
                               (orb (Nat.eqb z 169) (Nat.eqb z 175))))))
         (orb (andb (Nat.eqb x 226) (andb (Nat.eqb y 129) (Nat.eqb z 159)))
              (andb (Nat.eqb x 227)
                    (andb (Nat.eqb y 128) (Nat.eqb z 128))))).

(** [s.lstrip()]: the leading white-space characters removed. *)
Fixpoint lstrip (s : string) : string :=
  match s with
  | EmptyString => EmptyString
  | String a s1 =>
      if space1 a then lstrip s1
      else match s1 with
           | EmptyString => s
           | String b s2 =>
               if space2 a b then lstrip s2
               else match s2 with
                    | EmptyString => s
                    | String c s3 => if space3 a b c then lstrip s3 else s
                    end
           end
  end.

(** [s] consists of white-space characters only. *)
Fixpoint all_space (s : string) : bool :=
  match s with
  | EmptyString => true
  | String a s1 =>
      if space1 a then all_space s1
      else match s1 with
           | EmptyString => false
           | String b s2 =>
               if space2 a b then all_space s2
               else match s2 with
                    | EmptyString => false
                    | String c s3 =>
                        if space3 a b c then all_space s3 else false
                    end
           end
  end.

(** [s.rstrip()]: the bytes from the point on where only white space
    follows are removed. *)
Fixpoint rstrip (s : string) : string :=
  match s with
  | EmptyString => EmptyString
  | String a s' => if all_space s then EmptyString else String a (rstrip s')
  end.

(** [s.strip()] *)
Definition strip (s : string) : string := rstrip (lstrip s).

End Py.

Import Py.


(** ** Dicts and records shared by the modules *)

(** A small [str -> float] dict in insertion order (the energy mix). *)
Definition dict := list (string * Q).

Fixpoint lookup (key : string) (d : dict) : option Q :=
  match d with
  | [] => None
  | (k, v) :: d' => if String.eqb k key then Some v else lookup key d'
  end.

Definition remove (key : string) (d : dict) : dict :=
  filter (fun kv => negb (String.eqb (fst kv) key)) d.

Definition values (d : dict) : list Q := map snd d.

(** One forecast entry: a dict whose keys the consumers read with
    [.get(key, default)], so each key may be missing.  The ["datetime"] key
    (the ISO text of [timestamp]) is read nowhere and left out. *)
Module Point.
Record t : Type := {
  timestamp : option Z;
  hour : option string;
  price : option Q;
  co2 : option Q
}.
(** The empty dict [{}] that stands in for the best point of an empty
    forecast. *)
Definition empty : t :=
  {| timestamp := None; hour := None; price := None; co2 := None |}.
End Point.

(** The environment of one request: what the SMARD server serves for a
    filter and a number of hours (already cut to the time range; [[]] on any
    network or format error), the same at every call during the request,
    and the local zone of the server: the offset from UTC, in seconds, that
    is in force at a POSIX second. *)
Record Env : Type := {
  series : string -> Z -> list (Z * value);
  utcoffset : Z -> Z
}.

(** [time.localtime(u)], as seconds on the local wall clock. *)
Definition localtime (env : Env) (u : Z) : Z := (u + utcoffset env u)%Z.

(** [datetime._mktime()] of a naive [datetime] with [fold = 0] whose whole
    seconds on the wall clock are [t]: the POSIX second that the local zone
    assigns to it. *)
Definition _mktime (env : Env) (t : Z) : Z :=
  let max_fold_seconds := (24 * 3600)%Z in
  let a := (localtime env t - t)%Z in
  let u1 := (t - a)%Z in
  let t1 := localtime env u1 in
  if (t1 =? t)%Z then
    let probe := (u1 - max_fold_seconds)%Z in
    let b := (localtime env probe - probe)%Z in
    if (a =? b)%Z then u1
    else
      let u2 := (t - b)%Z in
      if (localtime env u2 =? t)%Z then u2 else u1
  else
    let b := (t1 - u1)%Z in
    let u2 := (t - b)%Z in
    if (localtime env u2 =? t)%Z then u2 else Z.max u1 u2.

(** [dt.strftime("%H:%M")] for a wall-clock time in seconds. *)
Definition strftime_HM (seconds : Z) : string :=
  let s := (seconds mod 86400)%Z in
  zfill 2 (digits (s / 3600)) ++ ":" ++ zfill 2 (digits ((s mod 3600) / 60)).

(** ** [services/smard_client.py] *)

Module SMARDClient.

Definition FILTERS : list (string * Z) :=
  [ ("price", 4169%Z); ("solar", 4068%Z); ("wind_onshore", 4067%Z);
    ("wind_offshore", 1225%Z); ("coal", 4069%Z); ("gas", 4071%Z);
    ("biomass", 4066%Z); ("hydro", 1226%Z) ].

Definition _fetch_timeseries (env : Env) (filter_name : string) (hours : Z)
  : result (list (Z * value)) :=
  if existsb (fun f => String.eqb (fst f) filter_name) FILTERS
  then Ok (series env filter_name hours)
  else Raise ValueError.

Definition get_current_price (env : Env) : value :=
  catching
    (data <- _fetch_timeseries env "price" 2 ;;
     match last (map Some data) None with
     | Some (_, VNum price_eur_mwh) =>
         Ok (VNum (Py.round (price_eur_mwh / 1000) 4))
     | _ => Ok VNone
     end)
    VNone.

Definition get_price_forecast (env : Env) (hours : Z) : list Point.t :=
  catching
    (data <- _fetch_timeseries env "price" hours ;;
     Ok (flat_map
           (fun tv =>
              match snd tv with
              | VNum price_eur_mwh =>
                  [ {| Point.timestamp := Some (fst tv);
                       Point.hour :=
                         Some (strftime_HM
                                 (localtime env
                                    (Qfloor (inject_Z (fst tv) / 1000))));
                       Point.price :=
                         Some (Py.round (price_eur_mwh / 1000) 4);
                       Point.co2 := None |} ]
              | VNone => []
              end)
           data))
    [].

Definition sources : list string :=
  [ "solar"; "wind_onshore"; "wind_offshore"; "coal"; "gas"; "biomass" ].

(** The loop that collects the latest production of each source. *)
Fixpoint collect (env : Env) (srcs : list string) : result dict :=
  match srcs with
  | [] => Ok []
  | source :: rest =>
      data <- _fetch_timeseries env source 1 ;;
      tail <- collect env rest ;;
      match last (map Some data) None with
      | Some (_, v) => Ok ((source, or_default v 0) :: tail)
      | None => Ok tail
      end
  end.

Definition get_energy_mix (env : Env) : dict :=
  catching
    (mix_data <- collect env sources ;;
     let total_production := Py.sum (values mix_data) in
     let energy_mix :=
       if ltb 0 total_production
       then map (fun sv => (fst sv,
                            Py.round (snd sv / total_production * 100) 1))
                mix_data
       else [] in
     match lookup "wind_onshore" energy_mix,
           lookup "wind_offshore" energy_mix with
     | Some onshore, Some offshore =>
         Ok (remove "wind_offshore" (remove "wind_onshore" energy_mix)
               ++ [("wind", onshore + offshore)])%list
     | _, _ => Ok energy_mix
     end)
    [].

Definition emission_factors : dict :=
  [ ("solar", 0); ("wind", 0); ("coal", 820); ("gas", 490);
    ("biomass", 230); ("hydro", 0) ].

Definition get_co2_intensity (env : Env) : value :=
  let mix := get_energy_mix env in
  match mix with
  | [] => VNone
  | _ =>
      VNum (Py.round
              (fold_left
                 (fun total sp =>
                    total + (snd sp / 100)
                            * get (lookup (fst sp) emission_factors) 0)
                 mix 0)
              1)
  end.

End SMARDClient.

(** ** [services/ai_assistant.py] *)

(** [str(x)] of a float that is a short decimal, as every number that
    [round(x, n)] returns is: the least number of digits (at least one)
    after the point that writes it exactly. *)
Fixpoint repr_from (fuel n : nat) (q : Q) : string :=
  match fuel with
  | O => format_f n q
  | S fuel' =>
      let scaled := q * inject_Z (pow10 n) in
      if Qeq_bool (inject_Z (Qfloor scaled)) scaled then format_f n q
      else repr_from fuel' (S n) q
  end.

Definition repr_float (q : Q) : string := repr_from 16 1 q.

Definition str (v : value) : string :=
  match v with
  | VNone => "None"
  | VNum q => repr_float q
  end.

(** The ["current"] entry of the grid context. *)
Module Current.
Record t : Type := {
  price : option value;
  co2 : option value;
  mix : option dict
}.
Definition empty : t := {| price := None; co2 := None; mix := None |}.
End Current.

(** The grid context that the assistant receives. *)
Module GridData.
Record t : Type := {
  current : option Current.t;
  average_price : option Q;
  forecast : option (list Point.t)
}.
End GridData.

(** The answer dict, later an [AskResponse]. *)
Record Answer : Type := {
  answer : string;
  type : string;
  confidence : string;
  processing_time_ms : Z
}.

(** The generation backend: the body of an HTTP answer, [.json()] of which
    fails, gives something that is no object, or gives an object whose
    ["response"] entry is missing, a string or something else. *)
Inductive JsonValue : Type :=
| JString (s : string)
| JOther.

Inductive Body : Type :=
| NotJson
| NotObject
| Object (response : option JsonValue).

Record Response : Type := {
  status_code : Z;
  body : Body
}.

(** What [requests.post] does for a prompt (a time-out, a refused
    connection and an absent backend all raise), and the two readings of
    [time.time()], in seconds. *)
Record Ollama : Type := {
  post : string -> result Response;
  time_before : Q;
  time_after : Q
}.

(** The first item of [forecast] that minimises [key], or [{}]. *)
Definition cheapest_by (key : Point.t -> Q) (forecast : list Point.t) : Point.t :=
  match forecast with
  | [] => Point.empty
  | x :: xs => min_from key x xs
  end.

Definition price_key (x : Point.t) : Q := get (Point.price x) 999.
Definition co2_key (x : Point.t) : Q := get (Point.co2 x) 999.

(** The cost computation, written out twice in the program with the same
    four statements: in [get_device_recommendation] and in
    [_get_device_advice]. *)
Module Costs.
Record t : Type := {
  cheapest : Point.t;
  cost_now : Q;
  cost_cheapest : Q;
  savings : Q
}.
End Costs.

Definition costs (current_price power_kwh : Q) (forecast : list Point.t)
  : Costs.t :=
  let cheapest := cheapest_by price_key forecast in
  let cost_now := current_price * power_kwh in
  let cost_cheapest := get (Point.price cheapest) 0 * power_kwh in
  {| Costs.cheapest := cheapest;
     Costs.cost_now := cost_now;
     Costs.cost_cheapest := cost_cheapest;
     Costs.savings := cost_now - cost_cheapest |}.

Module SmartEnergyAssistant.

Definition show_value (slot : option value) : string :=
  match slot with
  | Some v => str v
  | None => "N/A"
  end.

Definition show_float (slot : option Q) (default : string) : string :=
  match slot with
  | Some q => repr_float q
  | None => default
  end.

Definition _build_prompt (query : string) (grid_data : GridData.t) : string :=
  let current := get (GridData.current grid_data) Current.empty in
  let forecast := get (GridData.forecast grid_data) [] in
  let cheapest := cheapest_by price_key forecast in
  let greenest := cheapest_by co2_key forecast in
  let mix := get (Current.mix current) [] in
  "Du bist ein Energie-Assistent für ein Smart Home System.

Aktuelle Stromdaten:
- Preis: " ++ show_value (Current.price current) ++ " €/kWh
- CO2-Intensität: " ++ show_value (Current.co2 current) ++ " g/kWh
- Energiemix: Solar " ++ show_float (lookup "solar" mix) "0"
    ++ "%, Wind " ++ show_float (lookup "wind" mix) "0"
    ++ "%, Kohle " ++ show_float (lookup "coal" mix) "0" ++ "%

Günstigste Zeit heute: " ++ get (Point.hour cheapest) "N/A"
    ++ " (" ++ show_float (Point.price cheapest) "N/A" ++ " €/kWh)
Grünste Zeit heute: " ++ get (Point.hour greenest) "N/A"
    ++ " (" ++ show_float (Point.co2 greenest) "N/A" ++ " g/kWh)

Nutzerfrage: " ++ query ++ "

Antworte kurz, freundlich und konkret (max. 3 Sätze). Nutze die Daten oben.".

Definition _fallback_answer (query : string) : Answer :=
  {| answer := "Entschuldigung, ich konnte deine Frage nicht verarbeiten. Versuche konkretere Fragen wie 'Wann ist Strom günstig?' oder 'Soll ich jetzt laden?'";
     type := "fallback";
     confidence := "low";
     processing_time_ms := 0 |}.

(** [response.json().get("response", "").strip()] *)
Definition response_text (b : Body) : result string :=
  match b with
  | NotJson => Raise ValueError
  | NotObject => Raise AttributeError
  | Object None => Ok (strip "")
  | Object (Some (JString s)) => Ok (strip s)
  | Object (Some JOther) => Raise AttributeError
  end.

Definition _ask_ollama (ollama : Ollama) (query : string)
    (grid_data : GridData.t) : Answer :=
  let start_time := time_before ollama in
  let prompt := _build_prompt query grid_data in
  catching
    (response <- post ollama prompt ;;
     let processing_time :=
       Py.int ((time_after ollama - start_time) * 1000) in
     if (status_code response =? 200)%Z then
       answer <- response_text (body response) ;;
       Ok {| answer := answer;
             type := "ai";
             confidence := "medium";
             processing_time_ms := processing_time |}
     else Ok (_fallback_answer query))
    (_fallback_answer query).

(** *** Rule-based handlers *)

Definition _get_price_info (data : GridData.t) : result string :=
  let current := get (GridData.current data) Current.empty in
  let price := get (Current.price current) VNone in
  let avg := get (GridData.average_price data) (30 # 100) in
  if falsy price then Ok "Aktuelle Preisdaten sind nicht verfügbar."
  else
    price <- as_num price ;;
    let '(status, emoji) :=
      if ltb price (avg * (8 # 10)) then ("sehr günstig", "💰")
      else if ltb price avg then ("günstig", "👍")
      else ("teuer", "⚠️") in
    Ok (emoji ++ " Aktueller Strompreis: " ++ format_f 4 price
          ++ " €/kWh (" ++ status ++ ")").

Definition _get_cheapest_time (data : GridData.t) : result string :=
  match get (GridData.forecast data) [] with
  | [] => Ok "Keine Vorhersagedaten verfügbar."
  | x :: xs =>
      let cheapest := min_from price_key x xs in
      Ok ("⚡ Am günstigsten ist Strom heute um "
            ++ get (Point.hour cheapest) "N/A" ++ ": "
            ++ format_f 4 (get (Point.price cheapest) 0) ++ " €/kWh")
  end.

Definition _get_expensive_time (data : GridData.t) : result string :=
  match get (GridData.forecast data) [] with
  | [] => Ok "Keine Vorhersagedaten verfügbar."
  | x :: xs =>
      let expensive := max_from (fun x => get (Point.price x) 0) x xs in
      Ok ("🔴 Am teuersten ist Strom heute um "
            ++ get (Point.hour expensive) "N/A" ++ ": "
            ++ format_f 4 (get (Point.price expensive) 0) ++ " €/kWh")
  end.

Definition _get_greenest_time (data : GridData.t) : result string :=
  match get (GridData.forecast data) [] with
  | [] => Ok "Keine Vorhersagedaten verfügbar."
  | x :: xs =>
      let greenest := min_from co2_key x xs in
      Ok ("🌱 Am grünsten ist Strom heute um "
            ++ get (Point.hour greenest) "N/A" ++ ": "
            ++ format_f 1 (get (Point.co2 greenest) 0) ++ " g CO2/kWh")
  end.

Definition _get_co2_info (data : GridData.t) : result string :=
  let current := get (GridData.current data) Current.empty in
  let co2 := get (Current.co2 current) VNone in
  if falsy co2 then Ok "CO2-Daten sind nicht verfügbar."
  else
    co2 <- as_num co2 ;;
    let '(status, emoji) :=
      if ltb co2 200 then ("sehr sauber", "🌱")
      else if ltb co2 400 then ("mittel", "😐")
      else ("schmutzig", "🏭") in
    Ok (emoji ++ " Aktuelle CO2-Intensität: " ++ format_f 1 co2
          ++ " g/kWh (" ++ status ++ ")").

Definition _get_charging_advice (data : GridData.t) : result string :=
  let current := get (GridData.current data) Current.empty in
  let price := get (Current.price current) (VNum 0) in
  let avg := get (GridData.average_price data) (30 # 100) in
  let forecast := get (GridData.forecast data) [] in
  let cheapest := cheapest_by price_key forecast in
  price <- as_num price ;;
  if ltb price (avg * (85 # 100)) then
    Ok ("✅ Jetzt laden! Aktueller Preis (" ++ format_f 4 price
          ++ " €/kWh) ist günstig.")
  else
    Ok ("⏳ Besser warten bis " ++ get (Point.hour cheapest) "N/A" ++ " ("
          ++ format_f 4 (get (Point.price cheapest) 0)
          ++ " €/kWh). Aktuell zu teuer.").

(** The branch that [_get_device_advice] takes: [true] for "run it
    later". *)
Definition advises_waiting (c : Costs.t) : bool := ltb (5 # 100) (Costs.savings c).

Definition _get_device_advice (data : GridData.t) (device : string)
    (power_kwh : Q) : result string :=
  let current := get (GridData.current data) Current.empty in
  let price := get (Current.price current) (VNum 0) in
  let forecast := get (GridData.forecast data) [] in
  price <- as_num price ;;
  let c := costs price power_kwh forecast in
  if advises_waiting c then
    Ok ("⏳ " ++ device ++ " besser um " ++ get (Point.hour (Costs.cheapest c)) "N/A"
          ++ " laufen lassen. Spart " ++ format_f 2 (Costs.savings c)
          ++ "€ (jetzt: " ++ format_f 2 (Costs.cost_now c) ++ "€ vs. dann: "
          ++ format_f 2 (Costs.cost_cheapest c) ++ "€)")
  else
    Ok ("✅ " ++ device ++ " kann jetzt laufen. Kosten: "
          ++ format_f 2 (Costs.cost_now c)
          ++ "€ (kaum Unterschied zu günstigster Zeit)").

Definition _get_washing_advice (data : GridData.t) : result string :=
  _get_device_advice data "Waschmaschine" 2.

Definition _get_dishwasher_advice (data : GridData.t) : result string :=
  _get_device_advice data "Geschirrspüler" (15 # 10).

(** *** The rule table and the router *)

Definition Handler : Type := GridData.t -> result string.

Definition rules : list (string * Handler) :=
  [ ("preis", _get_price_info);
    ("price", _get_price_info);
    ("günstig", _get_cheapest_time);
    ("cheap", _get_cheapest_time);
    ("teuer", _get_expensive_time);
    ("expensive", _get_expensive_time);
    ("grün", _get_greenest_time);
    ("green", _get_greenest_time);
    ("sauber", _get_greenest_time);
    ("co2", _get_co2_info);
    ("laden", _get_charging_advice);
    ("charge", _get_charging_advice);
    ("waschen", _get_washing_advice);
    ("wash", _get_washing_advice);
    ("spülen", _get_dishwasher_advice);
    ("dishwasher", _get_dishwasher_advice) ].

Definition instant (answer : string) : Answer :=
  {| answer := answer;
     type := "instant";
     confidence := "high";
     processing_time_ms := 0 |}.

(** The loop over [self.rules.items()]: the first keyword that occurs in
    the lower-cased query and whose handler returns decides; a handler that
    raises is logged and the loop goes on. *)
Fixpoint scan (rs : list (string * Handler)) (query_lower : string)
    (grid_data : GridData.t) : option Answer :=
  match rs with
  | [] => None
  | (keyword, handler) :: rest =>
      if contains keyword query_lower then
        match handler grid_data with
        | Ok answer => Some (instant answer)
        | Raise _ => scan rest query_lower grid_data
        end
      else scan rest query_lower grid_data
  end.

Definition ask (ollama : Ollama) (user_query : string)
    (grid_data : GridData.t) : Answer :=
  let query_lower := lower user_query in
  match scan rules query_lower grid_data with
  | Some r => r
  | None => _ask_ollama ollama user_query grid_data
  end.

End SmartEnergyAssistant.

(** ** [models/database.py]: the device catalog *)

Record UserDevice : Type := {
  id : Z;
  name : string;
  device_type : string;
  power_kwh : Q;
  usage_per_week : Z;
  flexible : Z;
  room : option string
}.

(** The rows that [seed_devices] inserts into an empty table. *)
Definition seed_devices : list UserDevice :=
  [ {| id := 1; name := "Waschmaschine"; device_type := "appliance";
       power_kwh := 2; usage_per_week := 3; flexible := 1;
       room := Some "bathroom" |};
    {| id := 2; name := "Geschirrspüler"; device_type := "appliance";
       power_kwh := 15 # 10; usage_per_week := 4; flexible := 1;
       room := Some "kitchen" |};
    {| id := 3; name := "E-Auto"; device_type := "vehicle";
       power_kwh := 40; usage_per_week := 7; flexible := 1;
       room := Some "garage" |};
    {| id := 4; name := "Wärmepumpe"; device_type := "appliance";
       power_kwh := 8; usage_per_week := 7; flexible := 0;
       room := Some "basement" |} ].

(** ** [main.py]: the request handlers *)

Module Main.

(** A handler returns its answer or raises an [HTTPException]. *)
Inductive HTTPException : Type :=
| HTTP (status_code : Z) (detail : string).

Definition exn_text (e : exn) : string :=
  match e with
  | TypeError => "TypeError"
  | AttributeError => "AttributeError"
  | ValueError => "ValueError"
  | RequestException => "RequestException"
  end.

(** [except Exception as e: raise HTTPException(status_code=500, ...)] *)
Definition or_500 {A} (r : result A) : A + HTTPException :=
  match r with
  | Ok a => inl a
  | Raise e => inr (HTTP 500 (exn_text e))
  end.

(** The answer of [/api/grid/current]; the same three numbers are stored as
    a [GridData] row. *)
Record GridSnapshot : Type := {
  price : Q;
  co2 : Q;
  energy_mix : dict;
  status : string
}.

Definition default_mix : dict :=
  [ ("solar", 42); ("wind", 28); ("coal", 15); ("gas", 10); ("biomass", 5) ].

(** [not energy_mix or sum(energy_mix.values()) == 0] *)
Definition mix_missing (energy_mix : dict) : bool :=
  match energy_mix with
  | [] => true
  | _ => Qeq_bool (Py.sum (values energy_mix)) 0
  end.

(** The three [if not ...: ... = default] statements. *)
Definition fallback (price : value) (energy_mix : dict) (co2 : value)
  : Q * dict * Q :=
  let price := or_default price (28 # 100) in
  let energy_mix := if mix_missing energy_mix then default_mix
                    else energy_mix in
  let co2 := or_default co2 320 in
  (price, energy_mix, co2).

Definition get_current_grid_data (env : Env) : GridSnapshot + HTTPException :=
  or_500
    (let price := SMARDClient.get_current_price env in
     let energy_mix := SMARDClient.get_energy_mix env in
     let co2 := SMARDClient.get_co2_intensity env in
     let '(price, energy_mix, co2) := fallback price energy_mix co2 in
     Ok {| price := price;
           co2 := co2;
           energy_mix := energy_mix;
           status := if ltb price (30 # 100) then "gÃ¼nstig"
                     else "normal" |}).

(** A naive [datetime] is its number of microseconds since
    1970-01-01T00:00:00 on the wall clock it was read from;
    [timedelta(hours=i)] is [i] hours in that unit. *)
Definition timedelta_hours (i : Z) : Z := (i * 3600 * 1000000)%Z.

(** [dt.timestamp()] of a naive [datetime]: the wall clock is taken to be
    the local one, [_mktime() + microsecond / 1e6]. *)
Definition timestamp_of (env : Env) (dt : Z) : Q :=
  inject_Z (_mktime env (dt / 1000000))
  + inject_Z (dt mod 1000000) / 1000000.

Definition variation (i : Z) : Q :=
  let variation := inject_Z (i mod 12 - 6) * (1 # 100) in
  if (i mod 4 =? 0)%Z
  then variation + (inject_Z (i mod 2) - (1 # 2)) * (3 # 100)
  else variation.

(** The body of the loop, for index [i]; [utcnow i] is what
    [datetime.utcnow()] reads in that iteration. *)
Definition forecast_entry (env : Env) (utcnow : Z -> Z) (current_price : Q)
    (i : Z) : Point.t :=
  let price := Py.round (current_price + variation i) 4 in
  let forecast_time := (utcnow i + timedelta_hours i)%Z in
  let timestamp_ms := Py.int (timestamp_of env forecast_time * 1000) in
  {| Point.timestamp := Some timestamp_ms;
     Point.hour := Some (strftime_HM (forecast_time / 1000000));
     Point.price := Some price;
     Point.co2 := Some (or_default (SMARDClient.get_co2_intensity env) 350) |}.

Record Forecast : Type := {
  forecast : list Point.t;
  hours : Z;
  location : option string
}.

Definition get_price_forecast (env : Env) (utcnow : Z -> Z) (hours : Z)
    (location : string) : Forecast + HTTPException :=
  inl (catching
         (let current_price :=
            or_default (SMARDClient.get_current_price env) (30 # 100) in
          Ok {| forecast := map (forecast_entry env utcnow current_price)
                                (Py.range hours);
                hours := hours;
                location := Some location |})
         {| forecast := []; hours := hours; location := None |}).

Record Recommendation : Type := {
  device : string;
  recommendation : string;
  best_time : string;
  cost_now : Q;
  cost_best : Q;
  potential_savings : Q
}.

(** [current_price] of a recommendation request. *)
Definition recommendation_price (env : Env) : Q :=
  or_default (SMARDClient.get_current_price env) (30 # 100).

(** The branch of the conditional expression: [true] for ["now"]. *)
Definition recommends_now (c : Costs.t) : bool :=
  ltb (Costs.savings c) (5 # 100).

Definition get_device_recommendation (env : Env) (db : list UserDevice)
    (device_id : Z) : Recommendation + HTTPException :=
  match List.find (fun d => (id d =? device_id)%Z) db with
  | None => inr (HTTP 404 "Device not found")
  | Some device =>
      let forecast := SMARDClient.get_price_forecast env 24 in
      let current_price := recommendation_price env in
      let c := costs current_price (power_kwh device) forecast in
      inl {| device := name device;
             recommendation := if recommends_now c then "now" else "wait";
             best_time := get (Point.hour (Costs.cheapest c)) "N/A";
             cost_now := Py.round (Costs.cost_now c) 2;
             cost_best := Py.round (Costs.cost_cheapest c) 2;
             potential_savings := Py.round (Costs.savings c) 2 |}
  end.

(** The grid context that [ask_assistant] gathers. *)
Definition grid_data (env : Env) : GridData.t :=
  {| GridData.current :=
       Some {| Current.price := Some (SMARDClient.get_current_price env);
               Current.co2 := Some (SMARDClient.get_co2_intensity env);
               Current.mix := Some (SMARDClient.get_energy_mix env) |};
     GridData.average_price := Some (30 # 100);
     GridData.forecast := Some (SMARDClient.get_price_forecast env 24) |}.

Definition ask_assistant (env : Env) (ollama : Ollama) (query : string)
  : Answer + HTTPException :=
  or_500 (Ok (SmartEnergyAssistant.ask ollama query (grid_data env))).

End Main.

(** ** Environments used in the examples *)

Module Examples.

(** SMARD unreachable: every series is empty. *)
Definition env_down : Env :=
  {| series := fun _ _ => []; utcoffset := fun _ => 0%Z |}.

(** A market price of exactly 0 EUR/MWh while only photovoltaics
    produce. *)
Definition env_zero : Env :=
  {| series := fun filter_name _ =>
       if String.eqb filter_name "price" then [(1767265200000%Z, VNum 0)]
       else if String.eqb filter_name "solar"
            then [(1767265200000%Z, VNum 100)]
            else [];
     utcoffset := fun _ => 3600%Z |}.

(** An ordinary hour: 300 EUR/MWh now, three hours of prices, a mixed
    production. *)
Definition env_day : Env :=
  {| series := fun filter_name _ =>
       if String.eqb filter_name "price"
       then [ (1767258000000%Z, VNum 250); (1767261600000%Z, VNum 220);
              (1767265200000%Z, VNum 300) ]
       else if String.eqb filter_name "solar"
            then [(1767265200000%Z, VNum 4500)]
       else if String.eqb filter_name "wind_onshore"
            then [(1767265200000%Z, VNum 2000)]
       else if String.eqb filter_name "wind_offshore"
            then [(1767265200000%Z, VNum 1000)]
       else if String.eqb filter_name "coal"
            then [(1767265200000%Z, VNum 1500)]
       else if String.eqb filter_name "gas"
            then [(1767265200000%Z, VNum 1000)]
       else [];
     utcoffset := fun _ => 3600%Z |}.

(** A clock that stands still during the request, and one that advances
    by one second from one loop iteration to the next. *)
Definition frozen_clock (i : Z) : Z := 1767265200000000%Z.
Definition ticking_clock (i : Z) : Z := (1767265200000000 + i * 1000000)%Z.

(** A backend that answers, one that answers with an error status, and one
    that is not there. *)
Definition ollama_ok : Ollama :=
  {| post := fun _ => Ok {| status_code := 200;
                            body := Object (Some (JString " Gern. ")) |};
     time_before := 1000;
     time_after := 1000 + (2345 # 1000) |}.

Definition ollama_500 : Ollama :=
  {| post := fun _ => Ok {| status_code := 500; body := NotJson |};
     time_before := 1000;
     time_after := 1001 |}.

Definition ollama_absent : Ollama :=
  {| post := fun _ => Raise RequestException;
     time_before := 1000;
     time_after := 1010 |}.

(** Zero EUR/MWh an hour ago, 25 EUR/MWh now: two kilowatt-hours cost
    exactly five cents more now than at the best point. *)
Definition env_boundary : Env :=
  {| series := fun filter_name _ =>
       if String.eqb filter_name "price"
       then [ (1767261600000%Z, VNum 0); (1767265200000%Z, VNum 25) ]
       else [];
     utcoffset := fun _ => 3600%Z |}.

(** A server on Central European Time in 2026: two hours ahead of UTC from
    29 March, 01:00 UTC, to 25 October, 01:00 UTC, one hour otherwise. *)
Definition env_berlin : Env :=
  {| series := fun _ _ => [];
     utcoffset := fun u =>
       if andb (1774746000 <=? u)%Z (u <? 1792890000)%Z
       then 7200%Z else 3600%Z |}.

(** Clocks that stand at 02:30:00 on 29 March 2026 and on 25 October
    2026. *)
Definition spring_clock (i : Z) : Z := 1774751400000000%Z.
Definition autumn_clock (i : Z) : Z := 1792895400000000%Z.

End Examples.

(** ** More built-ins: sequences and text *)

Module PySeq.

(** The exceptions of indexing and of the division by a length. *)
Inductive exn : Type :=
| IndexError
| KeyError (key : string)
| ZeroDivisionError.

(** [str(e)] *)
Definition exn_text (e : exn) : string :=
  match e with
  | IndexError => "list index out of range"
  | KeyError key => "'" ++ key ++ "'"
  | ZeroDivisionError => "division by zero"
  end.

(** [l[i]] for [i >= 0] *)
Definition index {A} (l : list A) (i : nat) : A + exn :=
  match nth_error l i with
  | Some a => inl a
  | None => inr IndexError
  end.

(** [l[:stop]]: a negative [stop] counts from the end. *)
Definition slice_to {A} (l : list A) (stop : Z) : list A :=
  if (0 <=? stop)%Z then firstn (Z.to_nat stop) l
  else firstn (List.length l - Z.to_nat (- stop)) l.

(** [s.split()]: the maximal runs of characters that are not white space.
    [word] is the run read so far. *)
Definition close (word : option string) (words : list string)
  : list string :=
  match word with
  | Some w => w :: words
  | None => words
  end.

Definition extend (word : option string) (c : ascii) : option string :=
  Some (get word "" ++ String c "").

Fixpoint split_from (word : option string) (s : string) : list string :=
  match s with
  | EmptyString => close word []
  | String a s1 =>
      if Py.space1 a then close word (split_from None s1)
      else match s1 with
           | EmptyString => split_from (extend word a) s1
           | String b s2 =>
               if Py.space2 a b then close word (split_from None s2)
               else match s2 with
                    | EmptyString => split_from (extend word a) s1
                    | String c s3 =>
                        if Py.space3 a b c
                        then close word (split_from None s3)
                        else split_from (extend word a) s1
                    end
           end
  end.

Definition split (s : string) : list string := split_from None s.

(** [s[:n]] on the UTF-8 bytes of [s]: the first [n] characters, each with
    its continuation bytes. *)
Definition is_continuation (c : ascii) : bool :=
  let n := nat_of_ascii c in
  andb (Nat.leb 128 n) (Nat.leb n 191).

Fixpoint take_chars (n : nat) (s : string) : string :=
  match s with
  | EmptyString => EmptyString
  | String c s' =>
      if is_continuation c then String c (take_chars n s')
      else match n with
           | O => EmptyString
           | S n' => String c (take_chars n' s')
           end
  end.

(** A loop that appends [f item] for each item and stops at the first
    exception. *)
Fixpoint for_each {A B} (f : A -> B + exn) (items : list A)
  : list B + exn :=
  match items with
  | [] => inl []
  | item :: rest =>
      match f item with
      | inr e => inr e
      | inl b =>
          match for_each f rest with
          | inr e => inr e
          | inl bs => inl (b :: bs)
          end
      end
  end.

End PySeq.

(** ** [services/weather_client.py] *)

(** The JSON object of [/weather]: [clouds.all], [main.temp],
    [main.humidity], [wind.speed], and the ["weather"] list, of whose
    entries only ["description"] is read. *)
Module CurrentJson.
Record t : Type := {
  clouds_all : option Q;
  main_temp : value;
  main_humidity : value;
  wind_speed : value;
  weather : option (list (option string))
}.
End CurrentJson.

(** One entry of the ["list"] of [/forecast]. *)
Module ItemJson.
Record t : Type := {
  dt : option Z;
  dt_txt : option string;
  main_temp : value;
  clouds_all : option Q
}.
End ItemJson.

(** The OpenWeatherMap side: the configured key, and what a request for a
    position brings back; [None] when the request, the status check or the
    decoding raises [requests.RequestException]. *)
Record OpenWeather : Type := {
  api_key : option string;
  fetch_weather : Q -> Q -> option CurrentJson.t;
  fetch_forecast : Q -> Q -> option (option (list ItemJson.t))
}.

Module WeatherClient.

Definition DEFAULT_LAT : Q := 481351 # 10000.
Definition DEFAULT_LON : Q := 11582 # 1000.

(** [not self.api_key] *)
Definition no_key (ow : OpenWeather) : bool :=
  match api_key ow with
  | None => true
  | Some k => String.eqb k ""
  end.

Record Weather : Type := {
  temp : value;
  clouds : Q;
  description : string;
  solar_estimate : Q;
  humidity : value;
  wind_speed : value
}.

Definition _calculate_solar_estimate (cloud_coverage : Q) : Q :=
  let base_capacity := 1 - (cloud_coverage / 100 * (9 # 10)) in
  Py.round base_capacity 2.

Definition _mock_weather : Weather :=
  {| temp := VNum 15;
     clouds := 20;
     description := "partly cloudy";
     solar_estimate := 8 # 10;
     humidity := VNum 60;
     wind_speed := VNum (35 # 10) |}.

Definition get_current_weather (ow : OpenWeather) (lat lon : value)
  : Weather + PySeq.exn :=
  let lat := or_default lat DEFAULT_LAT in
  let lon := or_default lon DEFAULT_LON in
  if no_key ow then inl _mock_weather
  else
    match fetch_weather ow lat lon with
    | None => inl _mock_weather
    | Some data =>
        let clouds := get (CurrentJson.clouds_all data) 0 in
        let solar_estimate := _calculate_solar_estimate clouds in
        match PySeq.index (get (CurrentJson.weather data) [None]) 0 with
        | inr e => inr e
        | inl first =>
            inl {| temp := CurrentJson.main_temp data;
                   clouds := clouds;
                   description := get first "";
                   solar_estimate := solar_estimate;
                   humidity := CurrentJson.main_humidity data;
                   wind_speed := CurrentJson.wind_speed data |}
        end
    end.

Module Entry.
Record t : Type := {
  timestamp : Z;
  hour : string;
  temp : value;
  clouds : Q;
  solar_estimate : Q
}.
End Entry.

(** The body of the loop of [get_forecast]. *)
Definition forecast_entry (item : ItemJson.t) : Entry.t + PySeq.exn :=
  let clouds := get (ItemJson.clouds_all item) 0 in
  match PySeq.index (PySeq.split (get (ItemJson.dt_txt item) "")) 1 with
  | inr e => inr e
  | inl time =>
      inl {| Entry.timestamp := (get (ItemJson.dt item) 0 * 1000)%Z;
             Entry.hour := PySeq.take_chars 5 time;
             Entry.temp := ItemJson.main_temp item;
             Entry.clouds := clouds;
             Entry.solar_estimate := _calculate_solar_estimate clouds |}
  end.

Definition get_forecast (ow : OpenWeather) (lat lon : value) (hours : Z)
  : list Entry.t + PySeq.exn :=
  let lat := or_default lat DEFAULT_LAT in
  let lon := or_default lon DEFAULT_LON in
  if no_key ow then inl []
  else
    match fetch_forecast ow lat lon with
    | None => inl []
    | Some data =>
        PySeq.for_each forecast_entry
          (PySeq.slice_to (get data []) (hours / 3))
    end.

End WeatherClient.

(** ** [main.py]: the statistics and weather handlers *)

Module Endpoints.

Record Stats : Type := {
  average_price : Q;
  min_price : Q;
  max_price : Q;
  current_price : value
}.

(** The answer of [/api/grid/stats]: the statistics, or the dict with the
    ["error"] text. *)
Inductive GridStats : Type :=
| NoData (error : string)
| Statistics (s : Stats).

(** [f["price"]] *)
Definition price_of (f : Point.t) : Q + PySeq.exn :=
  match Point.price f with
  | Some p => inl p
  | None => inr (PySeq.KeyError "price")
  end.

(** [except Exception as e: raise HTTPException(status_code=500, ...)] *)
Definition or_500 {A} (r : A + PySeq.exn) : A + Main.HTTPException :=
  match r with
  | inl a => inl a
  | inr e => inr (Main.HTTP 500 (PySeq.exn_text e))
  end.

Definition get_grid_stats (env : Env) : GridStats + Main.HTTPException :=
  let forecast := SMARDClient.get_price_forecast env 24 in
  match forecast with
  | [] => inl (NoData "No forecast data available")
  | _ =>
      or_500
        match PySeq.for_each price_of forecast with
        | inr e => inr e
        | inl [] => inr PySeq.ZeroDivisionError
        | inl (p :: ps) =>
            inl (Statistics
                   {| average_price :=
                        Py.round (Py.sum (p :: ps)
                                  / inject_Z (Z.of_nat (List.length (p :: ps))))
                                 4;
                      min_price := min_from (fun x => x) p ps;
                      max_price := max_from (fun x => x) p ps;
                      current_price := SMARDClient.get_current_price env |})
        end
  end.

Definition get_current_weather (ow : OpenWeather)
  : WeatherClient.Weather + Main.HTTPException :=
  or_500 (WeatherClient.get_current_weather ow VNone VNone).

Record WeatherForecast : Type := {
  forecast : list WeatherClient.Entry.t;
  hours : Z
}.

Definition get_weather_forecast (ow : OpenWeather) (hours : Z)
  : WeatherForecast + Main.HTTPException :=
  or_500
    match WeatherClient.get_forecast ow VNone VNone hours with
    | inr e => inr e
    | inl forecast => inl {| forecast := forecast; hours := hours |}
    end.

End Endpoints.

(** ** Weather services used in the examples *)

Module WeatherExamples.

Definition item (dt : Z) (dt_txt : option string) (clouds : Q) : ItemJson.t :=
  {| ItemJson.dt := Some dt;
     ItemJson.dt_txt := dt_txt;
     ItemJson.main_temp := VNum (45 # 10);
     ItemJson.clouds_all := Some clouds |}.

Definition three_items : list ItemJson.t :=
  [ item 1767268800 (Some "2026-01-01 12:00:00") 20;
    item 1767279600 (Some "2026-01-01 15:00:00") 75;
    item 1767290400 (Some "2026-01-01 18:00:00") 100 ].

Definition current_json (weather : option (list (option string)))
  : CurrentJson.t :=
  {| CurrentJson.clouds_all := Some 40;
     CurrentJson.main_temp := VNum (45 # 10);
     CurrentJson.main_humidity := VNum 80;
     CurrentJson.wind_speed := VNum (21 # 10);
     CurrentJson.weather := weather |}.

(** No key configured. *)
Definition ow_no_key : OpenWeather :=
  {| api_key := None;
     fetch_weather := fun _ _ => Some (current_json (Some [Some "mist"]));
     fetch_forecast := fun _ _ => Some (Some three_items) |}.

(** A key and well-formed answers. *)
Definition ow_ok : OpenWeather :=
  {| api_key := Some "k";
     fetch_weather := fun _ _ => Some (current_json (Some [Some "mist"]));
     fetch_forecast := fun _ _ => Some (Some three_items) |}.

(** A key, an empty ["weather"] list, and a forecast whose second entry has
    no ["dt_txt"]. *)
Definition ow_odd : OpenWeather :=
  {| api_key := Some "k";
     fetch_weather := fun _ _ => Some (current_json (Some []));
     fetch_forecast := fun _ _ =>
       Some (Some [ item 1767268800 (Some "2026-01-01 12:00:00") 20;
                    item 1767279600 None 75 ]) |}.

(** A key, and requests that fail. *)
Definition ow_unreachable : OpenWeather :=
  {| api_key := Some "k";
     fetch_weather := fun _ _ => None;
     fetch_forecast := fun _ _ => None |}.

End WeatherExamples.

(** ** Notions used in the statements *)

(** [m] is the first minimal element of [l]: everything before it has a
    strictly larger key, everything after it a key at least as large. *)
Definition first_minimum {A} (key : A -> Q) (m : A) (l : list A) : Prop :=
  exists pre post,
    l = (pre ++ m :: post)%list
    /\ (forall y, In y pre -> key m < key y)
    /\ (forall y, In y post -> key m <= key y).

(** A grid context is fully populated when its current price and CO2
    intensity are numbers and its energy mix is a non-empty dict. *)
Definition populated (data : GridData.t) : Prop :=
  exists cur p c m,
    GridData.current data = Some cur
    /\ Current.price cur = Some (VNum p)
    /\ Current.co2 cur = Some (VNum c)
    /\ Current.mix cur = Some m
    /\ m <> [].

(** A point of a SMARD series carries a reading when its value is not
    null. *)
Definition has_reading (tv : Z * value) : bool :=
  match snd tv with
  | VNum _ => true
  | VNone => false
  end.

(** * Properties *)

(** ** Sanity checks of the built-ins *)

Example round_example : Py.round (9 # 40) 4 == 225 # 1000.
Proof. vm_compute. reflexivity. Qed.

Example format_example : format_f 4 (9 # 40) = "0.2250".
Proof. vm_compute. reflexivity. Qed.

Example format_negative : format_f 2 (- (1 # 8)) = "-0.12".
Proof. vm_compute. reflexivity. Qed.

Example lower_example : lower "Wann ist GRÜN?" = "wann ist grün?".
Proof. vm_compute. reflexivity. Qed.

Example strip_example : strip "  ok
 " = "ok".
Proof. vm_compute. reflexivity. Qed.

(** A no-break space (U+00A0) and a unit separator (U+001F) are white
    space as well. *)
Example strip_no_break_space :
  strip (String (ascii_of_nat 194) (String (ascii_of_nat 160)
           ("ok" ++ String (ascii_of_nat 31) EmptyString)))
  = "ok".
Proof. vm_compute. reflexivity. Qed.

Example split_no_break_space :
  PySeq.split ("2026-01-01" ++ String (ascii_of_nat 194)
                 (String (ascii_of_nat 160) "12:00:00"))
  = ["2026-01-01"; "12:00:00"].
Proof. vm_compute. reflexivity. Qed.

(** ** Facts about the built-ins *)

Lemma ltb_lt (a b : Q) : ltb a b = true <-> a < b.
Proof.
  unfold ltb. rewrite negb_true_iff.
  split; intro H.
  - apply Qnot_le_lt. intro Hle. apply Qle_bool_iff in Hle. congruence.
  - destruct (Qle_bool b a) eqn:E; [|reflexivity].
    apply Qle_bool_iff in E. exfalso. exact (Qlt_not_le _ _ H E).
Qed.

Lemma ltb_ge (a b : Q) : ltb a b = false <-> b <= a.
Proof.
  unfold ltb. rewrite negb_false_iff. apply Qle_bool_iff.
Qed.

Lemma ltb_comp (a a' b b' : Q) : a == a' -> b == b' -> ltb a b = ltb a' b'.
Proof.
  intros Ha Hb.
  destruct (ltb a b) eqn:E; symmetry.
  - apply ltb_lt. apply ltb_lt in E. rewrite <- Ha, <- Hb. exact E.
  - apply ltb_ge. apply ltb_ge in E. rewrite <- Ha, <- Hb. exact E.
Qed.

Lemma round_half_even_comp (q q' : Q) :
  q == q' -> round_half_even q = round_half_even q'.
Proof.
  intro H. unfold round_half_even.
  rewrite <- (Qfloor_comp _ _ H).
  assert (Hr : q - inject_Z (Qfloor q) == q' - inject_Z (Qfloor q))
    by (apply Qplus_comp; [exact H | reflexivity]).
  rewrite (ltb_comp _ _ (1 # 2) (1 # 2) Hr (Qeq_refl _)).
  rewrite (ltb_comp (1 # 2) (1 # 2) _ _ (Qeq_refl _) Hr).
  reflexivity.
Qed.

Lemma round_comp (q q' : Q) (n : nat) : q == q' -> Py.round q n = Py.round q' n.
Proof.
  intro H. unfold Py.round.
  rewrite (round_half_even_comp (q * inject_Z (pow10 n))
             (q' * inject_Z (pow10 n))); [reflexivity|].
  rewrite H. reflexivity.
Qed.

Lemma round_half_even_near (q : Q) :
  q - (1 # 2) <= inject_Z (round_half_even q) <= q + (1 # 2).
Proof.
  unfold round_half_even.
  pose proof (Qfloor_le q) as Hlo.
  pose proof (Qlt_floor q) as Hhi.
  rewrite inject_Z_plus in Hhi. change (inject_Z 1) with 1 in Hhi.
  destruct (ltb (q - inject_Z (Qfloor q)) (1 # 2)) eqn:E1.
  - apply ltb_lt in E1. lra.
  - apply ltb_ge in E1.
    destruct (ltb (1 # 2) (q - inject_Z (Qfloor q))) eqn:E2.
    + rewrite inject_Z_plus. change (inject_Z 1) with 1. lra.
    + apply ltb_ge in E2.
      destruct (Z.even (Qfloor q)).
      * lra.
      * rewrite inject_Z_plus. change (inject_Z 1) with 1. lra.
Qed.

(** [round(q, n)] is within half a unit of the last place of [q]. *)
Lemma round_near_1 (q : Q) :
  q - (1 # 20) <= Py.round q 1 <= q + (1 # 20).
Proof.
  unfold Py.round.
  change (inject_Z (pow10 1)) with 10.
  pose proof (round_half_even_near (q * 10)) as [Hlo Hhi].
  set (z := inject_Z (round_half_even (q * 10))) in *.
  setoid_replace (z / 10) with (z * (1 # 10)) by (field).
  lra.
Qed.

Lemma round_near_2 (q : Q) :
  q - (1 # 200) <= Py.round q 2 <= q + (1 # 200).
Proof.
  unfold Py.round.
  change (inject_Z (pow10 2)) with 100.
  pose proof (round_half_even_near (q * 100)) as [Hlo Hhi].
  set (z := inject_Z (round_half_even (q * 100))) in *.
  setoid_replace (z / 100) with (z * (1 # 100)) by (field).
  lra.
Qed.

Lemma round_near_4 (q : Q) :
  q - (1 # 20000) <= Py.round q 4 <= q + (1 # 20000).
Proof.
  unfold Py.round.
  change (inject_Z (pow10 4)) with 10000.
  pose proof (round_half_even_near (q * 10000)) as [Hlo Hhi].
  set (z := inject_Z (round_half_even (q * 10000))) in *.
  setoid_replace (z / 10000) with (z * (1 # 10000)) by (field).
  lra.
Qed.

Lemma first_minimum_le {A} (key : A -> Q) (m : A) (l : list A) :
  first_minimum key m l -> forall y, In y l -> key m <= key y.
Proof.
  intros (pre & post & -> & Hpre & Hpost) y Hy.
  apply in_app_or in Hy. destruct Hy as [Hy | [<- | Hy]].
  - apply Qlt_le_weak. auto.
  - apply Qle_refl.
  - auto.
Qed.

Lemma first_minimum_in {A} (key : A -> Q) (m : A) (l : list A) :
  first_minimum key m l -> In m l.
Proof.
  intros (pre & post & -> & _). apply in_or_app. right. left. reflexivity.
Qed.

Lemma min_from_first_minimum {A} (key : A -> Q) (xs : list A) :
  forall best, first_minimum key (min_from key best xs) (best :: xs).
Proof.
  induction xs as [|y ys IH]; intro best; simpl.
  - exists [], []. repeat split; simpl; intros; contradiction.
  - destruct (ltb (key y) (key best)) eqn:E.
    + apply ltb_lt in E.
      pose proof (IH y) as Hm.
      pose proof (first_minimum_le _ _ _ Hm y (or_introl eq_refl)) as Hle.
      destruct Hm as (pre & post & Heq & Hpre & Hpost).
      exists (best :: pre), post. repeat split.
      * simpl. rewrite Heq. reflexivity.
      * intros z [<- | Hz]; [|auto].
        eapply Qle_lt_trans; eassumption.
      * assumption.
    + apply ltb_ge in E.
      destruct (IH best) as (pre & post & Heq & Hpre & Hpost).
      destruct pre as [|b pre'].
      * simpl in Heq. injection Heq as Hb Hys.
        exists [], (y :: post). repeat split.
        -- simpl. rewrite <- Hb, Hys. reflexivity.
        -- intros z [].
        -- intros z [<- | Hz]; [|auto].
           rewrite <- Hb. exact E.
      * simpl in Heq. injection Heq as Hb Hys. subst b.
        exists (best :: y :: pre'), post. repeat split.
        -- simpl. do 2 f_equal. exact Hys.
        -- intros z [<- | [<- | Hz]].
           ++ apply Hpre. left. reflexivity.
           ++ eapply Qlt_le_trans; [|exact E].
              apply Hpre. left. reflexivity.
           ++ apply Hpre. right. exact Hz.
        -- assumption.
Qed.

(** ** The cost computation *)

(** On a non-empty forecast the cost computation picks the first point of
    least price. *)
Lemma costs_cheapest_first_minimum (current_price power_kwh : Q)
    (x : Point.t) (xs : list Point.t) :
  first_minimum price_key
    (Costs.cheapest (costs current_price power_kwh (x :: xs))) (x :: xs).
Proof.
  unfold costs. simpl. apply min_from_first_minimum.
Qed.

Lemma costs_savings (current_price power_kwh : Q) (forecast : list Point.t) :
  let c := costs current_price power_kwh forecast in
  Costs.cost_now c = current_price * power_kwh
  /\ Costs.cost_cheapest c
     = get (Point.price (Costs.cheapest c)) 0 * power_kwh
  /\ Costs.savings c = Costs.cost_now c - Costs.cost_cheapest c.
Proof.
  repeat split.
Qed.

(** [get_device_recommendation] answers ["now"] exactly below the
    threshold of five cents. *)
Lemma recommends_now_iff (c : Costs.t) :
  Main.recommends_now c = true <-> Costs.savings c < 5 # 100.
Proof.
  unfold Main.recommends_now. apply ltb_lt.
Qed.

(** [_get_device_advice] advises to wait exactly above the threshold. *)
Lemma advises_waiting_iff (c : Costs.t) :
  SmartEnergyAssistant.advises_waiting c = true <-> 5 # 100 < Costs.savings c.
Proof.
  unfold SmartEnergyAssistant.advises_waiting. apply ltb_lt.
Qed.

(** The two tests agree except at savings of exactly five cents, where
    neither is true: the endpoint then answers "wait" and the assistant
    "run now". *)
Lemma advice_paths_agree_iff (c : Costs.t) :
  Main.recommends_now c = negb (SmartEnergyAssistant.advises_waiting c)
  <-> ~ Costs.savings c == 5 # 100.
Proof.
  unfold Main.recommends_now, SmartEnergyAssistant.advises_waiting.
  destruct (ltb (Costs.savings c) (5 # 100)) eqn:E1;
    destruct (ltb (5 # 100) (Costs.savings c)) eqn:E2; simpl;
    try apply ltb_lt in E1; try apply ltb_lt in E2;
    try apply ltb_ge in E1; try apply ltb_ge in E2.
  - split; [intro H; discriminate H|]. intros _. lra.
  - split; [intros _ H; rewrite H in E1; lra | reflexivity].
  - split; [intros _ H; rewrite H in E2; lra | reflexivity].
  - split; [intro H; discriminate H|].
    intro H. exfalso. apply H. apply Qle_antisym; assumption.
Qed.

Lemma get_device_recommendation_found (env : Env) (db : list UserDevice)
    (device_id : Z) (d : UserDevice) :
  List.find (fun d => (id d =? device_id)%Z) db = Some d ->
  let c := costs (Main.recommendation_price env) (power_kwh d)
             (SMARDClient.get_price_forecast env 24) in
  exists r,
    Main.get_device_recommendation env db device_id = inl r
    /\ Main.device r = name d
    /\ Main.recommendation r
       = (if Main.recommends_now c then "now" else "wait")
    /\ Main.best_time r = get (Point.hour (Costs.cheapest c)) "N/A"
    /\ Main.cost_now r = Py.round (Costs.cost_now c) 2
    /\ Main.cost_best r = Py.round (Costs.cost_cheapest c) 2
    /\ Main.potential_savings r = Py.round (Costs.savings c) 2.
Proof.
  intros Hfind c. unfold Main.get_device_recommendation. rewrite Hfind.
  eexists. split; [reflexivity|]. repeat split.
Qed.

(** C4 -- at savings of exactly five cents the two implementations of the
    advice disagree.  With 0 EUR/MWh an hour ago and 25 EUR/MWh now, a
    washing cycle of 2 kWh costs 0.05 now and 0 at the best point, so
    savings are 0.05 and [savings < 0.05] is false: the recommendation
    endpoint answers "wait" for the washing machine, while the assistant's
    washing advice, which tests [savings > 0.05], says it can run now. *)
Theorem C4_device_advice_at_threshold :
  let c := costs (25 # 1000) 2
             (SMARDClient.get_price_forecast Examples.env_boundary 24) in
  Main.recommendation_price Examples.env_boundary == 25 # 1000
  /\ Costs.savings c == 5 # 100
  /\ ~ Costs.savings c < 5 # 100
  /\ (exists r,
        Main.get_device_recommendation Examples.env_boundary seed_devices 1
        = inl r
        /\ Main.device r = "Waschmaschine"
        /\ Main.recommendation r = "wait")
  /\ Main.ask_assistant Examples.env_boundary Examples.ollama_absent
       "Soll ich jetzt waschen?"
     = inl (SmartEnergyAssistant.instant
              "✅ Waschmaschine kann jetzt laufen. Kosten: 0.05€ (kaum Unterschied zu günstigster Zeit)").
Proof.
  split; [|split; [|split; [|split]]].
  - vm_compute. reflexivity.
  - vm_compute. reflexivity.
  - vm_compute. intro H. discriminate H.
  - eexists. split; [reflexivity|]. split; vm_compute; reflexivity.
  - vm_compute. reflexivity.
Qed.

(** C9 -- with an empty forecast the best point is the empty dict, so the
    recommendation takes the cost at the best point to be 0 and the savings
    to be the cost now, which is the current price times the device's
    energy per use.  The answer of the endpoint names the device, has no
    best time (["N/A"]), a cost at the best point of 0, and savings equal
    to its cost now, which is the current price times the energy per use
    brought to cents: less than a cent away from the product, with 0.0001
    per kilowatt-hour to spare for the last decimal of the price. *)
Theorem C9_empty_forecast_costs (env : Env) (db : list UserDevice)
    (device_id : Z) (d : UserDevice) :
  List.find (fun d => (id d =? device_id)%Z) db = Some d ->
  SMARDClient.get_price_forecast env 24 = [] ->
  let c := costs (Main.recommendation_price env) (power_kwh d) [] in
  let slack := (1 # 100) + (1 # 10000) * Qabs (power_kwh d) in
  Costs.cost_cheapest c == 0
  /\ Costs.savings c == Costs.cost_now c
  /\ Costs.cost_now c = Main.recommendation_price env * power_kwh d
  /\ exists r,
       Main.get_device_recommendation env db device_id = inl r
       /\ Main.cost_best r == 0
       /\ Main.potential_savings r = Main.cost_now r
       /\ Main.device r = name d
       /\ Main.best_time r = "N/A"
       /\ Main.recommendation_price env * power_kwh d - slack
          < Main.cost_now r
       /\ Main.cost_now r
          < Main.recommendation_price env * power_kwh d + slack.
Proof.
  intros Hfind Hempty c slack.
  assert (Hslack : 1 # 100 <= slack).
  { unfold slack. pose proof (Qabs_nonneg (power_kwh d)) as Habs.
    set (w := Qabs (power_kwh d)) in *. lra. }
  assert (Hbest : Costs.cost_cheapest c == 0)
    by (unfold c, costs; simpl; ring).
  assert (Hsav : Costs.savings c == Costs.cost_now c)
    by (unfold c, costs; simpl; ring).
  repeat split; try assumption.
  destruct (get_device_recommendation_found env db device_id d Hfind)
    as (r & Hr & Hdev & _ & Htime & Hnow & Hcb & Hps).
  rewrite Hempty in Htime, Hnow, Hcb, Hps. fold c in Htime, Hnow, Hcb, Hps.
  assert (Hnear : Main.recommendation_price env * power_kwh d - (1 # 200)
                  <= Main.cost_now r
                  <= Main.recommendation_price env * power_kwh d + (1 # 200))
    by (rewrite Hnow; apply (round_near_2 (Costs.cost_now c))).
  destruct Hnear as [Hlo Hhi].
  exists r. split; [exact Hr|].
  split; [rewrite Hcb, (round_comp _ 0 2 Hbest); vm_compute; reflexivity|].
  split; [rewrite Hps, Hnow; apply round_comp; exact Hsav|].
  split; [exact Hdev|].
  split; [exact Htime|].
  split; lra.
Qed.

Lemma C9_empty_forecast_costs_witness :
  let c := costs (Main.recommendation_price Examples.env_down) (15 # 10) [] in
  Costs.cost_cheapest c == 0
  /\ Costs.savings c == Costs.cost_now c
  /\ Costs.cost_now c = Main.recommendation_price Examples.env_down * (15 # 10)
  /\ exists r,
       Main.get_device_recommendation Examples.env_down seed_devices 2 = inl r
       /\ Main.cost_best r == 0
       /\ Main.potential_savings r = Main.cost_now r
       /\ Main.device r = "Geschirrspüler"
       /\ Main.best_time r = "N/A"
       /\ Main.recommendation_price Examples.env_down * (15 # 10)
          - ((1 # 100) + (1 # 10000) * Qabs (15 # 10))
          < Main.cost_now r
       /\ Main.cost_now r
          < Main.recommendation_price Examples.env_down * (15 # 10)
            + ((1 # 100) + (1 # 10000) * Qabs (15 # 10)).
Proof.
  apply (C9_empty_forecast_costs Examples.env_down seed_devices 2
           {| id := 2; name := "Geschirrspüler"; device_type := "appliance";
              power_kwh := 15 # 10; usage_per_week := 4; flexible := 1;
              room := Some "kitchen" |});
    reflexivity.
Defined.

(** With the service down the dishwasher (1.5 kWh at the price 0.30 put in
    place of the missing one) is reported at 0.45 now, 0 at the best time
    and 0.45 of savings. *)
Example empty_forecast_dishwasher :
  exists r,
    Main.get_device_recommendation Examples.env_down seed_devices 2 = inl r
    /\ Main.cost_now r == 45 # 100
    /\ Main.cost_best r == 0
    /\ Main.potential_savings r == 45 # 100.
Proof.
  eexists. split; [reflexivity|].
  split; [|split]; vm_compute; reflexivity.
Qed.

(** ** The rule router *)

Lemma scan_cons (keyword : string) (handler : SmartEnergyAssistant.Handler)
    (rest : list (string * SmartEnergyAssistant.Handler))
    (query_lower : string) (data : GridData.t) :
  SmartEnergyAssistant.scan ((keyword, handler) :: rest) query_lower data
  = if contains keyword query_lower then
      match handler data with
      | Ok answer => Some (SmartEnergyAssistant.instant answer)
      | Raise _ => SmartEnergyAssistant.scan rest query_lower data
      end
    else SmartEnergyAssistant.scan rest query_lower data.
Proof. reflexivity. Qed.

(** Rules whose keyword does not occur in the query are passed over. *)
Lemma scan_skip (pre rest : list (string * SmartEnergyAssistant.Handler))
    (query_lower : string) (data : GridData.t) :
  (forall k h, In (k, h) pre -> contains k query_lower = false) ->
  SmartEnergyAssistant.scan (pre ++ rest) query_lower data
  = SmartEnergyAssistant.scan rest query_lower data.
Proof.
  induction pre as [|[k h] pre IH]; intro Hno; [reflexivity|].
  simpl app. rewrite scan_cons, (Hno k h (or_introl eq_refl)).
  apply IH. intros k' h' Hin. apply (Hno k' h'). right. exact Hin.
Qed.

(** C8 -- the router decides by the order of the rule table.  Let [k] be
    the first keyword of the table that occurs in the lower-cased query
    (no keyword of the rules before it occurs), and let a second keyword
    [k2], later in the table, occur in the query as well, at whatever
    position of the text, before or after [k].  Then the handler of [k] is
    the one invoked: its answer is the instant answer; only when it raises
    does the scan go on with the rules after it.  When no keyword of the
    table occurs, the answer is that of the generative bridge. *)
Theorem C8_router_priority (ollama : Ollama) (q : string)
    (data : GridData.t) :
  (forall pre k h post k2 h2,
      SmartEnergyAssistant.rules = (pre ++ (k, h) :: post)%list ->
      (forall k' h', In (k', h') pre -> contains k' (lower q) = false) ->
      contains k (lower q) = true ->
      In (k2, h2) post ->
      contains k2 (lower q) = true ->
      SmartEnergyAssistant.ask ollama q data
      = match h data with
        | Ok a => SmartEnergyAssistant.instant a
        | Raise _ =>
            match SmartEnergyAssistant.scan post (lower q) data with
            | Some r => r
            | None => SmartEnergyAssistant._ask_ollama ollama q data
            end
        end)
  /\ ((forall k h,
          In (k, h) SmartEnergyAssistant.rules ->
          contains k (lower q) = false) ->
      SmartEnergyAssistant.ask ollama q data
      = SmartEnergyAssistant._ask_ollama ollama q data).
Proof.
  split.
  - intros pre k h post k2 h2 Hrules Hpre Hk _ _.
    unfold SmartEnergyAssistant.ask. rewrite Hrules.
    rewrite (scan_skip pre _ _ _ Hpre), scan_cons, Hk.
    destruct (h data); reflexivity.
  - intro Hnone.
    unfold SmartEnergyAssistant.ask.
    rewrite <- (app_nil_r SmartEnergyAssistant.rules).
    rewrite (scan_skip _ [] _ _ Hnone). reflexivity.
Qed.

Ltac no_keyword_occurs :=
  let k := fresh "k" in
  let h := fresh "h" in
  let Hin := fresh "Hin" in
  intros k h Hin; simpl in Hin;
  repeat (destruct Hin as [Hin | Hin];
          [injection Hin as <- _; vm_compute; reflexivity|]);
  contradiction.

Lemma C8_router_priority_witness :
  (Py.find "dishwasher" (lower "Dishwasher an?") = Some 0%nat
   /\ Py.find "wash" (lower "Dishwasher an?") = Some 4%nat)
  /\ SmartEnergyAssistant.ask Examples.ollama_absent "Dishwasher an?"
       (Main.grid_data Examples.env_day)
     = SmartEnergyAssistant.instant
         "⏳ Waschmaschine besser um 11:00 laufen lassen. Spart 0.16€ (jetzt: 0.60€ vs. dann: 0.44€)"
  /\ SmartEnergyAssistant.ask Examples.ollama_absent "Hallo!"
       (Main.grid_data Examples.env_day)
     = SmartEnergyAssistant._ask_ollama Examples.ollama_absent "Hallo!"
         (Main.grid_data Examples.env_day).
Proof.
  split; [split; vm_compute; reflexivity|]. split.
  - destruct (C8_router_priority Examples.ollama_absent "Dishwasher an?"
                (Main.grid_data Examples.env_day)) as [Hfirst _].
    etransitivity.
    + apply (Hfirst (firstn 13 SmartEnergyAssistant.rules) "wash"
               SmartEnergyAssistant._get_washing_advice
               (skipn 14 SmartEnergyAssistant.rules)
               "dishwasher" SmartEnergyAssistant._get_dishwasher_advice).
      * reflexivity.
      * no_keyword_occurs.
      * vm_compute. reflexivity.
      * simpl. right. left. reflexivity.
      * vm_compute. reflexivity.
    + vm_compute. reflexivity.
  - destruct (C8_router_priority Examples.ollama_absent "Hallo!"
                (Main.grid_data Examples.env_day)) as [_ Hnone].
    apply Hnone. no_keyword_occurs.
Defined.

Lemma falsy_null_or_zero (v : value) :
  falsy v = true <-> v = VNone \/ exists q, v = VNum q /\ q == 0.
Proof.
  destruct v as [|q]; simpl.
  - split; auto.
  - rewrite Qeq_bool_iff. split.
    + intro H. right. exists q. auto.
    + intros [H | (q' & H & Hq)]; [discriminate|].
      injection H as ->. exact Hq.
Qed.

(** C10 -- when the current price that reaches the handlers is null or
    zero, the price-status handler returns the fixed message that price
    data are not available and does not raise, so a query with the keyword
    "preis" or "price" gets that message as an instant answer; likewise
    the CO2-status handler for a null or zero CO2 value, for a query whose
    first keyword in table order is "co2". *)
Theorem C10_missing_data_messages (data : GridData.t) :
  let cur := get (GridData.current data) Current.empty in
  (get (Current.price cur) VNone = VNone
   \/ (exists q, get (Current.price cur) VNone = VNum q /\ q == 0) ->
   SmartEnergyAssistant._get_price_info data
   = Ok "Aktuelle Preisdaten sind nicht verfügbar."
   /\ forall ollama q,
        contains "preis" (lower q) = true
        \/ contains "price" (lower q) = true ->
        SmartEnergyAssistant.ask ollama q data
        = SmartEnergyAssistant.instant
            "Aktuelle Preisdaten sind nicht verfügbar.")
  /\ (get (Current.co2 cur) VNone = VNone
      \/ (exists q, get (Current.co2 cur) VNone = VNum q /\ q == 0) ->
      SmartEnergyAssistant._get_co2_info data
      = Ok "CO2-Daten sind nicht verfügbar."
      /\ forall ollama q,
           (forall k h,
               In (k, h) (firstn 9 SmartEnergyAssistant.rules) ->
               contains k (lower q) = false) ->
           contains "co2" (lower q) = true ->
           SmartEnergyAssistant.ask ollama q data
           = SmartEnergyAssistant.instant "CO2-Daten sind nicht verfügbar.").
Proof.
  intro cur. split.
  - intro Hv. apply falsy_null_or_zero in Hv.
    assert (Hinfo : SmartEnergyAssistant._get_price_info data
                    = Ok "Aktuelle Preisdaten sind nicht verfügbar.").
    { unfold SmartEnergyAssistant._get_price_info. fold cur.
      cbv zeta. rewrite Hv. reflexivity. }
    split; [exact Hinfo|].
    intros ollama q Hq.
    unfold SmartEnergyAssistant.ask.
    change SmartEnergyAssistant.rules
      with (("preis", SmartEnergyAssistant._get_price_info)
              :: ("price", SmartEnergyAssistant._get_price_info)
              :: skipn 2 SmartEnergyAssistant.rules).
    rewrite scan_cons, Hinfo.
    destruct (contains "preis" (lower q)) eqn:E1; [reflexivity|].
    rewrite scan_cons, Hinfo.
    destruct Hq as [Hq | Hq]; [discriminate|].
    rewrite Hq. reflexivity.
  - intro Hv. apply falsy_null_or_zero in Hv.
    assert (Hinfo : SmartEnergyAssistant._get_co2_info data
                    = Ok "CO2-Daten sind nicht verfügbar.").
    { unfold SmartEnergyAssistant._get_co2_info. fold cur.
      cbv zeta. rewrite Hv. reflexivity. }
    split; [exact Hinfo|].
    intros ollama q Hpre Hq.
    unfold SmartEnergyAssistant.ask.
    change SmartEnergyAssistant.rules
      with (firstn 9 SmartEnergyAssistant.rules
              ++ ("co2", SmartEnergyAssistant._get_co2_info)
              :: skipn 10 SmartEnergyAssistant.rules)%list.
    rewrite (scan_skip _ _ _ _ Hpre), scan_cons, Hq, Hinfo. reflexivity.
Qed.

Lemma C10_missing_data_messages_witness :
  (SmartEnergyAssistant._get_price_info (Main.grid_data Examples.env_zero)
   = Ok "Aktuelle Preisdaten sind nicht verfügbar."
   /\ SmartEnergyAssistant.ask Examples.ollama_absent "Wie ist der Preis?"
        (Main.grid_data Examples.env_zero)
      = SmartEnergyAssistant.instant
          "Aktuelle Preisdaten sind nicht verfügbar.")
  /\ (SmartEnergyAssistant._get_co2_info (Main.grid_data Examples.env_down)
      = Ok "CO2-Daten sind nicht verfügbar."
      /\ SmartEnergyAssistant.ask Examples.ollama_absent "Wie viel CO2?"
           (Main.grid_data Examples.env_down)
         = SmartEnergyAssistant.instant "CO2-Daten sind nicht verfügbar.").
Proof.
  split.
  - destruct (C10_missing_data_messages (Main.grid_data Examples.env_zero))
      as [Hprice _].
    destruct Hprice as [Hinfo Hask].
    + right. eexists. split; [vm_compute; reflexivity | reflexivity].
    + split; [exact Hinfo|].
      apply Hask. left. vm_compute. reflexivity.
  - destruct (C10_missing_data_messages (Main.grid_data Examples.env_down))
      as [_ Hco2].
    destruct Hco2 as [Hinfo Hask].
    + left. vm_compute. reflexivity.
    + split; [exact Hinfo|].
      apply Hask; [no_keyword_occurs | vm_compute; reflexivity].
Defined.

(** ** The generative bridge *)

(** C3 (counterexample) -- the backend answers with status 200 and a JSON
    object with a string under "response"; the result's type is "ai", not
    "generated". *)
Lemma C3_counterexample :
  let data := Main.grid_data Examples.env_day in
  let result :=
    SmartEnergyAssistant._ask_ollama Examples.ollama_ok "Hallo!" data in
  post Examples.ollama_ok (SmartEnergyAssistant._build_prompt "Hallo!" data)
  = Ok {| status_code := 200; body := Object (Some (JString " Gern. ")) |}
  /\ type result = "ai"
  /\ type result <> "generated"
  /\ confidence result = "medium"
  /\ processing_time_ms result = 2345%Z.
Proof.
  repeat split; try (vm_compute; reflexivity).
  vm_compute. discriminate.
Qed.

(** C3 (amended) -- for every query that reaches the generative bridge:
    when the backend answers with status 200 and a JSON object whose
    "response" is a string (or missing), the result is that text, stripped,
    with type "ai", confidence "medium" and the elapsed milliseconds; when
    the request raises (time-out, network error, backend absent), when the
    status is not 200, and when the body cannot be read, the result is the
    fixed apology with type "fallback", confidence "low" and latency 0;
    the assistant endpoint returns it as an answer, never as an error. *)
Theorem C3_generative_bridge (ollama : Ollama) (q : string)
    (data : GridData.t) :
  let result := SmartEnergyAssistant._ask_ollama ollama q data in
  let prompt := SmartEnergyAssistant._build_prompt q data in
  (forall resp text,
      post ollama prompt = Ok resp ->
      status_code resp = 200%Z ->
      SmartEnergyAssistant.response_text (body resp) = Ok text ->
      result = {| answer := text;
                  type := "ai";
                  confidence := "medium";
                  processing_time_ms :=
                    Py.int ((time_after ollama - time_before ollama)
                            * 1000) |})
  /\ (forall e,
         post ollama prompt = Raise e ->
         result = SmartEnergyAssistant._fallback_answer q)
  /\ (forall resp,
         post ollama prompt = Ok resp ->
         status_code resp <> 200%Z ->
         result = SmartEnergyAssistant._fallback_answer q)
  /\ (forall resp e,
         post ollama prompt = Ok resp ->
         SmartEnergyAssistant.response_text (body resp) = Raise e ->
         result = SmartEnergyAssistant._fallback_answer q)
  /\ SmartEnergyAssistant._fallback_answer q
     = {| answer := "Entschuldigung, ich konnte deine Frage nicht verarbeiten. Versuche konkretere Fragen wie 'Wann ist Strom günstig?' oder 'Soll ich jetzt laden?'";
          type := "fallback";
          confidence := "low";
          processing_time_ms := 0 |}
  /\ (forall env,
         SmartEnergyAssistant.scan SmartEnergyAssistant.rules (lower q)
           (Main.grid_data env) = None ->
         Main.ask_assistant env ollama q
         = inl (SmartEnergyAssistant._ask_ollama ollama q
                  (Main.grid_data env))).
Proof.
  intros result prompt.
  unfold result, SmartEnergyAssistant._ask_ollama. fold prompt.
  repeat split.
  - intros resp text Hpost Hstatus Htext.
    rewrite Hpost. simpl. rewrite Hstatus, Htext. reflexivity.
  - intros e Hpost. rewrite Hpost. reflexivity.
  - intros resp Hpost Hstatus. rewrite Hpost. simpl.
    apply Z.eqb_neq in Hstatus. rewrite Hstatus. reflexivity.
  - intros resp e Hpost Htext. rewrite Hpost. simpl.
    rewrite Htext. destruct (status_code resp =? 200)%Z; reflexivity.
  - intros env Hscan.
    unfold Main.ask_assistant, SmartEnergyAssistant.ask.
    rewrite Hscan. reflexivity.
Qed.

Lemma C3_generative_bridge_witness :
  SmartEnergyAssistant._ask_ollama Examples.ollama_ok "Hallo!"
    (Main.grid_data Examples.env_day)
  = {| answer := "Gern."; type := "ai"; confidence := "medium";
       processing_time_ms := 2345 |}
  /\ SmartEnergyAssistant._ask_ollama Examples.ollama_absent "Hallo!"
       (Main.grid_data Examples.env_day)
     = SmartEnergyAssistant._fallback_answer "Hallo!"
  /\ SmartEnergyAssistant._ask_ollama Examples.ollama_500 "Hallo!"
       (Main.grid_data Examples.env_day)
     = SmartEnergyAssistant._fallback_answer "Hallo!"
  /\ Main.ask_assistant Examples.env_day Examples.ollama_absent "Hallo!"
     = inl (SmartEnergyAssistant._ask_ollama Examples.ollama_absent "Hallo!"
              (Main.grid_data Examples.env_day)).
Proof.
  split; [|split; [|split]].
  - destruct (C3_generative_bridge Examples.ollama_ok "Hallo!"
                (Main.grid_data Examples.env_day)) as [Hok _].
    apply (Hok {| status_code := 200;
                  body := Object (Some (JString " Gern. ")) |} "Gern.");
      reflexivity.
  - destruct (C3_generative_bridge Examples.ollama_absent "Hallo!"
                (Main.grid_data Examples.env_day)) as (_ & Hraise & _).
    apply (Hraise RequestException). reflexivity.
  - destruct (C3_generative_bridge Examples.ollama_500 "Hallo!"
                (Main.grid_data Examples.env_day)) as (_ & _ & Hstatus & _).
    apply (Hstatus {| status_code := 500; body := NotJson |});
      [reflexivity | discriminate].
  - destruct (C3_generative_bridge Examples.ollama_absent "Hallo!"
                (Main.grid_data Examples.env_day))
      as (_ & _ & _ & _ & _ & Hinl).
    apply Hinl. vm_compute. reflexivity.
Defined.

(** The answer is stripped of every kind of white space: a no-break space
    (U+00A0) in front and a unit separator (U+001F) behind go as well. *)
Example generated_answer_stripped :
  answer
    (SmartEnergyAssistant._ask_ollama
       {| post := fun _ =>
            Ok {| status_code := 200;
                  body :=
                    Object
                      (Some (JString
                               (String (ascii_of_nat 194)
                                  (String (ascii_of_nat 160)
                                     ("Gern."
                                        ++ String (ascii_of_nat 31)
                                             EmptyString))))) |};
          time_before := 1000;
          time_after := 1001 |}
       "Hallo!" (Main.grid_data Examples.env_day))
  = "Gern.".
Proof. vm_compute. reflexivity. Qed.

(** ** What reaches the assistant and the recommendation *)

Lemma or_default_nonzero (v : value) (d : Q) :
  ~ d == 0 -> ~ or_default v d == 0.
Proof.
  intro Hd. destruct v as [|q]; simpl; [exact Hd|].
  destruct (Qeq_bool q 0) eqn:E; [exact Hd|].
  apply Qeq_bool_neq. exact E.
Qed.

Lemma get_co2_intensity_none (env : Env) :
  SMARDClient.get_co2_intensity env = VNone
  <-> SMARDClient.get_energy_mix env = [].
Proof.
  unfold SMARDClient.get_co2_intensity.
  destruct (SMARDClient.get_energy_mix env); split;
    intro H; try reflexivity; discriminate.
Qed.

(** C1 (counterexample) -- with SMARD unreachable the grid context that
    [ask_assistant] hands to the assistant has a null price, a null CO2
    value and an empty mix; the charging-advice handler compares the null
    price and raises. *)
Lemma C1_counterexample :
  GridData.current (Main.grid_data Examples.env_down)
  = Some {| Current.price := Some VNone;
            Current.co2 := Some VNone;
            Current.mix := Some [] |}
  /\ ~ populated (Main.grid_data Examples.env_down)
  /\ SmartEnergyAssistant._get_charging_advice
       (Main.grid_data Examples.env_down) = Raise TypeError.
Proof.
  split; [reflexivity|]. split; [|reflexivity].
  intros (cur & p & c & m & Hcur & Hp & _).
  vm_compute in Hcur. injection Hcur as <-. discriminate Hp.
Qed.

(** C1 (amended) -- for every assistant query the assistant receives the
    grid context in which price, CO2 intensity and mix are what the SMARD
    client returned, unchanged: the context is fully populated exactly
    when the client returned a price and a non-empty mix, and carries null
    values otherwise.  For every recommendation request the current price
    that is consumed is a number different from zero. *)
Theorem C1_assistant_receives_upstream_values (env : Env) (ollama : Ollama)
    (q : string) :
  Main.ask_assistant env ollama q
  = inl (SmartEnergyAssistant.ask ollama q (Main.grid_data env))
  /\ GridData.current (Main.grid_data env)
     = Some {| Current.price := Some (SMARDClient.get_current_price env);
               Current.co2 := Some (SMARDClient.get_co2_intensity env);
               Current.mix := Some (SMARDClient.get_energy_mix env) |}
  /\ (populated (Main.grid_data env)
      <-> SMARDClient.get_current_price env <> VNone
          /\ SMARDClient.get_energy_mix env <> [])
  /\ ~ Main.recommendation_price env == 0.
Proof.
  split; [reflexivity|]. split; [reflexivity|]. split.
  - split.
    + intros (cur & p & c & m & Hcur & Hp & Hc & Hm & Hne).
      injection Hcur as <-. simpl in Hp, Hm.
      injection Hp as Hp. injection Hm as Hm.
      rewrite Hp, Hm. split; [discriminate | exact Hne].
    + intros [Hp Hm].
      destruct (SMARDClient.get_current_price env) as [|p] eqn:Ep;
        [contradiction|].
      destruct (SMARDClient.get_co2_intensity env) as [|c] eqn:Ec.
      * apply get_co2_intensity_none in Ec. contradiction.
      * eexists _, p, c, _. simpl. rewrite Ep, Ec.
        repeat split; try reflexivity. exact Hm.
  - apply or_default_nonzero. intro H. discriminate H.
Qed.

(** C2 (counterexample) -- with the upstream price null, the device
    recommendation computes with 0.30, not with 0.28, and so does the
    forecast: its point 6, which has no variation, has price 0.30. *)
Lemma C2_counterexample :
  SMARDClient.get_current_price Examples.env_down = VNone
  /\ Main.recommendation_price Examples.env_down == 30 # 100
  /\ ~ Main.recommendation_price Examples.env_down == 28 # 100
  /\ exists f x p,
       Main.get_price_forecast Examples.env_down Examples.frozen_clock 24
         "München" = inl f
       /\ nth_error (Main.forecast f) 6 = Some x
       /\ Point.price x = Some p
       /\ p == 30 # 100
       /\ ~ p == 28 # 100.
Proof.
  split; [reflexivity|]. split; [reflexivity|].
  split; [intro H; discriminate H|].
  eexists _, _, _. split; [reflexivity|].
  split; [vm_compute; reflexivity|].
  split; [vm_compute; reflexivity|].
  split; [reflexivity | intro H; discriminate H].
Qed.

(** C2 (amended) -- whenever the upstream current price is null, the grid
    snapshot takes 0.28 for it, while the forecast synthesis and the device
    recommendation take 0.30. *)
Theorem C2_defaults_for_null_price (env : Env) :
  SMARDClient.get_current_price env = VNone ->
  (exists s, Main.get_current_grid_data env = inl s
             /\ Main.price s = 28 # 100)
  /\ (forall utcnow hours location,
         Main.get_price_forecast env utcnow hours location
         = inl {| Main.forecast :=
                    map (Main.forecast_entry env utcnow (30 # 100))
                        (Py.range hours);
                  Main.hours := hours;
                  Main.location := Some location |})
  /\ Main.recommendation_price env = 30 # 100.
Proof.
  intro Hnull. split; [|split].
  - unfold Main.get_current_grid_data, Main.fallback.
    rewrite Hnull. simpl. eexists. split; reflexivity.
  - intros utcnow hours location.
    unfold Main.get_price_forecast. rewrite Hnull. reflexivity.
  - unfold Main.recommendation_price. rewrite Hnull. reflexivity.
Qed.

Lemma C2_defaults_for_null_price_witness :
  (exists s, Main.get_current_grid_data Examples.env_down = inl s
             /\ Main.price s = 28 # 100)
  /\ (forall utcnow hours location,
         Main.get_price_forecast Examples.env_down utcnow hours location
         = inl {| Main.forecast :=
                    map (Main.forecast_entry Examples.env_down utcnow
                           (30 # 100))
                        (Py.range hours);
                  Main.hours := hours;
                  Main.location := Some location |})
  /\ Main.recommendation_price Examples.env_down = 30 # 100.
Proof.
  apply (C2_defaults_for_null_price Examples.env_down). reflexivity.
Defined.

(** ** The fallback policy of the grid snapshot *)

(** Readings that are numbers different from zero, with a mix of positive
    sum, pass unchanged. *)
Lemma fallback_identity (p c : Q) (m : dict) :
  ~ p == 0 -> ~ c == 0 -> 0 < Py.sum (values m) ->
  Main.fallback (VNum p) m (VNum c) = (p, m, c).
Proof.
  intros Hp Hc Hm. unfold Main.fallback. simpl.
  assert (Ep : Qeq_bool p 0 = false).
  { destruct (Qeq_bool p 0) eqn:E; [|reflexivity].
    apply Qeq_bool_iff in E. contradiction. }
  assert (Ec : Qeq_bool c 0 = false).
  { destruct (Qeq_bool c 0) eqn:E; [|reflexivity].
    apply Qeq_bool_iff in E. contradiction. }
  assert (Em : Main.mix_missing m = false).
  { destruct m as [|kv m'].
    - vm_compute in Hm. discriminate Hm.
    - unfold Main.mix_missing.
      destruct (Qeq_bool (Py.sum (values (kv :: m'))) 0) eqn:E;
        [|reflexivity].
      apply Qeq_bool_iff in E. rewrite E in Hm.
      exfalso. exact (Qlt_irrefl 0 Hm). }
  rewrite Ep, Ec, Em. reflexivity.
Qed.

(** Null readings, and an empty or zero-sum mix, give the fixed
    defaults. *)
Lemma fallback_defaults (price co2 : value) (m : dict) :
  (price = VNone -> fst (fst (Main.fallback price m co2)) = 28 # 100)
  /\ (m = [] \/ Py.sum (values m) == 0 ->
      snd (fst (Main.fallback price m co2)) = Main.default_mix)
  /\ (co2 = VNone -> snd (Main.fallback price m co2) = 320).
Proof.
  unfold Main.fallback. simpl. repeat split.
  - intros ->. reflexivity.
  - intros [-> | Hsum]; [reflexivity|].
    destruct m; [reflexivity|].
    unfold Main.mix_missing.
    apply Qeq_bool_iff in Hsum. rewrite Hsum. reflexivity.
  - intros ->. reflexivity.
Qed.

(** C5 -- a price of exactly 0 EUR/MWh and a CO2 intensity of exactly 0
    (only photovoltaics produce) are readings, not missing data, and the
    mix has a positive sum; still the snapshot shows 0.28 for the price and
    320 for the CO2 intensity: the tests [not price] and [not co2] take
    zero for missing.  The mix passes unchanged. *)
Theorem C5_zero_readings_replaced :
  exists p c s,
    SMARDClient.get_current_price Examples.env_zero = VNum p
    /\ p == 0
    /\ SMARDClient.get_co2_intensity Examples.env_zero = VNum c
    /\ c == 0
    /\ 0 < Py.sum (values (SMARDClient.get_energy_mix Examples.env_zero))
    /\ Main.get_current_grid_data Examples.env_zero = inl s
    /\ Main.price s == 28 # 100
    /\ ~ Main.price s == p
    /\ Main.co2 s == 320
    /\ ~ Main.co2 s == c
    /\ Main.energy_mix s = SMARDClient.get_energy_mix Examples.env_zero.
Proof.
  eexists _, _, _.
  split; [vm_compute; reflexivity|].
  split; [reflexivity|].
  split; [vm_compute; reflexivity|].
  split; [reflexivity|].
  split; [vm_compute; reflexivity|].
  split; [vm_compute; reflexivity|].
  split; [reflexivity|].
  split; [intro H; discriminate H|].
  split; [reflexivity|].
  split; [intro H; discriminate H | reflexivity].
Qed.

(** ** The forecast synthesis *)

Lemma range_nonpositive (n : Z) : (n <= 0)%Z -> Py.range n = [].
Proof.
  intro H. unfold Py.range.
  replace (Z.to_nat n) with 0%nat by lia. reflexivity.
Qed.


Lemma range_nth (n i : Z) :
  (0 <= i < n)%Z -> nth_error (Py.range n) (Z.to_nat i) = Some i.
Proof.
  intro H. unfold Py.range.
  rewrite nth_error_map, nth_error_seq.
  destruct (Nat.ltb_spec (Z.to_nat i) (Z.to_nat n)) as [Hlt | Hge];
    [|lia].
  simpl. f_equal. lia.
Qed.

(** C7 (counterexample) -- a horizon of -3 hours is answered with an
    empty forecast and the horizon echoed; nothing is rejected. *)
Lemma C7_counterexample :
  Main.get_price_forecast Examples.env_day Examples.frozen_clock (-3)
    "München"
  = inl {| Main.forecast := [];
           Main.hours := (-3)%Z;
           Main.location := Some "München" |}.
Proof. reflexivity. Qed.

(** C7 (amended) -- for every negative horizon the forecast operation
    answers with the empty sequence and echoes the horizon; it raises no
    error. *)
Theorem C7_negative_horizon_gives_empty (env : Env) (utcnow : Z -> Z)
    (hours : Z) (location : string) :
  (hours < 0)%Z ->
  Main.get_price_forecast env utcnow hours location
  = inl {| Main.forecast := [];
           Main.hours := hours;
           Main.location := Some location |}.
Proof.
  intro H. unfold Main.get_price_forecast.
  rewrite range_nonpositive by lia. reflexivity.
Qed.

Lemma C7_negative_horizon_gives_empty_witness :
  Main.get_price_forecast Examples.env_down Examples.ticking_clock (-24)
    "Berlin"
  = inl {| Main.forecast := [];
           Main.hours := (-24)%Z;
           Main.location := Some "Berlin" |}.
Proof.
  apply (C7_negative_horizon_gives_empty Examples.env_down
           Examples.ticking_clock (-24) "Berlin").
  reflexivity.
Defined.


(** Every fourth hour the offset is lowered by 0.015, never raised:
    [i mod 4 = 0] forces [i mod 2 = 0]. *)
Lemma variation_bounds (i : Z) :
  - (75 # 1000) <= Main.variation i <= 5 # 100.
Proof.
  unfold Main.variation.
  assert (H12 : (-6 <= i mod 12 - 6 <= 5)%Z)
    by (pose proof (Z.mod_pos_bound i 12); lia).
  destruct H12 as [Hlo Hhi].
  rewrite Zle_Qle in Hlo, Hhi.
  destruct (i mod 4 =? 0)%Z eqn:E.
  - apply Z.eqb_eq in E.
    assert (H2 : (i mod 2 = 0)%Z) by (clear - E; Z.div_mod_to_equations; lia).
    rewrite H2.
    change (inject_Z (-6)) with (- (6)) in Hlo.
    change (inject_Z 5) with 5 in Hhi.
    change (inject_Z 0) with 0.
    lra.
  - change (inject_Z (-6)) with (- (6)) in Hlo.
    change (inject_Z 5) with 5 in Hhi.
    lra.
Qed.



Lemma forecast_entry_nth (env : Env) (utcnow : Z -> Z) (p : Q)
    (hours i : Z) :
  (0 <= i < hours)%Z ->
  nth_error (map (Main.forecast_entry env utcnow p) (Py.range hours))
    (Z.to_nat i)
  = Some (Main.forecast_entry env utcnow p i).
Proof.
  intro H. rewrite nth_error_map, (range_nth hours i H). reflexivity.
Qed.




(** Where the zone changes its offset the hours are not kept: with a
    clock that stands still, the second and the first point of the
    forecast bear the same timestamp on the night the clocks go forward,
    and are two hours apart on the night they go back. *)
Example forecast_across_zone_switch :
  (exists f x0 x1 t,
      Main.get_price_forecast Examples.env_berlin Examples.spring_clock 2
        "München" = inl f
      /\ nth_error (Main.forecast f) 0 = Some x0
      /\ nth_error (Main.forecast f) 1 = Some x1
      /\ Point.timestamp x0 = Some t
      /\ Point.timestamp x1 = Some t
      /\ Point.hour x0 = Some "02:30"
      /\ Point.hour x1 = Some "03:30")
  /\ (exists f x0 x1 t0 t1,
         Main.get_price_forecast Examples.env_berlin Examples.autumn_clock 2
           "München" = inl f
         /\ nth_error (Main.forecast f) 0 = Some x0
         /\ nth_error (Main.forecast f) 1 = Some x1
         /\ Point.timestamp x0 = Some t0
         /\ Point.timestamp x1 = Some t1
         /\ (t1 - t0 = 7200000)%Z).
Proof.
  split.
  - eexists _, _, _, _.
    split; [reflexivity|].
    split; [vm_compute; reflexivity|].
    split; [vm_compute; reflexivity|].
    split; [vm_compute; reflexivity|].
    split; [vm_compute; reflexivity|].
    split; vm_compute; reflexivity.
  - eexists _, _, _, _, _.
    split; [reflexivity|].
    split; [vm_compute; reflexivity|].
    split; [vm_compute; reflexivity|].
    split; [vm_compute; reflexivity|].
    split; [vm_compute; reflexivity|].
    reflexivity.
Qed.

(** ** The end-to-end scenarios of the specification *)

(** Scenario A: every upstream value null or empty. *)
Example scenario_A :
  Main.get_current_grid_data Examples.env_down
  = inl {| Main.price := 28 # 100;
           Main.co2 := 320;
           Main.energy_mix := Main.default_mix;
           Main.status := "gÃ¼nstig" |}.
Proof. reflexivity. Qed.

(** Scenario C: 2.0 kWh, 0.30 now, 0.22 at the best point. *)
Example scenario_C :
  exists r,
    Main.get_device_recommendation Examples.env_day seed_devices 1 = inl r
    /\ Main.device r = "Waschmaschine"
    /\ Main.recommendation r = "wait"
    /\ Main.best_time r = "11:00"
    /\ Main.cost_now r == 60 # 100
    /\ Main.cost_best r == 44 # 100
    /\ Main.potential_savings r == 16 # 100.
Proof.
  eexists. split; [reflexivity|].
  repeat split; vm_compute; reflexivity.
Qed.

(** Scenario D: the keyword "günstig" fires the cheapest-time handler. *)
Example scenario_D :
  SmartEnergyAssistant.ask Examples.ollama_absent
    "Wann ist Strom am günstigsten?" (Main.grid_data Examples.env_day)
  = SmartEnergyAssistant.instant
      "⚡ Am günstigsten ist Strom heute um 11:00: 0.2200 €/kWh".
Proof. vm_compute. reflexivity. Qed.

(** A handler that raises is passed over: with SMARD unreachable the
    charging advice fails on the null price and the query goes on to the
    generative bridge. *)
Example raising_handler_is_skipped :
  SmartEnergyAssistant.ask Examples.ollama_ok "Soll ich jetzt laden?"
    (Main.grid_data Examples.env_down)
  = {| answer := "Gern."; type := "ai"; confidence := "medium";
       processing_time_ms := 2345 |}.
Proof. vm_compute. reflexivity. Qed.

(** * Further properties of the code *)

(** ** More facts about the built-ins *)

Lemma round_half_even_floor (q : Q) :
  (Qfloor q <= round_half_even q <= Qfloor q + 1)%Z.
Proof.
  unfold round_half_even.
  destruct (ltb (q - inject_Z (Qfloor q)) (1 # 2)); [lia|].
  destruct (ltb (1 # 2) (q - inject_Z (Qfloor q))); [lia|].
  destruct (Z.even (Qfloor q)); lia.
Qed.

Lemma round_half_even_mono (q q' : Q) :
  q <= q' -> (round_half_even q <= round_half_even q')%Z.
Proof.
  intro Hle.
  pose proof (Qfloor_resp_le _ _ Hle) as Hf.
  destruct (Z.eq_dec (Qfloor q) (Qfloor q')) as [Heq | Hne].
  - unfold round_half_even. rewrite <- Heq.
    set (f := Qfloor q).
    assert (Hr : q - inject_Z f <= q' - inject_Z f) by lra.
    destruct (ltb (q - inject_Z f) (1 # 2)) eqn:E1.
    + destruct (ltb (q' - inject_Z f) (1 # 2)); [lia|].
      destruct (ltb (1 # 2) (q' - inject_Z f)); [lia|].
      destruct (Z.even f); lia.
    + apply ltb_ge in E1.
      destruct (ltb (q' - inject_Z f) (1 # 2)) eqn:E1'.
      { apply ltb_lt in E1'. lra. }
      destruct (ltb (1 # 2) (q - inject_Z f)) eqn:E2.
      * apply ltb_lt in E2.
        destruct (ltb (1 # 2) (q' - inject_Z f)) eqn:E2'; [lia|].
        apply ltb_ge in E2'. lra.
      * destruct (ltb (1 # 2) (q' - inject_Z f)); [destruct (Z.even f); lia|].
        lia.
  - pose proof (round_half_even_floor q).
    pose proof (round_half_even_floor q').
    lia.
Qed.

Lemma pow10_pos (n : nat) : 0 < inject_Z (pow10 n).
Proof.
  unfold pow10. rewrite <- (Zlt_Qlt 0). apply Z.pow_pos_nonneg; lia.
Qed.

(** [round(x, n)] is monotone. *)
Lemma round_mono (q q' : Q) (n : nat) :
  q <= q' -> Py.round q n <= Py.round q' n.
Proof.
  intro Hle. unfold Py.round.
  pose proof (pow10_pos n) as Hpos.
  apply Qmult_le_compat_r.
  - rewrite <- Zle_Qle. apply round_half_even_mono.
    apply Qmult_le_compat_r; [exact Hle | apply Qlt_le_weak; exact Hpos].
  - apply Qlt_le_weak. apply Qinv_lt_0_compat. exact Hpos.
Qed.

(** [round(x, n)] leaves a number with [n] decimals as it is. *)
Lemma round_decimal (z : Z) (n : nat) :
  Py.round (inject_Z z / inject_Z (pow10 n)) n
  = inject_Z z / inject_Z (pow10 n).
Proof.
  unfold Py.round at 1.
  pose proof (pow10_pos n) as Hpos.
  rewrite (round_half_even_comp _ (inject_Z z)).
  - unfold round_half_even. rewrite Qfloor_Z.
    replace (ltb (inject_Z z - inject_Z z) (1 # 2)) with true; [reflexivity|].
    symmetry. apply ltb_lt. lra.
  - field. intro H. rewrite H in Hpos. exact (Qlt_irrefl 0 Hpos).
Qed.

Lemma round_idempotent (q : Q) (n : nat) :
  Py.round (Py.round q n) n = Py.round q n.
Proof.
  unfold Py.round at 2 3. apply round_decimal.
Qed.

(** [max_from] returns the first maximal element. *)
Lemma max_from_first_maximum {A} (key : A -> Q) (xs : list A) :
  forall best,
    first_minimum (fun x => - key x) (max_from key best xs) (best :: xs).
Proof.
  induction xs as [|y ys IH]; intro best; simpl.
  - exists [], []. repeat split; simpl; intros; contradiction.
  - destruct (ltb (key best) (key y)) eqn:E.
    + apply ltb_lt in E.
      pose proof (IH y) as Hm.
      pose proof (first_minimum_le _ _ _ Hm y (or_introl eq_refl)) as Hle.
      destruct Hm as (pre & post & Heq & Hpre & Hpost).
      exists (best :: pre), post. repeat split.
      * simpl. rewrite Heq. reflexivity.
      * intros z [<- | Hz]; [|auto].
        simpl in Hle. lra.
      * assumption.
    + apply ltb_ge in E.
      destruct (IH best) as (pre & post & Heq & Hpre & Hpost).
      destruct pre as [|b pre'].
      * simpl in Heq. injection Heq as Hb Hys.
        exists [], (y :: post). repeat split.
        -- simpl. rewrite <- Hb, Hys. reflexivity.
        -- intros z [].
        -- intros z [<- | Hz]; [|auto].
           rewrite <- Hb. lra.
      * simpl in Heq. injection Heq as Hb Hys. subst b.
        exists (best :: y :: pre'), post. repeat split.
        -- simpl. do 2 f_equal. exact Hys.
        -- intros z [<- | [<- | Hz]].
           ++ apply Hpre. left. reflexivity.
           ++ pose proof (Hpre best (or_introl eq_refl)). lra.
           ++ apply Hpre. right. exact Hz.
        -- assumption.
Qed.

(** ** [WeatherClient._calculate_solar_estimate] *)

(** X1 -- the solar estimate is 1.0 without clouds and 0.1 under a closed
    cover, never grows when the cloud coverage grows, and so stays between
    0.1 and 1.0 for every coverage from 0 to 100 percent. *)
Theorem X1_solar_estimate_monotone_and_bounded :
  WeatherClient._calculate_solar_estimate 0 == 1
  /\ WeatherClient._calculate_solar_estimate 100 == 1 # 10
  /\ (forall c c',
         c <= c' ->
         WeatherClient._calculate_solar_estimate c'
         <= WeatherClient._calculate_solar_estimate c)
  /\ (forall c,
         0 <= c <= 100 ->
         1 # 10 <= WeatherClient._calculate_solar_estimate c <= 1).
Proof.
  assert (Hmono : forall c c',
             c <= c' ->
             WeatherClient._calculate_solar_estimate c'
             <= WeatherClient._calculate_solar_estimate c).
  { intros c c' Hle. unfold WeatherClient._calculate_solar_estimate.
    apply round_mono.
    setoid_replace (c' / 100) with (c' * (1 # 100)) by field.
    setoid_replace (c / 100) with (c * (1 # 100)) by field.
    lra. }
  assert (H0 : WeatherClient._calculate_solar_estimate 0 == 1)
    by (vm_compute; reflexivity).
  assert (H100 : WeatherClient._calculate_solar_estimate 100 == 1 # 10)
    by (vm_compute; reflexivity).
  repeat split; try assumption.
  - rewrite <- H100. apply Hmono. tauto.
  - rewrite <- H0. apply Hmono. tauto.
Qed.

Lemma X1_solar_estimate_monotone_and_bounded_witness :
  WeatherClient._calculate_solar_estimate 80
  <= WeatherClient._calculate_solar_estimate 20
  /\ 1 # 10 <= WeatherClient._calculate_solar_estimate 20 <= 1.
Proof.
  destruct X1_solar_estimate_monotone_and_bounded as (_ & _ & Hmono & Hrange).
  split.
  - apply Hmono. vm_compute. discriminate.
  - apply Hrange. split; vm_compute; discriminate.
Defined.

(** ** [SMARDClient]: price readings *)

Lemma last_some_app {A} (l : list A) (a : A) :
  last (map Some (l ++ [a])) None = Some a.
Proof.
  rewrite map_app. simpl. apply last_last.
Qed.

(** X2 -- the current price is read off the last point of the series
    alone.  It is [None] when the series is empty and when the last
    reading is null, whatever the readings before it.  Otherwise it is a
    number less than 0.0001 away from the last reading divided by 1000,
    and two series that end in the same reading give the same price. *)
Theorem X2_current_price_is_last_reading (env : Env) :
  (series env "price" 2%Z = [] ->
   SMARDClient.get_current_price env = VNone)
  /\ (forall earlier t,
         series env "price" 2%Z = (earlier ++ [(t, VNone)])%list ->
         SMARDClient.get_current_price env = VNone)
  /\ (forall earlier t price_eur_mwh,
         series env "price" 2%Z
         = (earlier ++ [(t, VNum price_eur_mwh)])%list ->
         exists p,
           SMARDClient.get_current_price env = VNum p
           /\ price_eur_mwh / 1000 - (1 # 10000) < p
           /\ p < price_eur_mwh / 1000 + (1 # 10000))
  /\ (forall env' earlier earlier' t t' reading,
         series env "price" 2%Z = (earlier ++ [(t, reading)])%list ->
         series env' "price" 2%Z = (earlier' ++ [(t', reading)])%list ->
         SMARDClient.get_current_price env'
         = SMARDClient.get_current_price env).
Proof.
  unfold SMARDClient.get_current_price, SMARDClient._fetch_timeseries.
  simpl existsb. cbn [bind catching].
  split; [|split; [|split]].
  - intros ->. reflexivity.
  - intros earlier t ->. rewrite last_some_app. reflexivity.
  - intros earlier t v ->. rewrite last_some_app.
    eexists. split; [reflexivity|].
    pose proof (round_near_4 (v / 1000)) as [Hlo Hhi].
    split; lra.
  - intros env' earlier earlier' t t' reading -> ->.
    rewrite !last_some_app. reflexivity.
Qed.

Lemma X2_current_price_is_last_reading_witness :
  SMARDClient.get_current_price Examples.env_down = VNone
  /\ SMARDClient.get_current_price
       {| series := fun _ _ => [(1767261600000%Z, VNum 250);
                                (1767265200000%Z, VNone)];
          utcoffset := fun _ => 0%Z |} = VNone
  /\ (exists p,
         SMARDClient.get_current_price Examples.env_day = VNum p
         /\ 300 / 1000 - (1 # 10000) < p
         /\ p < 300 / 1000 + (1 # 10000))
  /\ SMARDClient.get_current_price
       {| series := fun _ _ => [(1767265200000%Z, VNum 300)];
          utcoffset := fun _ => 0%Z |}
     = SMARDClient.get_current_price Examples.env_day.
Proof.
  split; [|split; [|split]].
  - destruct (X2_current_price_is_last_reading Examples.env_down)
      as (Hempty & _).
    apply Hempty. reflexivity.
  - destruct (X2_current_price_is_last_reading
                {| series := fun _ _ => [(1767261600000%Z, VNum 250);
                                         (1767265200000%Z, VNone)];
                   utcoffset := fun _ => 0%Z |})
      as (_ & Hnull & _).
    apply (Hnull [(1767261600000%Z, VNum 250)] 1767265200000%Z).
    reflexivity.
  - destruct (X2_current_price_is_last_reading Examples.env_day)
      as (_ & _ & Hlast & _).
    apply (Hlast [ (1767258000000%Z, VNum 250);
                   (1767261600000%Z, VNum 220) ] 1767265200000%Z 300).
    reflexivity.
  - destruct (X2_current_price_is_last_reading Examples.env_day)
      as (_ & _ & _ & Hsame).
    apply (Hsame _ [ (1767258000000%Z, VNum 250);
                     (1767261600000%Z, VNum 220) ] []
             1767265200000%Z 1767265200000%Z (VNum 300));
      reflexivity.
Defined.

Lemma get_price_forecast_flat_map (env : Env) (hours : Z) :
  SMARDClient.get_price_forecast env hours
  = flat_map
      (fun tv =>
         match snd tv with
         | VNum price_eur_mwh =>
             [ {| Point.timestamp := Some (fst tv);
                  Point.hour :=
                    Some (strftime_HM
                            (localtime env
                               (Qfloor (inject_Z (fst tv) / 1000))));
                  Point.price := Some (Py.round (price_eur_mwh / 1000) 4);
                  Point.co2 := None |} ]
         | VNone => []
         end)
      (series env "price" hours).
Proof. reflexivity. Qed.

(** X3 -- the price forecast of the client keeps exactly the points of
    the series that carry a reading, in their order and with their
    timestamps: point by point, the price is less than 0.0001 away from
    the reading divided by 1000, the label is the hour and minute of the
    timestamp in the zone of the server, and there is no CO2 value. *)
Theorem X3_price_forecast_keeps_readings (env : Env) (hours : Z) :
  let kept := filter has_reading (series env "price" hours) in
  let f := SMARDClient.get_price_forecast env hours in
  map Point.timestamp f = map (fun tv => Some (fst tv)) kept
  /\ Forall2
       (fun tv x =>
          exists reading p,
            snd tv = VNum reading
            /\ Point.price x = Some p
            /\ reading / 1000 - (1 # 10000) < p
            /\ p < reading / 1000 + (1 # 10000)
            /\ Point.hour x
               = Some (strftime_HM
                         (localtime env (Qfloor (inject_Z (fst tv) / 1000))))
            /\ Point.co2 x = None)
       kept f
  /\ Forall (fun x => Point.co2 x = None
                      /\ Point.price x <> None
                      /\ Point.hour x <> None) f.
Proof.
  intros kept f. unfold kept, f.
  rewrite get_price_forecast_flat_map.
  induction (series env "price" hours) as [|[t v] l IH].
  - repeat split; constructor.
  - destruct IH as (IHt & IHp & IHf).
    destruct v as [|v]; simpl.
    + repeat split; assumption.
    + split; [|split].
      * f_equal. exact IHt.
      * constructor; [|exact IHp].
        exists v. eexists. split; [reflexivity|]. split; [reflexivity|].
        pose proof (round_near_4 (v / 1000)) as [Hlo Hhi].
        cbn [fst snd Point.hour Point.co2].
        split; [lra|]. split; [lra|]. split; reflexivity.
      * constructor; [simpl; repeat split; discriminate | exact IHf].
Qed.

Lemma get_price_forecast_in (env : Env) (hours : Z) (x : Point.t) :
  In x (SMARDClient.get_price_forecast env hours) ->
  Point.co2 x = None
  /\ exists v, Point.price x = Some (Py.round (v / 1000) 4).
Proof.
  rewrite get_price_forecast_flat_map. intro Hin.
  apply in_flat_map in Hin. destruct Hin as ([t v] & _ & Hx).
  destruct v as [|v]; simpl in Hx; [contradiction|].
  destruct Hx as [<- | []]. simpl. split; [reflexivity|].
  exists v. reflexivity.
Qed.

Lemma min_from_without_co2 (xs : list Point.t) :
  forall best,
    Point.co2 best = None ->
    (forall y, In y xs -> Point.co2 y = None) ->
    min_from co2_key best xs = best.
Proof.
  induction xs as [|y ys IH]; intros best Hbest Hall; [reflexivity|].
  assert (Hkey : ltb (co2_key y) (co2_key best) = false).
  { unfold co2_key. rewrite Hbest, (Hall y (or_introl eq_refl)).
    reflexivity. }
  cbn [min_from]. rewrite Hkey.
  apply IH; [exact Hbest|].
  intros z Hz. apply Hall. right. exact Hz.
Qed.

(** ** The assistant on the grid context of [ask_assistant] *)

(** X4 -- the forecast that [ask_assistant] passes on comes from the
    price series and has no CO2 values, so the greenest-time handler finds
    every point equally green: whenever the forecast is not empty it names
    the first point and reports 0.0 g CO2/kWh. *)
Theorem X4_greenest_time_is_first_point (env : Env) (x : Point.t)
    (xs : list Point.t) :
  SMARDClient.get_price_forecast env 24 = x :: xs ->
  SmartEnergyAssistant._get_greenest_time (Main.grid_data env)
  = Ok ("🌱 Am grünsten ist Strom heute um " ++ get (Point.hour x) "N/A"
          ++ ": 0.0 g CO2/kWh").
Proof.
  intro Hf.
  assert (Hco2 : forall y, In y (x :: xs) -> Point.co2 y = None).
  { intros y Hy. rewrite <- Hf in Hy.
    apply (get_price_forecast_in env 24 y Hy). }
  unfold SmartEnergyAssistant._get_greenest_time, Main.grid_data.
  cbn [GridData.forecast get]. rewrite Hf.
  rewrite (min_from_without_co2 xs x);
    [| apply Hco2; left; reflexivity
     | intros y Hy; apply Hco2; right; exact Hy].
  rewrite (Hco2 x (or_introl eq_refl)). reflexivity.
Qed.

Lemma X4_greenest_time_is_first_point_witness :
  SmartEnergyAssistant._get_greenest_time (Main.grid_data Examples.env_day)
  = Ok "🌱 Am grünsten ist Strom heute um 10:00: 0.0 g CO2/kWh".
Proof.
  etransitivity.
  - apply (X4_greenest_time_is_first_point Examples.env_day
             {| Point.timestamp := Some 1767258000000%Z;
                Point.hour := Some "10:00";
                Point.price := Some (Py.round (250 / 1000) 4);
                Point.co2 := None |}
             [ {| Point.timestamp := Some 1767261600000%Z;
                  Point.hour := Some "11:00";
                  Point.price := Some (Py.round (220 / 1000) 4);
                  Point.co2 := None |};
               {| Point.timestamp := Some 1767265200000%Z;
                  Point.hour := Some "12:00";
                  Point.price := Some (Py.round (300 / 1000) 4);
                  Point.co2 := None |} ]).
    vm_compute. reflexivity.
  - reflexivity.
Defined.

(** ** [get_grid_stats] *)

Lemma fold_left_Qplus_bounds (lo hi : Q) (l : list Q) :
  (forall x, In x l -> lo <= x <= hi) ->
  forall acc,
    acc + inject_Z (Z.of_nat (List.length l)) * lo
    <= fold_left Qplus l acc
    <= acc + inject_Z (Z.of_nat (List.length l)) * hi.
Proof.
  induction l as [|x l IH]; intros Hall acc.
  - simpl. change (inject_Z 0) with 0. lra.
  - cbn [fold_left List.length].
    rewrite Nat2Z.inj_succ. unfold Z.succ. rewrite inject_Z_plus.
    change (inject_Z 1) with 1.
    pose proof (Hall x (or_introl eq_refl)) as Hx.
    assert (Hl : forall y, In y l -> lo <= y <= hi)
      by (intros y Hy; apply Hall; right; exact Hy).
    pose proof (IH Hl (acc + x)) as Hrec.
    set (n := inject_Z (Z.of_nat (List.length l))) in *.
    lra.
Qed.

(** The mean of a non-empty list lies between any bounds of its
    elements. *)
Lemma mean_bounds (lo hi : Q) (x : Q) (xs : list Q) :
  (forall y, In y (x :: xs) -> lo <= y <= hi) ->
  lo <= Py.sum (x :: xs) / inject_Z (Z.of_nat (List.length (x :: xs))) <= hi.
Proof.
  intro Hall.
  pose proof (fold_left_Qplus_bounds lo hi (x :: xs) Hall 0) as Hsum.
  fold (Py.sum (x :: xs)) in Hsum.
  set (n := inject_Z (Z.of_nat (List.length (x :: xs)))) in *.
  assert (Hn : 0 < n).
  { unfold n. rewrite <- (Zlt_Qlt 0). simpl List.length. lia. }
  assert (Hinv : 0 < / n) by (apply Qinv_lt_0_compat; exact Hn).
  assert (Hone : n * / n == 1).
  { apply Qmult_inv_r. intro H. rewrite H in Hn. exact (Qlt_irrefl 0 Hn). }
  unfold Qdiv.
  destruct Hsum as [Hlo Hhi].
  split.
  - setoid_replace lo with ((0 + n * lo) * / n)
      by (setoid_replace ((0 + n * lo) * / n) with (lo * (n * / n)) by ring;
          rewrite Hone; ring).
    apply Qmult_le_compat_r; [exact Hlo | apply Qlt_le_weak; exact Hinv].
  - setoid_replace hi with ((0 + n * hi) * / n)
      by (setoid_replace ((0 + n * hi) * / n) with (hi * (n * / n)) by ring;
          rewrite Hone; ring).
    apply Qmult_le_compat_r; [exact Hhi | apply Qlt_le_weak; exact Hinv].
Qed.

Lemma for_each_price_of (f : list Point.t) :
  (forall x, In x f -> exists p, Point.price x = Some p) ->
  exists prices,
    PySeq.for_each Endpoints.price_of f = inl prices
    /\ map Some prices = map Point.price f.
Proof.
  induction f as [|x f IH]; intro Hall.
  - exists []. split; reflexivity.
  - destruct (Hall x (or_introl eq_refl)) as (p & Hp).
    destruct IH as (ps & Hps & Hmap).
    { intros y Hy. apply Hall. right. exact Hy. }
    exists (p :: ps). split.
    + cbn [PySeq.for_each]. unfold Endpoints.price_of at 1.
      rewrite Hp, Hps. reflexivity.
    + simpl. rewrite Hp, Hmap. reflexivity.
Qed.

Lemma in_map_some {A} (a : A) (l : list A) :
  In (Some a) (map Some l) -> In a l.
Proof.
  intro H. apply in_map_iff in H. destruct H as (b & Hb & Hin).
  injection Hb as ->. exact Hin.
Qed.

(** X5 -- the statistics endpoint never fails: without price points it
    answers with the error text, otherwise with statistics in which the
    minimum and the maximum are prices of forecast points that bound every
    other price, and the rounded average lies between them. *)
Theorem X5_grid_stats_bounds (env : Env) :
  let f := SMARDClient.get_price_forecast env 24 in
  (f = [] ->
   Endpoints.get_grid_stats env
   = inl (Endpoints.NoData "No forecast data available"))
  /\ (f <> [] ->
      exists s,
        Endpoints.get_grid_stats env = inl (Endpoints.Statistics s)
        /\ Endpoints.current_price s = SMARDClient.get_current_price env
        /\ (exists x, In x f /\ Point.price x = Some (Endpoints.min_price s))
        /\ (exists x, In x f /\ Point.price x = Some (Endpoints.max_price s))
        /\ (forall x p,
               In x f -> Point.price x = Some p ->
               Endpoints.min_price s <= p <= Endpoints.max_price s)
        /\ Endpoints.min_price s <= Endpoints.average_price s
           <= Endpoints.max_price s).
Proof.
  intro f. split.
  - intro Hf. unfold Endpoints.get_grid_stats. fold f. rewrite Hf.
    reflexivity.
  - intro Hne.
    assert (Hin : forall x, In x f ->
                   exists v, Point.price x = Some (Py.round (v / 1000) 4)).
    { intros x Hx. apply (get_price_forecast_in env 24 x Hx). }
    destruct (for_each_price_of f) as (prices & Hprices & Hmap).
    { intros x Hx. destruct (Hin x Hx) as (v & Hv). eauto. }
    unfold Endpoints.get_grid_stats. fold f. rewrite Hprices.
    destruct f as [|x0 f0]; [contradiction|].
    destruct prices as [|p ps]; [discriminate Hmap|].
    cbn [Endpoints.or_500].
    eexists. split; [reflexivity|].
    cbn [Endpoints.current_price Endpoints.min_price Endpoints.max_price
         Endpoints.average_price].
    pose proof (min_from_first_minimum (fun q : Q => q) ps p) as Hmin.
    pose proof (max_from_first_maximum (fun q : Q => q) ps p) as Hmax.
    set (lo := min_from (fun q : Q => q) p ps) in *.
    set (hi := max_from (fun q : Q => q) p ps) in *.
    assert (Hprice : forall q, In q (p :: ps) ->
                      exists x, In x (x0 :: f0) /\ Point.price x = Some q).
    { intros q Hq. apply (in_map Some) in Hq. rewrite Hmap in Hq.
      apply in_map_iff in Hq. destruct Hq as (x & Hx & Hxin).
      exists x. split; [exact Hxin | exact Hx]. }
    assert (Hbounds : forall q, In q (p :: ps) -> lo <= q <= hi).
    { intros q Hq. split.
      - apply (first_minimum_le _ _ _ Hmin q Hq).
      - pose proof (first_minimum_le _ _ _ Hmax q Hq) as H. simpl in H. lra. }
    split; [reflexivity|].
    split; [apply Hprice; apply (first_minimum_in _ _ _ Hmin)|].
    split; [apply Hprice; apply (first_minimum_in _ _ _ Hmax)|].
    split.
    + intros x q Hx Hq. apply Hbounds.
      apply in_map_some. rewrite Hmap, <- Hq. apply in_map. exact Hx.
    + destruct (Hprice lo (first_minimum_in _ _ _ Hmin)) as (xl & Hxl & Hpl).
      destruct (Hprice hi (first_minimum_in _ _ _ Hmax)) as (xh & Hxh & Hph).
      destruct (Hin xl Hxl) as (vl & Hvl).
      destruct (Hin xh Hxh) as (vh & Hvh).
      rewrite Hpl in Hvl. injection Hvl as Hvl.
      rewrite Hph in Hvh. injection Hvh as Hvh.
      pose proof (mean_bounds lo hi p ps Hbounds) as [Hlo Hhi].
      assert (Rlo : lo = Py.round lo 4)
        by (rewrite Hvl; symmetry; apply round_idempotent).
      assert (Rhi : hi = Py.round hi 4)
        by (rewrite Hvh; symmetry; apply round_idempotent).
      split.
      * rewrite Rlo. apply round_mono. exact Hlo.
      * rewrite Rhi. apply round_mono. exact Hhi.
Qed.

Lemma X5_grid_stats_bounds_witness :
  Endpoints.get_grid_stats Examples.env_down
  = inl (Endpoints.NoData "No forecast data available")
  /\ exists s,
       Endpoints.get_grid_stats Examples.env_day
       = inl (Endpoints.Statistics s)
       /\ Endpoints.min_price s <= Endpoints.average_price s
          <= Endpoints.max_price s.
Proof.
  split.
  - destruct (X5_grid_stats_bounds Examples.env_down) as [Hempty _].
    apply Hempty. reflexivity.
  - destruct (X5_grid_stats_bounds Examples.env_day) as [_ Hstats].
    destruct Hstats as (s & Hs & _ & _ & _ & _ & Havg).
    + vm_compute. discriminate.
    + exists s. split; [exact Hs | exact Havg].
Defined.

(** ** More on the rule router *)

Lemma scan_app (pre post : list (string * SmartEnergyAssistant.Handler))
    (query_lower : string) (data : GridData.t) :
  SmartEnergyAssistant.scan (pre ++ post) query_lower data
  = match SmartEnergyAssistant.scan pre query_lower data with
    | Some r => Some r
    | None => SmartEnergyAssistant.scan post query_lower data
    end.
Proof.
  induction pre as [|[k h] pre IH]; [reflexivity|].
  simpl app. rewrite !scan_cons.
  destruct (contains k query_lower); [|exact IH].
  destruct (h data); [reflexivity | exact IH].
Qed.

Lemma scan_some (rs : list (string * SmartEnergyAssistant.Handler))
    (query_lower : string) (data : GridData.t) (r : Answer) :
  SmartEnergyAssistant.scan rs query_lower data = Some r ->
  exists k h a,
    In (k, h) rs /\ contains k query_lower = true
    /\ h data = Ok a /\ r = SmartEnergyAssistant.instant a.
Proof.
  induction rs as [|[k h] rs IH]; [discriminate|].
  rewrite scan_cons.
  destruct (contains k query_lower) eqn:Ek.
  - destruct (h data) as [a|e] eqn:Eh.
    + intro H. injection H as <-.
      exists k, h, a. repeat split; auto. left. reflexivity.
    + intro H. destruct (IH H) as (k' & h' & a & Hin & Hrest).
      exists k', h', a. split; [right; exact Hin | exact Hrest].
  - intro H. destruct (IH H) as (k' & h' & a & Hin & Hrest).
    exists k', h', a. split; [right; exact Hin | exact Hrest].
Qed.

Lemma scan_none (rs : list (string * SmartEnergyAssistant.Handler))
    (query_lower : string) (data : GridData.t) :
  SmartEnergyAssistant.scan rs query_lower data = None <->
  (forall k h,
      In (k, h) rs -> contains k query_lower = true ->
      exists e, h data = Raise e).
Proof.
  induction rs as [|[k h] rs IH].
  - split; [intros _ k h [] | reflexivity].
  - rewrite scan_cons. split.
    + intros Hscan k' h' [Heq | Hin] Hk'.
      * injection Heq as <- <-. rewrite Hk' in Hscan.
        destruct (h data) as [a|e]; [discriminate | eauto].
      * destruct (contains k query_lower); [destruct (h data)|];
          try discriminate; apply (proj1 IH Hscan k' h' Hin Hk').
    + intro Hall.
      assert (Hrest : SmartEnergyAssistant.scan rs query_lower data = None).
      { apply IH. intros k' h' Hin. apply Hall. right. exact Hin. }
      destruct (contains k query_lower) eqn:Ek; [|exact Hrest].
      destruct (Hall k h (or_introl eq_refl) Ek) as (e & ->). exact Hrest.
Qed.

(** X6 -- every answer of the assistant has one of three shapes: an
    instant answer (type "instant", confidence "high", latency 0) that a
    handler whose keyword occurs in the query returned; or, when no rule
    answered, a generated answer (type "ai", confidence "medium", the
    elapsed milliseconds) or the fixed fallback answer. *)
Theorem X6_answer_shapes (ollama : Ollama) (q : string) (data : GridData.t) :
  let r := SmartEnergyAssistant.ask ollama q data in
  (type r = "instant" /\ confidence r = "high"
   /\ processing_time_ms r = 0%Z
   /\ exists k h,
        In (k, h) SmartEnergyAssistant.rules
        /\ contains k (lower q) = true
        /\ h data = Ok (answer r))
  \/ (SmartEnergyAssistant.scan SmartEnergyAssistant.rules (lower q) data
      = None
      /\ type r = "ai" /\ confidence r = "medium"
      /\ processing_time_ms r
         = Py.int ((time_after ollama - time_before ollama) * 1000))
  \/ (SmartEnergyAssistant.scan SmartEnergyAssistant.rules (lower q) data
      = None
      /\ r = SmartEnergyAssistant._fallback_answer q).
Proof.
  intro r. unfold r, SmartEnergyAssistant.ask.
  destruct (SmartEnergyAssistant.scan SmartEnergyAssistant.rules (lower q)
              data) as [a|] eqn:Escan.
  - left. destruct (scan_some _ _ _ _ Escan) as (k & h & s & Hin & Hk & Hh & ->).
    repeat split. exists k, h. auto.
  - right. unfold SmartEnergyAssistant._ask_ollama.
    destruct (post ollama (SmartEnergyAssistant._build_prompt q data))
      as [resp|e]; cbn [bind catching]; [|right; auto].
    destruct (status_code resp =? 200)%Z; [|right; auto].
    destruct (SmartEnergyAssistant.response_text (body resp));
      cbn [bind catching]; [left | right]; auto.
Qed.

Lemma prefix_split (a s : string) :
  String.prefix a s = true -> exists rest, s = a ++ rest.
Proof.
  revert s. induction a as [|c a IH]; intros s H.
  - exists s. reflexivity.
  - destruct s as [|d s]; [discriminate|].
    simpl in H. destruct (ascii_dec c d) as [->|]; [|discriminate].
    destruct (IH s H) as (rest & ->). exists rest. reflexivity.
Qed.

Lemma contains_dishwasher_wash (s : string) :
  contains "dishwasher" s = true -> contains "wash" s = true.
Proof.
  induction s as [|c s IH].
  - simpl. discriminate.
  - intro H.
    destruct (String.prefix "dishwasher" (String c s)) eqn:E.
    + destruct (prefix_split _ _ E) as (rest & Heq).
      rewrite Heq. vm_compute. reflexivity.
    + cbn [contains] in H. rewrite E in H.
      cbn [contains]. rewrite (IH H).
      destruct (String.prefix "wash" (String c s)); reflexivity.
Qed.

Lemma device_advice_raises (data : GridData.t) (device : string)
    (power_kwh : Q) :
  let slot := Current.price (get (GridData.current data) Current.empty) in
  (slot = Some VNone ->
   SmartEnergyAssistant._get_device_advice data device power_kwh
   = Raise TypeError)
  /\ (slot <> Some VNone ->
      exists s,
        SmartEnergyAssistant._get_device_advice data device power_kwh
        = Ok s).
Proof.
  intro slot. unfold SmartEnergyAssistant._get_device_advice. fold slot.
  split.
  - intros ->. reflexivity.
  - intro Hne. destruct slot as [[|p]|]; [contradiction| |];
      cbn [get as_num bind];
      match goal with
      | |- context [if ?b then _ else _] => destruct b
      end; eauto.
Qed.

(** X7 -- the last rule of the table is dead.  A query that contains
    "dishwasher" contains "wash", whose rule comes first and gives the
    washing-machine advice; the dishwasher rule would only be tried after
    the washing advice raised, and then it raises for the same reason.  So
    the router answers as the table without its last rule would. *)
Theorem X7_dishwasher_rule_never_answers (ollama : Ollama) (q : string)
    (data : GridData.t) :
  SmartEnergyAssistant.rules
  = (firstn 15 SmartEnergyAssistant.rules
       ++ [("dishwasher", SmartEnergyAssistant._get_dishwasher_advice)])%list
  /\ SmartEnergyAssistant.ask ollama q data
     = match SmartEnergyAssistant.scan
               (firstn 15 SmartEnergyAssistant.rules) (lower q) data with
       | Some r => r
       | None => SmartEnergyAssistant._ask_ollama ollama q data
       end.
Proof.
  split; [reflexivity|].
  unfold SmartEnergyAssistant.ask.
  change SmartEnergyAssistant.rules
    with (firstn 15 SmartEnergyAssistant.rules
            ++ [("dishwasher", SmartEnergyAssistant._get_dishwasher_advice)])%list
    at 1.
  rewrite scan_app.
  destruct (SmartEnergyAssistant.scan (firstn 15 SmartEnergyAssistant.rules)
              (lower q) data) eqn:Escan; [reflexivity|].
  rewrite scan_cons.
  destruct (contains "dishwasher" (lower q)) eqn:Ed; [|reflexivity].
  apply contains_dishwasher_wash in Ed.
  destruct (proj1 (scan_none _ _ _) Escan "wash"
              SmartEnergyAssistant._get_washing_advice) as (e & Hraise).
  { simpl. do 13 right. left. reflexivity. }
  { exact Ed. }
  unfold SmartEnergyAssistant._get_washing_advice in Hraise.
  unfold SmartEnergyAssistant._get_dishwasher_advice.
  destruct (device_advice_raises data "Geschirrspüler" (15 # 10))
    as [Hnull Hnum].
  destruct (device_advice_raises data "Waschmaschine" 2) as [_ Hnum'].
  destruct (Current.price (get (GridData.current data) Current.empty))
    as [[|p]|] eqn:Eslot.
  - rewrite (Hnull eq_refl). reflexivity.
  - destruct Hnum' as (s & Hs); [discriminate|]. congruence.
  - destruct Hnum' as (s & Hs); [discriminate|]. congruence.
Qed.

Lemma charging_advice_raises (data : GridData.t) :
  let slot := Current.price (get (GridData.current data) Current.empty) in
  (slot = Some VNone ->
   SmartEnergyAssistant._get_charging_advice data = Raise TypeError)
  /\ (slot <> Some VNone ->
      exists s, SmartEnergyAssistant._get_charging_advice data = Ok s).
Proof.
  intro slot. unfold SmartEnergyAssistant._get_charging_advice. fold slot.
  split.
  - intros ->. reflexivity.
  - intro Hne. destruct slot as [[|p]|]; [contradiction| |];
      cbn [get as_num bind];
      match goal with
      | |- context [if ?b then _ else _] => destruct b
      end; eauto.
Qed.

Lemma status_handlers_return (data : GridData.t) (k : string)
    (h : SmartEnergyAssistant.Handler) :
  In (k, h) (firstn 10 SmartEnergyAssistant.rules) ->
  exists s, h data = Ok s.
Proof.
  assert (Hprice : exists s, SmartEnergyAssistant._get_price_info data = Ok s).
  { unfold SmartEnergyAssistant._get_price_info.
    destruct (get (Current.price (get (GridData.current data) Current.empty))
                VNone) as [|p]; [simpl; eauto|].
    cbn [falsy]. destruct (Qeq_bool p 0); [eauto|].
    cbn [as_num bind].
    destruct (ltb p (get (GridData.average_price data) (30 # 100) * (8 # 10)));
      [eauto|].
    destruct (ltb p (get (GridData.average_price data) (30 # 100))); eauto. }
  assert (Hcheap : exists s,
             SmartEnergyAssistant._get_cheapest_time data = Ok s).
  { unfold SmartEnergyAssistant._get_cheapest_time.
    destruct (get (GridData.forecast data) []); eauto. }
  assert (Hexp : exists s,
             SmartEnergyAssistant._get_expensive_time data = Ok s).
  { unfold SmartEnergyAssistant._get_expensive_time.
    destruct (get (GridData.forecast data) []); eauto. }
  assert (Hgreen : exists s,
             SmartEnergyAssistant._get_greenest_time data = Ok s).
  { unfold SmartEnergyAssistant._get_greenest_time.
    destruct (get (GridData.forecast data) []); eauto. }
  assert (Hco2 : exists s, SmartEnergyAssistant._get_co2_info data = Ok s).
  { unfold SmartEnergyAssistant._get_co2_info.
    destruct (get (Current.co2 (get (GridData.current data) Current.empty))
                VNone) as [|c]; [simpl; eauto|].
    cbn [falsy]. destruct (Qeq_bool c 0); [eauto|].
    cbn [as_num bind].
    destruct (ltb c 200); [eauto|].
    destruct (ltb c 400); eauto. }
  intro Hin. simpl in Hin.
  repeat (destruct Hin as [Hin | Hin];
          [injection Hin as _ <-; assumption|]).
  contradiction.
Qed.

Lemma advice_handlers_raise (data : GridData.t) (k : string)
    (h : SmartEnergyAssistant.Handler) :
  In (k, h) (skipn 10 SmartEnergyAssistant.rules) ->
  let slot := Current.price (get (GridData.current data) Current.empty) in
  (slot = Some VNone -> h data = Raise TypeError)
  /\ (slot <> Some VNone -> exists s, h data = Ok s).
Proof.
  intro Hin. simpl in Hin.
  repeat (destruct Hin as [Hin | Hin];
          [injection Hin as _ <-;
           first [ apply charging_advice_raises
                 | apply device_advice_raises ]|]).
  contradiction.
Qed.

(** X8 -- which handlers can fail.  The handlers of the first ten rules
    (price status, cheapest, most expensive and greenest time, CO2 status)
    return a text on every grid context.  The handlers of the other six
    rules (charging, washing and dishwasher advice) raise [TypeError]
    exactly when the context has the price key with the value [None]; on
    a number, and on a missing key, they return a text. *)
Theorem X8_which_handlers_raise (data : GridData.t) :
  let slot := Current.price (get (GridData.current data) Current.empty) in
  (forall k h,
      In (k, h) (firstn 10 SmartEnergyAssistant.rules) ->
      exists s, h data = Ok s)
  /\ (forall k h,
         In (k, h) (skipn 10 SmartEnergyAssistant.rules) ->
         (h data = Raise TypeError <-> slot = Some VNone)
         /\ (slot <> Some VNone -> exists s, h data = Ok s)).
Proof.
  intro slot. split.
  - intros k h. apply status_handlers_return.
  - intros k h Hin.
    destruct (advice_handlers_raise data k h Hin) as [Hnull Hnum].
    fold slot in Hnull, Hnum.
    split; [|exact Hnum]. split; [|exact Hnull].
    intro Hraise.
    destruct slot as [[|p]|]; [reflexivity| |];
      (destruct Hnum as (s & Hs); [discriminate | congruence]).
Qed.

Lemma X8_which_handlers_raise_witness :
  (exists s,
      SmartEnergyAssistant._get_co2_info (Main.grid_data Examples.env_down)
      = Ok s)
  /\ SmartEnergyAssistant._get_washing_advice
       (Main.grid_data Examples.env_down) = Raise TypeError
  /\ exists s,
       SmartEnergyAssistant._get_washing_advice
         (Main.grid_data Examples.env_day) = Ok s.
Proof.
  split; [|split].
  - destruct (X8_which_handlers_raise (Main.grid_data Examples.env_down))
      as [Hstatus _].
    apply (Hstatus "co2"). simpl. do 9 right. left. reflexivity.
  - destruct (X8_which_handlers_raise (Main.grid_data Examples.env_down))
      as [_ Hadvice].
    apply (Hadvice "wash").
    + simpl. do 3 right. left. reflexivity.
    + reflexivity.
  - destruct (X8_which_handlers_raise (Main.grid_data Examples.env_day))
      as [_ Hadvice].
    apply (Hadvice "wash").
    + simpl. do 3 right. left. reflexivity.
    + vm_compute. discriminate.
Defined.

(** X9 -- when the SMARD client has no current price, none of the six
    advice rules answers an assistant query: each raises on the null price
    and is passed over, so the endpoint answers as the first ten rules
    decide and hands every other query to the generative bridge. *)
Theorem X9_no_price_no_advice (env : Env) (ollama : Ollama) (q : string) :
  SMARDClient.get_current_price env = VNone ->
  Main.ask_assistant env ollama q
  = inl match SmartEnergyAssistant.scan
                (firstn 10 SmartEnergyAssistant.rules) (lower q)
                (Main.grid_data env) with
        | Some r => r
        | None =>
            SmartEnergyAssistant._ask_ollama ollama q (Main.grid_data env)
        end.
Proof.
  intro Hnull.
  unfold Main.ask_assistant, SmartEnergyAssistant.ask. cbn [Main.or_500].
  f_equal.
  change SmartEnergyAssistant.rules
    with (firstn 10 SmartEnergyAssistant.rules
            ++ skipn 10 SmartEnergyAssistant.rules)%list at 1.
  rewrite scan_app.
  destruct (SmartEnergyAssistant.scan (firstn 10 SmartEnergyAssistant.rules)
              (lower q) (Main.grid_data env)); [reflexivity|].
  replace (SmartEnergyAssistant.scan (skipn 10 SmartEnergyAssistant.rules)
             (lower q) (Main.grid_data env)) with (@None Answer);
    [reflexivity|].
  symmetry. apply scan_none. intros k h Hin _.
  exists TypeError.
  apply (advice_handlers_raise (Main.grid_data env) k h Hin).
  cbn. rewrite Hnull. reflexivity.
Qed.

Lemma X9_no_price_no_advice_witness :
  Main.ask_assistant Examples.env_down Examples.ollama_ok
    "Soll ich jetzt waschen oder laden?"
  = inl {| answer := "Gern."; type := "ai"; confidence := "medium";
           processing_time_ms := 2345 |}.
Proof.
  etransitivity.
  - apply (X9_no_price_no_advice Examples.env_down Examples.ollama_ok
             "Soll ich jetzt waschen oder laden?").
    reflexivity.
  - vm_compute. reflexivity.
Defined.

(** ** More on the request handlers of [main.py] *)



(** X11 -- whatever the SMARD client returns, the grid snapshot is fully
    populated and never shows a zero: its price and its CO2 intensity are
    different from zero, its mix is not empty and does not sum to zero; the
    status is the "cheap" text exactly when the price shown is below
    0.30. *)
Theorem X11_snapshot_never_zero (env : Env) :
  exists s,
    Main.get_current_grid_data env = inl s
    /\ ~ Main.price s == 0
    /\ ~ Main.co2 s == 0
    /\ Main.energy_mix s <> []
    /\ ~ Py.sum (values (Main.energy_mix s)) == 0
    /\ (Main.status s = "gÃ¼nstig" <-> Main.price s < 30 # 100)
    /\ (Main.status s = "normal" <-> 30 # 100 <= Main.price s).
Proof.
  unfold Main.get_current_grid_data, Main.fallback. cbn [Main.or_500].
  eexists. split; [reflexivity|].
  cbn [Main.price Main.co2 Main.energy_mix Main.status].
  split; [apply or_default_nonzero; intro H; discriminate H|].
  split; [apply or_default_nonzero; intro H; discriminate H|].
  assert (Hmix : (if Main.mix_missing (SMARDClient.get_energy_mix env)
                  then Main.default_mix
                  else SMARDClient.get_energy_mix env) <> []
                 /\ ~ Py.sum (values
                         (if Main.mix_missing (SMARDClient.get_energy_mix env)
                          then Main.default_mix
                          else SMARDClient.get_energy_mix env)) == 0).
  { destruct (Main.mix_missing (SMARDClient.get_energy_mix env)) eqn:E.
    - split; [discriminate | intro H; discriminate H].
    - unfold Main.mix_missing in E.
      destruct (SMARDClient.get_energy_mix env) as [|kv m];
        [discriminate|].
      split; [discriminate|].
      intro H. apply Qeq_bool_iff in H. congruence. }
  destruct Hmix as [Hne Hsum].
  split; [exact Hne|]. split; [exact Hsum|].
  destruct (ltb (or_default (SMARDClient.get_current_price env) (28 # 100))
              (30 # 100)) eqn:E.
  - apply ltb_lt in E. split; split; auto; try discriminate.
    intro H. exfalso. exact (Qlt_not_le _ _ E H).
  - apply ltb_ge in E. split; split; auto; try discriminate.
    intro H. exfalso. exact (Qlt_not_le _ _ H E).
Qed.

Lemma min_from_head {A} (key : A -> Q) (xs : list A) (best : A) :
  (forall y, In y xs -> key best <= key y) ->
  min_from key best xs = best.
Proof.
  induction xs as [|y ys IH]; intro Hall; [reflexivity|].
  cbn [min_from].
  replace (ltb (key y) (key best)) with false.
  - apply IH. intros z Hz. apply Hall. right. exact Hz.
  - symmetry. apply ltb_ge. apply Hall. left. reflexivity.
Qed.

Lemma variation_period (i : Z) :
  Main.variation (i + 12) = Main.variation i.
Proof.
  unfold Main.variation.
  replace ((i + 12) mod 12)%Z with (i mod 12)%Z
    by (replace (i + 12)%Z with (i + 1 * 12)%Z by lia;
        symmetry; apply Z_mod_plus_full).
  replace ((i + 12) mod 4)%Z with (i mod 4)%Z
    by (replace (i + 12)%Z with (i + 3 * 4)%Z by lia;
        symmetry; apply Z_mod_plus_full).
  replace ((i + 12) mod 2)%Z with (i mod 2)%Z
    by (replace (i + 12)%Z with (i + 6 * 2)%Z by lia;
        symmetry; apply Z_mod_plus_full).
  reflexivity.
Qed.

Lemma range_positive (n : Z) :
  (0 < n)%Z ->
  Py.range n = 0%Z :: map Z.of_nat (seq 1 (Z.to_nat n - 1)).
Proof.
  intro H. unfold Py.range.
  replace (Z.to_nat n) with (S (Z.to_nat n - 1)) at 1 by lia.
  reflexivity.
Qed.

(** X12 -- in the synthesized forecast the first point, the present hour,
    is always the cheapest one (no later point is priced lower, so the
    first-minimum choice falls on it), and the prices repeat with a period
    of twelve hours. *)
Theorem X12_synthetic_forecast_cheapest_now (env : Env) (utcnow : Z -> Z)
    (hours : Z) (location : string) :
  (0 < hours)%Z ->
  exists f first,
    Main.get_price_forecast env utcnow hours location = inl f
    /\ nth_error (Main.forecast f) 0 = Some first
    /\ cheapest_by price_key (Main.forecast f) = first
    /\ (forall x, In x (Main.forecast f) -> price_key first <= price_key x)
    /\ (forall i,
           (0 <= i)%Z -> (i + 12 < hours)%Z ->
           exists x y,
             nth_error (Main.forecast f) (Z.to_nat i) = Some x
             /\ nth_error (Main.forecast f) (Z.to_nat (i + 12)) = Some y
             /\ Point.price y = Point.price x).
Proof.
  intro Hpos.
  set (p := or_default (SMARDClient.get_current_price env) (30 # 100)).
  exists {| Main.forecast :=
              map (Main.forecast_entry env utcnow p) (Py.range hours);
            Main.hours := hours;
            Main.location := Some location |}.
  exists (Main.forecast_entry env utcnow p 0).
  split; [reflexivity|]. cbn [Main.forecast].
  assert (Hle : forall x,
             In x (map (Main.forecast_entry env utcnow p) (Py.range hours)) ->
             price_key (Main.forecast_entry env utcnow p 0) <= price_key x).
  { intros x Hx. apply in_map_iff in Hx. destruct Hx as (i & <- & _).
    unfold price_key, Main.forecast_entry. cbn [Point.price get].
    apply round_mono.
    pose proof (variation_bounds i) as [Hlo _].
    assert (H0 : Main.variation 0 == - (75 # 1000)) by reflexivity.
    rewrite H0. lra. }
  assert (Hperiod : forall i,
             (0 <= i)%Z -> (i + 12 < hours)%Z ->
             exists x y,
               nth_error
                 (map (Main.forecast_entry env utcnow p) (Py.range hours))
                 (Z.to_nat i) = Some x
               /\ nth_error
                    (map (Main.forecast_entry env utcnow p) (Py.range hours))
                    (Z.to_nat (i + 12)) = Some y
               /\ Point.price y = Point.price x).
  { intros i Hi Hi12.
    exists (Main.forecast_entry env utcnow p i),
           (Main.forecast_entry env utcnow p (i + 12)).
    split; [apply forecast_entry_nth; lia|].
    split; [apply forecast_entry_nth; lia|].
    unfold Main.forecast_entry. cbn [Point.price].
    rewrite variation_period. reflexivity. }
  split; [|split; [|split; [exact Hle | exact Hperiod]]].
  - rewrite (range_positive hours Hpos). reflexivity.
  - clear Hperiod. rewrite (range_positive hours Hpos) in *.
    cbn [map cheapest_by]. apply min_from_head.
    intros y Hy. apply Hle. right. exact Hy.
Qed.

Lemma X12_synthetic_forecast_cheapest_now_witness :
  exists f first,
    Main.get_price_forecast Examples.env_day Examples.ticking_clock 24
      "Berlin" = inl f
    /\ nth_error (Main.forecast f) 0 = Some first
    /\ cheapest_by price_key (Main.forecast f) = first.
Proof.
  destruct (X12_synthetic_forecast_cheapest_now Examples.env_day
              Examples.ticking_clock 24 "Berlin")
    as (f & first & Hf & Hfirst & Hcheap & _); [lia|].
  exists f, first. auto.
Defined.

(** X13 -- for a device of the catalog and a non-empty price forecast the
    recommendation endpoint names the device and, as the best time, the
    label of the first point of least price.  It answers "now" or "wait",
    "now" only with reported savings of at most five cents and "wait"
    only with reported savings of at least five cents.  Each of the three
    amounts it reports is the exact amount brought to cents: it is less
    than a cent away from it, with 0.0001 per kilowatt-hour to spare for
    the last decimal of each price. *)
Theorem X13_recommendation_decision (env : Env) (db : list UserDevice)
    (device_id : Z) (d : UserDevice) (x : Point.t) (xs : list Point.t) :
  List.find (fun d => (id d =? device_id)%Z) db = Some d ->
  SMARDClient.get_price_forecast env 24 = x :: xs ->
  let now := Main.recommendation_price env * power_kwh d in
  let slack := (1 # 100) + (2 # 10000) * Qabs (power_kwh d) in
  exists r best best_price,
    Main.get_device_recommendation env db device_id = inl r
    /\ first_minimum price_key best (x :: xs)
    /\ Point.price best = Some best_price
    /\ Main.device r = name d
    /\ Main.best_time r = get (Point.hour best) "N/A"
    /\ (Main.recommendation r = "now" \/ Main.recommendation r = "wait")
    /\ (Main.recommendation r = "now" ->
        Main.potential_savings r <= 5 # 100)
    /\ (Main.recommendation r = "wait" ->
        5 # 100 <= Main.potential_savings r)
    /\ (now - slack < Main.cost_now r /\ Main.cost_now r < now + slack)
    /\ (best_price * power_kwh d - slack < Main.cost_best r
        /\ Main.cost_best r < best_price * power_kwh d + slack)
    /\ (now - best_price * power_kwh d - slack < Main.potential_savings r
        /\ Main.potential_savings r
           < now - best_price * power_kwh d + slack).
Proof.
  intros Hfind Hf now slack.
  destruct (get_device_recommendation_found env db device_id d Hfind)
    as (r & Hr & Hdev & Hrec & Hbest & Hnow & Hcb & Hps).
  rewrite Hf in Hrec, Hbest, Hnow, Hcb, Hps.
  set (c := costs (Main.recommendation_price env) (power_kwh d) (x :: xs))
    in *.
  pose proof (costs_cheapest_first_minimum (Main.recommendation_price env)
                (power_kwh d) x xs) as Hmin.
  fold c in Hmin.
  destruct (get_price_forecast_in env 24 (Costs.cheapest c)) as (_ & v & Hv).
  { rewrite Hf. apply (first_minimum_in _ _ _ Hmin). }
  exists r, (Costs.cheapest c), (Py.round (v / 1000) 4).
  set (bp := Py.round (v / 1000) 4) in *.
  assert (Hsav : Costs.savings c = now - bp * power_kwh d).
  { change (Costs.savings c)
      with (Main.recommendation_price env * power_kwh d
            - get (Point.price (Costs.cheapest c)) 0 * power_kwh d).
    rewrite Hv. reflexivity. }
  assert (Hcost : Costs.cost_cheapest c = bp * power_kwh d).
  { change (Costs.cost_cheapest c)
      with (get (Point.price (Costs.cheapest c)) 0 * power_kwh d).
    rewrite Hv. reflexivity. }
  assert (Hcn : Costs.cost_now c = now) by reflexivity.
  assert (Hfive : Py.round (5 # 100) 2 == 5 # 100)
    by (vm_compute; reflexivity).
  assert (Hroom : 1 # 100 <= slack).
  { unfold slack. pose proof (Qabs_nonneg (power_kwh d)) as Habs.
    set (w := Qabs (power_kwh d)) in *. lra. }
  pose proof (round_near_2 (Costs.cost_now c)) as [N1 N2].
  pose proof (round_near_2 (Costs.cost_cheapest c)) as [B1 B2].
  pose proof (round_near_2 (Costs.savings c)) as [S1 S2].
  rewrite <- Hnow in N1, N2. rewrite <- Hcb in B1, B2.
  rewrite <- Hps in S1, S2.
  rewrite Hcn in N1, N2. rewrite Hcost in B1, B2. rewrite Hsav in S1, S2.
  split; [exact Hr|]. split; [exact Hmin|]. split; [exact Hv|].
  split; [exact Hdev|]. split; [exact Hbest|].
  split; [rewrite Hrec; destruct (Main.recommends_now c); auto|].
  split; [|split].
  - rewrite Hrec, Hps. unfold Main.recommends_now.
    destruct (ltb (Costs.savings c) (5 # 100)) eqn:E;
      [|intro H; discriminate H].
    intros _. apply ltb_lt in E. rewrite <- Hfive.
    apply round_mono. apply Qlt_le_weak. exact E.
  - rewrite Hrec, Hps. unfold Main.recommends_now.
    destruct (ltb (Costs.savings c) (5 # 100)) eqn:E;
      [intro H; discriminate H|].
    intros _. apply ltb_ge in E. rewrite <- Hfive.
    apply round_mono. exact E.
  - split; [split; lra|]. split; split; lra.
Qed.

Lemma X13_recommendation_decision_witness :
  exists r,
    Main.get_device_recommendation Examples.env_day seed_devices 1 = inl r
    /\ Main.device r = "Waschmaschine"
    /\ Main.best_time r = "11:00"
    /\ (Main.recommendation r = "wait" ->
        5 # 100 <= Main.potential_savings r).
Proof.
  destruct (X13_recommendation_decision Examples.env_day seed_devices 1
              {| id := 1; name := "Waschmaschine";
                 device_type := "appliance"; power_kwh := 2;
                 usage_per_week := 3; flexible := 1;
                 room := Some "bathroom" |}
              {| Point.timestamp := Some 1767258000000%Z;
                 Point.hour := Some "10:00";
                 Point.price := Some (Py.round (250 / 1000) 4);
                 Point.co2 := None |}
              [ {| Point.timestamp := Some 1767261600000%Z;
                   Point.hour := Some "11:00";
                   Point.price := Some (Py.round (220 / 1000) 4);
                   Point.co2 := None |};
                {| Point.timestamp := Some 1767265200000%Z;
                   Point.hour := Some "12:00";
                   Point.price := Some (Py.round (300 / 1000) 4);
                   Point.co2 := None |} ])
    as (r & best & bp & Hr & _ & _ & Hdev & _ & _ & _ & Hwait & _);
    [reflexivity | vm_compute; reflexivity |].
  exists r. split; [exact Hr|]. split; [exact Hdev|].
  split; [|exact Hwait].
  vm_compute in Hr. injection Hr as <-. reflexivity.
Defined.

(** X14 -- when the SMARD client returns a price and a CO2 intensity that
    are numbers different from zero and a mix that does not sum to zero,
    the grid snapshot shows exactly these three values. *)
Theorem X14_snapshot_keeps_nonzero_readings (env : Env) (p c : Q) :
  SMARDClient.get_current_price env = VNum p ->
  ~ p == 0 ->
  SMARDClient.get_co2_intensity env = VNum c ->
  ~ c == 0 ->
  ~ Py.sum (values (SMARDClient.get_energy_mix env)) == 0 ->
  Main.get_current_grid_data env
  = inl {| Main.price := p;
           Main.co2 := c;
           Main.energy_mix := SMARDClient.get_energy_mix env;
           Main.status := if ltb p (30 # 100) then "gÃ¼nstig"
                          else "normal" |}.
Proof.
  intros Hp Hp0 Hc Hc0 Hsum.
  unfold Main.get_current_grid_data, Main.fallback.
  rewrite Hp, Hc. cbn [or_default].
  assert (Ep : Qeq_bool p 0 = false).
  { destruct (Qeq_bool p 0) eqn:E; [|reflexivity].
    apply Qeq_bool_iff in E. contradiction. }
  assert (Ec : Qeq_bool c 0 = false).
  { destruct (Qeq_bool c 0) eqn:E; [|reflexivity].
    apply Qeq_bool_iff in E. contradiction. }
  assert (Em : Main.mix_missing (SMARDClient.get_energy_mix env) = false).
  { unfold Main.mix_missing.
    destruct (SMARDClient.get_energy_mix env) as [|kv m] eqn:E.
    - exfalso. apply Hsum. reflexivity.
    - destruct (Qeq_bool (Py.sum (values (kv :: m))) 0) eqn:E0;
        [|reflexivity].
      apply Qeq_bool_iff in E0. contradiction. }
  rewrite Ep, Ec, Em. reflexivity.
Qed.

Lemma X14_snapshot_keeps_nonzero_readings_witness :
  exists p c,
    Main.get_current_grid_data Examples.env_day
    = inl {| Main.price := p;
             Main.co2 := c;
             Main.energy_mix := SMARDClient.get_energy_mix Examples.env_day;
             Main.status := if ltb p (30 # 100) then "gÃ¼nstig"
                            else "normal" |}
    /\ p == 30 # 100 /\ c == 172.
Proof.
  eexists _, _. split.
  - apply (X14_snapshot_keeps_nonzero_readings Examples.env_day).
    + vm_compute. reflexivity.
    + vm_compute. discriminate.
    + vm_compute. reflexivity.
    + vm_compute. discriminate.
    + vm_compute. discriminate.
  - split; vm_compute; reflexivity.
Defined.

(** ** Price status against charging advice *)



(** ** [WeatherClient.get_forecast] and [get_current_weather] *)

Lemma in_firstn {A} (n : nat) (l : list A) (x : A) :
  In x (firstn n l) -> In x l.
Proof.
  intro H. rewrite <- (firstn_skipn n l). apply in_or_app. left. exact H.
Qed.

Lemma in_slice_to {A} (l : list A) (stop : Z) (x : A) :
  In x (PySeq.slice_to l stop) -> In x l.
Proof.
  unfold PySeq.slice_to. destruct (0 <=? stop)%Z; apply in_firstn.
Qed.

Lemma slice_to_length {A} (l : list A) (stop : Z) :
  ((0 <= stop)%Z ->
   List.length (PySeq.slice_to l stop)
   = Nat.min (Z.to_nat stop) (List.length l))
  /\ ((stop < 0)%Z ->
      List.length (PySeq.slice_to l stop)
      = (List.length l - Z.to_nat (- stop))%nat).
Proof.
  unfold PySeq.slice_to. split; intro H.
  - replace (0 <=? stop)%Z with true by (symmetry; apply Z.leb_le; exact H).
    apply length_firstn.
  - replace (0 <=? stop)%Z with false by (symmetry; apply Z.leb_gt; exact H).
    rewrite length_firstn. lia.
Qed.

Lemma for_each_ok {A B} (f : A -> B + PySeq.exn) (l : list A) :
  (forall x, In x l -> exists b, f x = inl b) ->
  exists bs,
    PySeq.for_each f l = inl bs /\ Forall2 (fun x b => f x = inl b) l bs.
Proof.
  induction l as [|x l IH]; intro Hall.
  - exists []. split; [reflexivity | constructor].
  - destruct (Hall x (or_introl eq_refl)) as (b & Hb).
    destruct IH as (bs & Hbs & Hrel).
    { intros y Hy. apply Hall. right. exact Hy. }
    exists (b :: bs). split.
    + cbn [PySeq.for_each]. rewrite Hb, Hbs. reflexivity.
    + constructor; assumption.
Qed.

Lemma for_each_raises {A B} (f : A -> B + PySeq.exn) (l : list A)
    (e : PySeq.exn) :
  (forall x e', f x = inr e' -> e' = e) ->
  (exists x, In x l /\ f x = inr e) ->
  PySeq.for_each f l = inr e.
Proof.
  intros Honly. induction l as [|x l IH]; intros (y & Hin & Hy).
  - contradiction.
  - cbn [PySeq.for_each].
    destruct (f x) as [b|e'] eqn:Ex.
    + destruct Hin as [<- | Hin]; [congruence|].
      rewrite IH; [reflexivity|]. exists y. auto.
    + rewrite (Honly x e' Ex). reflexivity.
Qed.

Lemma forecast_entry_raises_index_error (item : ItemJson.t) (e : PySeq.exn) :
  WeatherClient.forecast_entry item = inr e -> e = PySeq.IndexError.
Proof.
  unfold WeatherClient.forecast_entry, PySeq.index.
  destruct (nth_error (PySeq.split (get (ItemJson.dt_txt item) "")) 1);
    [discriminate|].
  intro H. injection H as <-. reflexivity.
Qed.

(** X16 -- with a key and an answer in which every entry has a date and a
    time in its [dt_txt], the weather forecast has one entry per three
    hours of the horizon, as far as the answer reaches; for a negative
    horizon it drops entries from the end instead of returning none.  Each
    entry has the timestamp in milliseconds, the first five characters of
    the time as its label, and the solar estimate of its cloud
    coverage. *)
Theorem X16_weather_forecast_entries (ow : OpenWeather) (hours : Z)
    (items : list ItemJson.t) :
  WeatherClient.no_key ow = false ->
  fetch_forecast ow WeatherClient.DEFAULT_LAT WeatherClient.DEFAULT_LON
  = Some (Some items) ->
  (forall it,
      In it items ->
      exists date time rest,
        PySeq.split (get (ItemJson.dt_txt it) "") = date :: time :: rest) ->
  exists f,
    WeatherClient.get_forecast ow VNone VNone hours = inl f
    /\ ((0 <= hours)%Z ->
        List.length f = Nat.min (Z.to_nat (hours / 3)) (List.length items))
    /\ ((hours < 0)%Z ->
        List.length f
        = (List.length items - Z.to_nat (- (hours / 3)))%nat)
    /\ Forall2
         (fun it e =>
            WeatherClient.Entry.timestamp e
            = (get (ItemJson.dt it) 0 * 1000)%Z
            /\ (exists date time rest,
                   PySeq.split (get (ItemJson.dt_txt it) "")
                   = date :: time :: rest
                   /\ WeatherClient.Entry.hour e = PySeq.take_chars 5 time)
            /\ WeatherClient.Entry.temp e = ItemJson.main_temp it
            /\ WeatherClient.Entry.clouds e = get (ItemJson.clouds_all it) 0
            /\ WeatherClient.Entry.solar_estimate e
               = WeatherClient._calculate_solar_estimate
                   (WeatherClient.Entry.clouds e))
         (PySeq.slice_to items (hours / 3)) f.
Proof.
  intros Hkey Hfetch Hwell.
  unfold WeatherClient.get_forecast. rewrite Hkey.
  change (or_default VNone WeatherClient.DEFAULT_LAT)
    with WeatherClient.DEFAULT_LAT.
  change (or_default VNone WeatherClient.DEFAULT_LON)
    with WeatherClient.DEFAULT_LON.
  rewrite Hfetch. cbn [get].
  assert (Hentry : forall it,
             In it items ->
             exists date time rest,
               PySeq.split (get (ItemJson.dt_txt it) "")
               = date :: time :: rest
               /\ WeatherClient.forecast_entry it
                  = inl {| WeatherClient.Entry.timestamp :=
                             (get (ItemJson.dt it) 0 * 1000)%Z;
                           WeatherClient.Entry.hour :=
                             PySeq.take_chars 5 time;
                           WeatherClient.Entry.temp := ItemJson.main_temp it;
                           WeatherClient.Entry.clouds :=
                             get (ItemJson.clouds_all it) 0;
                           WeatherClient.Entry.solar_estimate :=
                             WeatherClient._calculate_solar_estimate
                               (get (ItemJson.clouds_all it) 0) |}).
  { intros it Hin. destruct (Hwell it Hin) as (date & time & rest & Hsplit).
    exists date, time, rest. split; [exact Hsplit|].
    unfold WeatherClient.forecast_entry. rewrite Hsplit. reflexivity. }
  destruct (for_each_ok WeatherClient.forecast_entry
              (PySeq.slice_to items (hours / 3))) as (f & Hf & Hrel).
  { intros it Hin. apply in_slice_to in Hin.
    destruct (Hentry it Hin) as (date & time & rest & _ & He). eauto. }
  exists f. split; [exact Hf|].
  pose proof (Forall2_length Hrel) as Hlen.
  destruct (slice_to_length items (hours / 3)) as [Hnonneg Hneg].
  split; [|split].
  - intro H. rewrite <- Hlen. apply Hnonneg.
    apply Z.div_pos; lia.
  - intro H. rewrite <- Hlen. apply Hneg.
    apply Z.div_lt_upper_bound; lia.
  - assert (Hsub : forall it, In it (PySeq.slice_to items (hours / 3)) ->
                              In it items)
      by (intros it; apply in_slice_to).
    clear Hf Hlen Hnonneg Hneg.
    induction Hrel as [|it e l f' He Hrel IH]; constructor.
    + destruct (Hentry it (Hsub it (or_introl eq_refl)))
        as (date & time & rest & Hsplit & Hval).
      rewrite Hval in He. injection He as <-.
      cbn. repeat split. exists date, time, rest. split; [exact Hsplit|].
      reflexivity.
    + apply IH. intros it' Hin. apply Hsub. right. exact Hin.
Qed.

Lemma X16_weather_forecast_entries_witness :
  (exists f,
      WeatherClient.get_forecast WeatherExamples.ow_ok VNone VNone 6
      = inl f
      /\ List.length f = 2%nat)
  /\ (exists f,
         WeatherClient.get_forecast WeatherExamples.ow_ok VNone VNone (-1)
         = inl f
         /\ List.length f = 2%nat).
Proof.
  assert (Hwell : forall it,
             In it WeatherExamples.three_items ->
             exists date time rest,
               PySeq.split (get (ItemJson.dt_txt it) "")
               = date :: time :: rest).
  { intros it Hin. simpl in Hin.
    repeat (destruct Hin as [<- | Hin];
            [eexists _, _, _; vm_compute; reflexivity|]).
    contradiction. }
  split.
  - destruct (X16_weather_forecast_entries WeatherExamples.ow_ok 6
                WeatherExamples.three_items eq_refl eq_refl Hwell)
      as (f & Hf & Hlen & _).
    exists f. split; [exact Hf|]. apply Hlen. lia.
  - destruct (X16_weather_forecast_entries WeatherExamples.ow_ok (-1)
                WeatherExamples.three_items eq_refl eq_refl Hwell)
      as (f & Hf & _ & Hlen & _).
    exists f. split; [exact Hf|]. apply Hlen. lia.
Defined.

(** X17 -- an entry within the requested horizon whose [dt_txt] is
    missing, or has no second word, makes the whole weather forecast fail:
    the default [""] has no time to index, [IndexError] is not among the
    exceptions the client catches, and the endpoint answers 500 with its
    text.  Without a key, and when the request fails, the forecast is
    empty instead. *)
Theorem X17_weather_forecast_index_error (ow : OpenWeather) (hours : Z) :
  (forall items it,
      WeatherClient.no_key ow = false ->
      fetch_forecast ow WeatherClient.DEFAULT_LAT WeatherClient.DEFAULT_LON
      = Some (Some items) ->
      In it (PySeq.slice_to items (hours / 3)) ->
      (List.length (PySeq.split (get (ItemJson.dt_txt it) "")) < 2)%nat ->
      WeatherClient.get_forecast ow VNone VNone hours
      = inr PySeq.IndexError
      /\ Endpoints.get_weather_forecast ow hours
         = inr (Main.HTTP 500 "list index out of range"))
  /\ (WeatherClient.no_key ow = true
      \/ fetch_forecast ow WeatherClient.DEFAULT_LAT
           WeatherClient.DEFAULT_LON = None ->
      Endpoints.get_weather_forecast ow hours
      = inl {| Endpoints.forecast := []; Endpoints.hours := hours |}).
Proof.
  split.
  - intros items it Hkey Hfetch Hin Hshort.
    assert (Hraise : WeatherClient.get_forecast ow VNone VNone hours
                     = inr PySeq.IndexError).
    { unfold WeatherClient.get_forecast. rewrite Hkey.
      change (or_default VNone WeatherClient.DEFAULT_LAT)
        with WeatherClient.DEFAULT_LAT.
      change (or_default VNone WeatherClient.DEFAULT_LON)
        with WeatherClient.DEFAULT_LON.
      rewrite Hfetch. cbn [get].
      apply for_each_raises.
      - intros x e'. apply forecast_entry_raises_index_error.
      - exists it. split; [exact Hin|].
        unfold WeatherClient.forecast_entry, PySeq.index.
        destruct (PySeq.split (get (ItemJson.dt_txt it) ""))
          as [|date [|time rest]]; [reflexivity | reflexivity|].
        simpl in Hshort. lia. }
    split; [exact Hraise|].
    unfold Endpoints.get_weather_forecast. rewrite Hraise. reflexivity.
  - intro H.
    unfold Endpoints.get_weather_forecast, WeatherClient.get_forecast.
    destruct (WeatherClient.no_key ow) eqn:Ek; [reflexivity|].
    destruct H as [H | H]; [discriminate|].
    change (or_default VNone WeatherClient.DEFAULT_LAT)
      with WeatherClient.DEFAULT_LAT.
    change (or_default VNone WeatherClient.DEFAULT_LON)
      with WeatherClient.DEFAULT_LON.
    rewrite H. reflexivity.
Qed.

Lemma X17_weather_forecast_index_error_witness :
  Endpoints.get_weather_forecast WeatherExamples.ow_odd 24
  = inr (Main.HTTP 500 "list index out of range")
  /\ Endpoints.get_weather_forecast WeatherExamples.ow_no_key 24
     = inl {| Endpoints.forecast := []; Endpoints.hours := 24 |}
  /\ Endpoints.get_weather_forecast WeatherExamples.ow_unreachable 24
     = inl {| Endpoints.forecast := []; Endpoints.hours := 24 |}.
Proof.
  split; [|split].
  - destruct (X17_weather_forecast_index_error WeatherExamples.ow_odd 24)
      as [Hraise _].
    apply (Hraise [ WeatherExamples.item 1767268800
                      (Some "2026-01-01 12:00:00") 20;
                    WeatherExamples.item 1767279600 None 75 ]
             (WeatherExamples.item 1767279600 None 75)).
    + reflexivity.
    + reflexivity.
    + simpl. right. left. reflexivity.
    + simpl. lia.
  - destruct (X17_weather_forecast_index_error WeatherExamples.ow_no_key 24)
      as [_ Hempty].
    apply Hempty. left. reflexivity.
  - destruct (X17_weather_forecast_index_error
                WeatherExamples.ow_unreachable 24) as [_ Hempty].
    apply Hempty. right. reflexivity.
Defined.

(** X18 -- the current-weather endpoint answers with the fixed mock
    record when no key is configured and when the request fails; it fails
    itself, with 500, exactly when the answer of the weather service has
    an empty ["weather"] list.  Every other answer carries the solar
    estimate of its own cloud coverage; the mock record does not (0.8 for
    20 percent of clouds, where the estimate is 0.82). *)
Theorem X18_current_weather_outcomes (ow : OpenWeather) :
  (WeatherClient.no_key ow = true
   \/ fetch_weather ow WeatherClient.DEFAULT_LAT WeatherClient.DEFAULT_LON
      = None ->
   Endpoints.get_current_weather ow = inl WeatherClient._mock_weather)
  /\ ((exists e, Endpoints.get_current_weather ow = inr e)
      <-> WeatherClient.no_key ow = false
          /\ exists data,
               fetch_weather ow WeatherClient.DEFAULT_LAT
                 WeatherClient.DEFAULT_LON = Some data
               /\ CurrentJson.weather data = Some [])
  /\ (forall e,
         Endpoints.get_current_weather ow = inr e ->
         e = Main.HTTP 500 "list index out of range")
  /\ (forall w,
         Endpoints.get_current_weather ow = inl w ->
         w = WeatherClient._mock_weather
         \/ WeatherClient.solar_estimate w
            = WeatherClient._calculate_solar_estimate
                (WeatherClient.clouds w))
  /\ ~ WeatherClient.solar_estimate WeatherClient._mock_weather
       == WeatherClient._calculate_solar_estimate
            (WeatherClient.clouds WeatherClient._mock_weather).
Proof.
  unfold Endpoints.get_current_weather, WeatherClient.get_current_weather.
  change (or_default VNone WeatherClient.DEFAULT_LAT)
    with WeatherClient.DEFAULT_LAT.
  change (or_default VNone WeatherClient.DEFAULT_LON)
    with WeatherClient.DEFAULT_LON.
  destruct (WeatherClient.no_key ow) eqn:Ek.
  { split; [reflexivity|]. split.
    - split; [intros (e & H); discriminate H | intros [H _]; discriminate H].
    - split; [intros e H; discriminate H|].
      split; [intros w H; injection H as <-; left; reflexivity|].
      vm_compute. discriminate. }
  destruct (fetch_weather ow WeatherClient.DEFAULT_LAT
              WeatherClient.DEFAULT_LON) as [data|] eqn:Ef.
  2:{ split; [reflexivity|]. split.
      - split; [intros (e & H); discriminate H
               | intros (_ & data & H & _); discriminate H].
      - split; [intros e H; discriminate H|].
        split; [intros w H; injection H as <-; left; reflexivity|].
        vm_compute. discriminate. }
  split; [intros [H | H]; discriminate H|].
  destruct (CurrentJson.weather data) as [[|first rest]|] eqn:Ew;
    cbn [get PySeq.index nth_error Endpoints.or_500].
  - split.
    + split; [intros _; split; [reflexivity|]; exists data; auto
             | intros _; eexists; reflexivity].
    + split; [intros e H; injection H as <-; reflexivity|].
      split; [intros w H; discriminate H | vm_compute; discriminate].
  - split.
    + split; [intros (e & H); discriminate H
             | intros (_ & d & Hd & Hempty)].
      injection Hd as <-. rewrite Ew in Hempty. discriminate Hempty.
    + split; [intros e H; discriminate H|].
      split; [intros w H; injection H as <-; right; reflexivity|].
      vm_compute. discriminate.
  - split.
    + split; [intros (e & H); discriminate H
             | intros (_ & d & Hd & Hempty)].
      injection Hd as <-. rewrite Ew in Hempty. discriminate Hempty.
    + split; [intros e H; discriminate H|].
      split; [intros w H; injection H as <-; right; reflexivity|].
      vm_compute. discriminate.
Qed.

Lemma X18_current_weather_outcomes_witness :
  Endpoints.get_current_weather WeatherExamples.ow_no_key
  = inl WeatherClient._mock_weather
  /\ Endpoints.get_current_weather WeatherExamples.ow_unreachable
     = inl WeatherClient._mock_weather
  /\ Endpoints.get_current_weather WeatherExamples.ow_odd
     = inr (Main.HTTP 500 "list index out of range")
  /\ exists w,
       Endpoints.get_current_weather WeatherExamples.ow_ok = inl w
       /\ WeatherClient.solar_estimate w
          = WeatherClient._calculate_solar_estimate (WeatherClient.clouds w).
Proof.
  split; [|split; [|split]].
  - destruct (X18_current_weather_outcomes WeatherExamples.ow_no_key)
      as [Hmock _].
    apply Hmock. left. reflexivity.
  - destruct (X18_current_weather_outcomes WeatherExamples.ow_unreachable)
      as [Hmock _].
    apply Hmock. right. reflexivity.
  - destruct (X18_current_weather_outcomes WeatherExamples.ow_odd)
      as (_ & [_ Hfail] & Honly & _).
    destruct Hfail as (e & He).
    + split; [reflexivity|]. eexists. split; reflexivity.
    + rewrite He. f_equal. apply Honly. exact He.
  - destruct (X18_current_weather_outcomes WeatherExamples.ow_ok)
      as (_ & _ & _ & Hsolar & _).
    eexists. split; [reflexivity|].
    destruct (Hsolar _ eq_refl) as [Hmock | Hest]; [|exact Hest].
    vm_compute in Hmock. discriminate Hmock.
Defined.

(** ** [SMARDClient]: energy mix and CO2 intensity *)

Lemma collect_keys (env : Env) (srcs : list string) :
  (forall s, In s srcs ->
             existsb (fun f => String.eqb (fst f) s) SMARDClient.FILTERS
             = true) ->
  exists mix_data,
    SMARDClient.collect env srcs = Ok mix_data
    /\ (forall k, In k (map fst mix_data) -> In k srcs)
    /\ (NoDup srcs -> NoDup (map fst mix_data)).
Proof.
  induction srcs as [|s rest IH]; intro Hknown.
  - exists []. repeat split; [intros k [] | intros _; constructor].
  - destruct IH as (tail & Htail & Hsub & Hnodup).
    { intros s' Hs'. apply Hknown. right. exact Hs'. }
    cbn [SMARDClient.collect]. unfold SMARDClient._fetch_timeseries.
    rewrite (Hknown s (or_introl eq_refl)). cbn [bind]. rewrite Htail.
    cbn [bind].
    destruct (last (map Some (series env s 1%Z)) None) as [[t v]|].
    + eexists. split; [reflexivity|]. split.
      * intros k [<- | Hk]; [left; reflexivity | right; apply Hsub; exact Hk].
      * intro Hnd. inversion Hnd as [|? ? Hnotin Hnd']. subst.
        simpl. constructor; [|apply Hnodup; exact Hnd'].
        intro Hin. apply Hnotin. apply Hsub. exact Hin.
    + exists tail. split; [reflexivity|]. split.
      * intros k Hk. right. apply Hsub. exact Hk.
      * intro Hnd. inversion Hnd. apply Hnodup. assumption.
Qed.

Lemma sources_known (s : string) :
  In s SMARDClient.sources ->
  existsb (fun f => String.eqb (fst f) s) SMARDClient.FILTERS = true.
Proof.
  intro Hin. simpl in Hin.
  repeat (destruct Hin as [<- | Hin]; [reflexivity|]). contradiction.
Qed.

(** The mix before the two wind sources are merged. *)
Lemma get_energy_mix_unfold (env : Env) (mix_data : dict) :
  SMARDClient.collect env SMARDClient.sources = Ok mix_data ->
  let total := Py.sum (values mix_data) in
  let shares :=
    if ltb 0 total
    then map (fun sv => (fst sv, Py.round (snd sv / total * 100) 1)) mix_data
    else [] in
  SMARDClient.get_energy_mix env
  = match lookup "wind_onshore" shares, lookup "wind_offshore" shares with
    | Some onshore, Some offshore =>
        (remove "wind_offshore" (remove "wind_onshore" shares)
           ++ [("wind", onshore + offshore)])%list
    | _, _ => shares
    end.
Proof.
  intros Hcollect total shares.
  unfold SMARDClient.get_energy_mix. rewrite Hcollect. cbn [bind].
  fold total. fold shares.
  destruct (lookup "wind_onshore" shares);
    [destruct (lookup "wind_offshore" shares)|]; reflexivity.
Qed.

(** X19 -- the client reports an empty mix exactly when the latest
    productions of the sources do not add up to a positive total.  Then it
    has no CO2 intensity either, and the grid snapshot shows the default
    mix and 320; with a positive total the mix is not empty and the CO2
    intensity is a number. *)
Theorem X19_energy_mix_empty_without_production (env : Env) :
  exists mix_data,
    SMARDClient.collect env SMARDClient.sources = Ok mix_data
    /\ (0 < Py.sum (values mix_data) <-> SMARDClient.get_energy_mix env <> [])
    /\ (~ 0 < Py.sum (values mix_data) ->
        SMARDClient.get_energy_mix env = []
        /\ SMARDClient.get_co2_intensity env = VNone
        /\ exists s,
             Main.get_current_grid_data env = inl s
             /\ Main.energy_mix s = Main.default_mix
             /\ Main.co2 s = 320)
    /\ (0 < Py.sum (values mix_data) ->
        exists c, SMARDClient.get_co2_intensity env = VNum c).
Proof.
  destruct (collect_keys env SMARDClient.sources sources_known)
    as (mix_data & Hcollect & _).
  exists mix_data. split; [exact Hcollect|].
  pose proof (get_energy_mix_unfold env mix_data Hcollect) as Hmix.
  cbv zeta in Hmix.
  assert (Hempty : ~ 0 < Py.sum (values mix_data) ->
                   SMARDClient.get_energy_mix env = []).
  { intro Hnot. rewrite Hmix.
    replace (ltb 0 (Py.sum (values mix_data))) with false; [reflexivity|].
    symmetry. apply ltb_ge. apply Qnot_lt_le. exact Hnot. }
  assert (Hfull : 0 < Py.sum (values mix_data) ->
                  SMARDClient.get_energy_mix env <> []).
  { intro Hpos. rewrite Hmix.
    replace (ltb 0 (Py.sum (values mix_data))) with true
      by (symmetry; apply ltb_lt; exact Hpos).
    destruct mix_data as [|kv rest].
    - vm_compute in Hpos. discriminate Hpos.
    - match goal with
      | |- match ?a with _ => _ end <> [] => destruct a
      end;
        [match goal with
         | |- match ?b with _ => _ end <> [] => destruct b
         end|];
        try discriminate.
      intro H. apply app_eq_nil in H. destruct H as [_ H]. discriminate H. }
  split; [|split].
  - split; [exact Hfull|].
    intro Hne.
    destruct (Qlt_le_dec 0 (Py.sum (values mix_data))) as [Hpos | Hle];
      [exact Hpos|].
    exfalso. apply Hne. apply Hempty. apply Qle_not_lt. exact Hle.
  - intro Hnot. pose proof (Hempty Hnot) as He.
    split; [exact He|].
    assert (Hco2 : SMARDClient.get_co2_intensity env = VNone)
      by (apply get_co2_intensity_none; exact He).
    split; [exact Hco2|].
    unfold Main.get_current_grid_data, Main.fallback.
    rewrite He, Hco2. cbn [Main.or_500 Main.mix_missing or_default].
    eexists. split; [reflexivity|]. split; reflexivity.
  - intro Hpos.
    destruct (SMARDClient.get_co2_intensity env) as [|c] eqn:Ec;
      [|eauto].
    apply get_co2_intensity_none in Ec. exfalso. exact (Hfull Hpos Ec).
Qed.

Lemma X19_energy_mix_empty_without_production_witness :
  SMARDClient.get_energy_mix Examples.env_down = []
  /\ SMARDClient.get_energy_mix Examples.env_day <> [].
Proof.
  split.
  - destruct (X19_energy_mix_empty_without_production Examples.env_down)
      as (mix_data & Hcollect & _ & Hempty & _).
    apply Hempty.
    vm_compute in Hcollect. injection Hcollect as <-.
    vm_compute. discriminate.
  - destruct (X19_energy_mix_empty_without_production Examples.env_day)
      as (mix_data & Hcollect & [Hfull _] & _).
    apply Hfull.
    vm_compute in Hcollect. injection Hcollect as <-.
    vm_compute. reflexivity.
Defined.

Lemma lookup_notin (key : string) (d : dict) :
  ~ In key (map fst d) -> lookup key d = None.
Proof.
  induction d as [|[k v] d IH]; intro Hnot; [reflexivity|].
  cbn [lookup].
  destruct (String.eqb k key) eqn:E.
  - apply String.eqb_eq in E. exfalso. apply Hnot. left. exact E.
  - apply IH. intro Hin. apply Hnot. right. exact Hin.
Qed.

Lemma remove_keys (key : string) (d : dict) :
  map fst (remove key d)
  = filter (fun k => negb (String.eqb k key)) (map fst d).
Proof.
  unfold remove. induction d as [|[k v] d IH]; [reflexivity|].
  simpl. destruct (String.eqb k key); simpl; rewrite IH; reflexivity.
Qed.

Lemma emission_factor_other (k : string) :
  k <> "coal" -> k <> "gas" -> k <> "biomass" ->
  get (lookup k SMARDClient.emission_factors) 0 == 0.
Proof.
  intros Hcoal Hgas Hbio.
  unfold SMARDClient.emission_factors. cbn [lookup].
  destruct (String.eqb "solar" k); [reflexivity|].
  destruct (String.eqb "wind" k); [reflexivity|].
  destruct (String.eqb "coal" k) eqn:E1;
    [apply String.eqb_eq in E1; congruence|].
  destruct (String.eqb "gas" k) eqn:E2;
    [apply String.eqb_eq in E2; congruence|].
  destruct (String.eqb "biomass" k) eqn:E3;
    [apply String.eqb_eq in E3; congruence|].
  destruct (String.eqb "hydro" k); reflexivity.
Qed.

(** The weighted sum of the loop of [get_co2_intensity], on a dict whose
    keys are distinct. *)
Lemma emissions_of_shares (m : dict) :
  NoDup (map fst m) ->
  forall acc,
    fold_left
      (fun total sp =>
         total + (snd sp / 100)
                 * get (lookup (fst sp) SMARDClient.emission_factors) 0)
      m acc
    == acc + (get (lookup "coal" m) 0 * 820
              + get (lookup "gas" m) 0 * 490
              + get (lookup "biomass" m) 0 * 230) / 100.
Proof.
  induction m as [|[k v] m IH]; intros Hnd acc.
  - simpl. field.
  - inversion Hnd as [|? ? Hnotin Hnd']. subst.
    cbn [fold_left fst snd]. rewrite (IH Hnd').
    cbn [lookup].
    destruct (String.eqb k "coal") eqn:Ecoal.
    { apply String.eqb_eq in Ecoal. subst k.
      rewrite (lookup_notin "coal" m Hnotin).
      change (String.eqb "coal" "gas") with false.
      change (String.eqb "coal" "biomass") with false.
      change (get (lookup "coal" SMARDClient.emission_factors) 0) with 820.
      cbn [get]. field. }
    destruct (String.eqb k "gas") eqn:Egas.
    { apply String.eqb_eq in Egas. subst k.
      rewrite (lookup_notin "gas" m Hnotin).
      change (String.eqb "gas" "biomass") with false.
      change (get (lookup "gas" SMARDClient.emission_factors) 0) with 490.
      cbn [get]. field. }
    destruct (String.eqb k "biomass") eqn:Ebio.
    { apply String.eqb_eq in Ebio. subst k.
      rewrite (lookup_notin "biomass" m Hnotin).
      change (get (lookup "biomass" SMARDClient.emission_factors) 0)
        with 230.
      cbn [get]. field. }
    apply String.eqb_neq in Ecoal, Egas, Ebio.
    rewrite (emission_factor_other k Ecoal Egas Ebio). field.
Qed.

Lemma get_energy_mix_keys (env : Env) :
  NoDup (map fst (SMARDClient.get_energy_mix env)).
Proof.
  destruct (collect_keys env SMARDClient.sources sources_known)
    as (mix_data & Hcollect & Hsub & Hnodup).
  assert (Hnd : NoDup (map fst mix_data)).
  { apply Hnodup. unfold SMARDClient.sources.
    repeat (constructor;
            [simpl; intro H;
             repeat (destruct H as [H | H]; [discriminate H|]);
             contradiction|]).
    constructor. }
  rewrite (get_energy_mix_unfold env mix_data Hcollect).
  set (total := Py.sum (values mix_data)).
  set (shares :=
         if ltb 0 total
         then map (fun sv => (fst sv, Py.round (snd sv / total * 100) 1))
                  mix_data
         else []).
  assert (Hkeys : map fst shares = map fst mix_data \/ shares = []).
  { unfold shares. destruct (ltb 0 total); [left | right; reflexivity].
    rewrite map_map. reflexivity. }
  assert (Hshares : NoDup (map fst shares)
                    /\ forall k, In k (map fst shares) ->
                                 In k SMARDClient.sources).
  { destruct Hkeys as [-> | ->]; [split; assumption|].
    split; [constructor | intros k []]. }
  destruct Hshares as [Hsn Hss].
  destruct (lookup "wind_onshore" shares);
    [destruct (lookup "wind_offshore" shares)|]; try exact Hsn.
  rewrite map_app, !remove_keys. apply NoDup_app.
  - apply NoDup_filter. apply NoDup_filter. exact Hsn.
  - simpl. constructor; [intros [] | constructor].
  - intros k Hk [<- | []].
    apply filter_In in Hk. destruct Hk as [Hk _].
    apply filter_In in Hk. destruct Hk as [Hk _].
    apply Hss in Hk. simpl in Hk.
    repeat (destruct Hk as [Hk | Hk]; [discriminate Hk|]). contradiction.
Qed.

(** The intensity in terms of the shares of the model's mix. *)
Lemma get_co2_intensity_of_mix (env : Env) :
  let mix := SMARDClient.get_energy_mix env in
  mix <> [] ->
  exists c,
    SMARDClient.get_co2_intensity env = VNum c
    /\ c = Py.round
             ((get (lookup "coal" mix) 0 * 820
               + get (lookup "gas" mix) 0 * 490
               + get (lookup "biomass" mix) 0 * 230) / 100)
             1.
Proof.
  intros mix Hne.
  pose proof (get_energy_mix_keys env) as Hnd. fold mix in Hnd.
  unfold SMARDClient.get_co2_intensity. fold mix.
  destruct mix as [|kv m] eqn:E; [contradiction|].
  eexists. split; [reflexivity|]. apply round_comp.
  rewrite (emissions_of_shares (kv :: m) Hnd 0). ring.
Qed.

Lemma lookup_map_values (f : Q -> Q) (key : string) (d : dict) :
  lookup key (map (fun sv => (fst sv, f (snd sv))) d)
  = option_map f (lookup key d).
Proof.
  induction d as [|[k v] d IH]; [reflexivity|].
  cbn [map lookup fst snd]. destruct (String.eqb k key); [reflexivity|].
  exact IH.
Qed.

Lemma lookup_remove_other (key other : string) (d : dict) :
  String.eqb other key = false ->
  lookup key (remove other d) = lookup key d.
Proof.
  intro Hneq. unfold remove.
  induction d as [|[k v] d IH]; [reflexivity|].
  cbn [filter fst lookup].
  destruct (String.eqb k other) eqn:Eo; cbn [negb].
  - apply String.eqb_eq in Eo. subst k. rewrite Hneq. exact IH.
  - cbn [lookup]. rewrite IH. reflexivity.
Qed.

Lemma lookup_app_other (key other : string) (v : Q) (d : dict) :
  String.eqb other key = false ->
  lookup key (d ++ [(other, v)])%list = lookup key d.
Proof.
  intro Hneq.
  induction d as [|[k w] d IH]; cbn [app lookup].
  - rewrite Hneq. reflexivity.
  - rewrite IH. reflexivity.
Qed.

(** Merging the two wind sources leaves the other shares as they are. *)
Lemma get_energy_mix_lookup (env : Env) (mix_data : dict) (key : string) :
  SMARDClient.collect env SMARDClient.sources = Ok mix_data ->
  0 < Py.sum (values mix_data) ->
  String.eqb "wind_onshore" key = false ->
  String.eqb "wind_offshore" key = false ->
  String.eqb "wind" key = false ->
  lookup key (SMARDClient.get_energy_mix env)
  = option_map
      (fun v => Py.round (v / Py.sum (values mix_data) * 100) 1)
      (lookup key mix_data).
Proof.
  intros Hcollect Htotal Hon Hoff Hwind.
  rewrite (get_energy_mix_unfold env mix_data Hcollect).
  apply ltb_lt in Htotal. rewrite Htotal.
  set (shares :=
         map (fun sv =>
                (fst sv, Py.round (snd sv / Py.sum (values mix_data) * 100) 1))
             mix_data).
  assert (Hshares : lookup key shares
                    = option_map
                        (fun v =>
                           Py.round (v / Py.sum (values mix_data) * 100) 1)
                        (lookup key mix_data))
    by (apply (lookup_map_values
                 (fun v => Py.round (v / Py.sum (values mix_data) * 100) 1))).
  destruct (lookup "wind_onshore" shares);
    [destruct (lookup "wind_offshore" shares)|]; try exact Hshares.
  rewrite (lookup_app_other _ _ _ _ Hwind).
  rewrite (lookup_remove_other _ _ _ Hoff).
  rewrite (lookup_remove_other _ _ _ Hon).
  exact Hshares.
Qed.

Lemma get_energy_mix_populated (env : Env) (mix_data : dict) :
  SMARDClient.collect env SMARDClient.sources = Ok mix_data ->
  0 < Py.sum (values mix_data) ->
  SMARDClient.get_energy_mix env <> [].
Proof.
  intros Hcollect Htotal.
  rewrite (get_energy_mix_unfold env mix_data Hcollect).
  pose proof Htotal as Hlt. apply ltb_lt in Hlt. rewrite Hlt.
  destruct mix_data as [|kv m].
  - exfalso. vm_compute in Htotal. discriminate Htotal.
  - cbn [map].
    match goal with
    | |- match ?a with _ => _ end <> _ =>
        destruct a; [|discriminate]
    end.
    match goal with
    | |- match ?a with _ => _ end <> _ =>
        destruct a; [|discriminate]
    end.
    intro H. apply app_eq_nil in H. destruct H as [_ H]. discriminate H.
Qed.

(** A share is within 0.05 of the production's part of the total, in
    percent; a source that was not collected has the share 0. *)
Lemma share_near (total : Q) (entry : option Q) :
  let share :=
    get (option_map (fun v => Py.round (v / total * 100) 1) entry) 0 in
  get entry 0 / total * 100 - (1 # 20) <= share
  /\ share <= get entry 0 / total * 100 + (1 # 20).
Proof.
  destruct entry as [v|]; cbn [option_map get].
  - apply round_near_1.
  - assert (H : 0 / total * 100 == 0) by (unfold Qdiv; ring).
    rewrite H. split; lra.
Qed.

(** X20 -- whenever the total of the collected productions is positive,
    the CO2 intensity is a number, less than 1 g/kWh away from the mean
    of the emission factors weighted by production: 820 g/kWh for coal,
    490 for gas, 230 for biomass, and nothing for solar and wind, merged
    or not. *)
Theorem X20_co2_intensity_from_shares (env : Env) (mix_data : dict) :
  SMARDClient.collect env SMARDClient.sources = Ok mix_data ->
  let total := Py.sum (values mix_data) in
  let production := fun source => get (lookup source mix_data) 0 in
  let intensity :=
    (820 * production "coal" + 490 * production "gas"
     + 230 * production "biomass") / total in
  0 < total ->
  exists c,
    SMARDClient.get_co2_intensity env = VNum c
    /\ intensity - 1 < c
    /\ c < intensity + 1.
Proof.
  intros Hcollect total production intensity Htotal.
  destruct (get_co2_intensity_of_mix env
              (get_energy_mix_populated env mix_data Hcollect Htotal))
    as (c & Hc & Hval).
  exists c. split; [exact Hc|].
  rewrite (get_energy_mix_lookup env mix_data "coal" Hcollect Htotal
             eq_refl eq_refl eq_refl) in Hval.
  rewrite (get_energy_mix_lookup env mix_data "gas" Hcollect Htotal
             eq_refl eq_refl eq_refl) in Hval.
  rewrite (get_energy_mix_lookup env mix_data "biomass" Hcollect Htotal
             eq_refl eq_refl eq_refl) in Hval.
  fold total in Hval.
  pose proof (share_near total (lookup "coal" mix_data)) as [C1 C2].
  pose proof (share_near total (lookup "gas" mix_data)) as [G1 G2].
  pose proof (share_near total (lookup "biomass" mix_data)) as [B1 B2].
  cbv zeta in C1, C2, G1, G2, B1, B2.
  set (coal := get (option_map (fun v => Py.round (v / total * 100) 1)
                      (lookup "coal" mix_data)) 0) in *.
  set (gas := get (option_map (fun v => Py.round (v / total * 100) 1)
                     (lookup "gas" mix_data)) 0) in *.
  set (biomass := get (option_map (fun v => Py.round (v / total * 100) 1)
                         (lookup "biomass" mix_data)) 0) in *.
  pose proof (round_near_1
                ((coal * 820 + gas * 490 + biomass * 230) / 100)) as [R1 R2].
  rewrite <- Hval in R1, R2.
  assert (Hint : intensity
                 == (820 * (production "coal" / total * 100)
                     + 490 * (production "gas" / total * 100)
                     + 230 * (production "biomass" / total * 100)) / 100).
  { unfold intensity. field. intro H. rewrite H in Htotal.
    exact (Qlt_irrefl 0 Htotal). }
  fold (production "coal") in C1, C2.
  fold (production "gas") in G1, G2.
  fold (production "biomass") in B1, B2.
  set (xc := production "coal" / total * 100) in *.
  set (xg := production "gas" / total * 100) in *.
  set (xb := production "biomass" / total * 100) in *.
  assert (Hshares : (coal * 820 + gas * 490 + biomass * 230) / 100
                    == (coal * 820 + gas * 490 + biomass * 230) * (1 # 100))
    by field.
  assert (Hparts : (820 * xc + 490 * xg + 230 * xb) / 100
                   == (820 * xc + 490 * xg + 230 * xb) * (1 # 100))
    by field.
  set (emitted := (coal * 820 + gas * 490 + biomass * 230) / 100) in *.
  set (mean := (820 * xc + 490 * xg + 230 * xb) / 100) in *.
  split; lra.
Qed.

Lemma X20_co2_intensity_from_shares_witness :
  exists c,
    SMARDClient.get_co2_intensity Examples.env_day = VNum c
    /\ (15 * 820 + 10 * 490) / 100 - 1 < c
    /\ c < (15 * 820 + 10 * 490) / 100 + 1.
Proof.
  destruct (X20_co2_intensity_from_shares Examples.env_day
              [ ("solar", 4500); ("wind_onshore", 2000);
                ("wind_offshore", 1000); ("coal", 1500); ("gas", 1000) ])
    as (c & Hc & Hlo & Hhi);
    [vm_compute; reflexivity | vm_compute; reflexivity |].
  exists c. split; [exact Hc|].
  set (mix_data := [ ("solar", 4500); ("wind_onshore", 2000);
                     ("wind_offshore", 1000); ("coal", 1500);
                     ("gas", 1000) ]) in *.
  assert (Hi : (820 * get (lookup "coal" mix_data) 0
                + 490 * get (lookup "gas" mix_data) 0
                + 230 * get (lookup "biomass" mix_data) 0)
               / Py.sum (values mix_data)
               == (15 * 820 + 10 * 490) / 100)
    by (vm_compute; reflexivity).
  rewrite <- Hi. split; assumption.
Defined.

(** ** Cheapest and most expensive time *)

(** X21 -- given a forecast in which every point has a price other than
    zero, the cheapest-time handler reports the first point of least
    price and the expensive-time handler the first point of greatest
    price, each with its time label and its price to four decimals; the
    price reported as cheapest is never above the one reported as most
    expensive. *)
Theorem X21_cheapest_and_expensive_time (data : GridData.t) (x : Point.t)
    (xs : list Point.t) :
  GridData.forecast data = Some (x :: xs) ->
  (forall y, In y (x :: xs) ->
             exists p, Point.price y = Some p /\ ~ p == 0) ->
  exists c e pc pe,
    first_minimum price_key c (x :: xs)
    /\ first_minimum (fun y => - get (Point.price y) 0) e (x :: xs)
    /\ Point.price c = Some pc
    /\ Point.price e = Some pe
    /\ pc <= pe
    /\ SmartEnergyAssistant._get_cheapest_time data
       = Ok ("⚡ Am günstigsten ist Strom heute um "
               ++ get (Point.hour c) "N/A" ++ ": "
               ++ format_f 4 pc ++ " €/kWh")
    /\ SmartEnergyAssistant._get_expensive_time data
       = Ok ("🔴 Am teuersten ist Strom heute um "
               ++ get (Point.hour e) "N/A" ++ ": "
               ++ format_f 4 pe ++ " €/kWh").
Proof.
  intros Hf Hpriced.
  pose proof (min_from_first_minimum price_key xs x) as Hmin.
  pose proof (max_from_first_maximum
                (fun y : Point.t => get (Point.price y) 0) xs x) as Hmax.
  set (c := min_from price_key x xs) in *.
  set (e := max_from (fun y : Point.t => get (Point.price y) 0) x xs) in *.
  destruct (Hpriced c (first_minimum_in _ _ _ Hmin)) as (pc & Hc & _).
  destruct (Hpriced e (first_minimum_in _ _ _ Hmax)) as (pe & He & _).
  exists c, e, pc, pe.
  split; [exact Hmin|]. split; [exact Hmax|].
  split; [exact Hc|]. split; [exact He|].
  split.
  - pose proof (first_minimum_le _ _ _ Hmin e
                  (first_minimum_in _ _ _ Hmax)) as Hle.
    unfold price_key in Hle. rewrite Hc, He in Hle. exact Hle.
  - unfold SmartEnergyAssistant._get_cheapest_time,
      SmartEnergyAssistant._get_expensive_time.
    rewrite Hf. cbn [get].
    fold c. fold e. rewrite Hc, He. split; reflexivity.
Qed.

Lemma X21_cheapest_and_expensive_time_witness :
  exists c e pc pe,
    Point.price c = Some pc
    /\ Point.price e = Some pe
    /\ pc <= pe
    /\ SmartEnergyAssistant._get_cheapest_time
         (Main.grid_data Examples.env_day)
       = Ok ("⚡ Am günstigsten ist Strom heute um "
               ++ get (Point.hour c) "N/A" ++ ": "
               ++ format_f 4 pc ++ " €/kWh")
    /\ SmartEnergyAssistant._get_expensive_time
         (Main.grid_data Examples.env_day)
       = Ok ("🔴 Am teuersten ist Strom heute um "
               ++ get (Point.hour e) "N/A" ++ ": "
               ++ format_f 4 pe ++ " €/kWh").
Proof.
  destruct (X21_cheapest_and_expensive_time
              (Main.grid_data Examples.env_day)
              {| Point.timestamp := Some 1767258000000%Z;
                 Point.hour := Some "10:00";
                 Point.price := Some (Py.round (250 / 1000) 4);
                 Point.co2 := None |}
              [ {| Point.timestamp := Some 1767261600000%Z;
                   Point.hour := Some "11:00";
                   Point.price := Some (Py.round (220 / 1000) 4);
                   Point.co2 := None |};
                {| Point.timestamp := Some 1767265200000%Z;
                   Point.hour := Some "12:00";
                   Point.price := Some (Py.round (300 / 1000) 4);
                   Point.co2 := None |} ])
    as (c & e & pc & pe & _ & _ & Hc & He & Hle & Hcheap & Hexp).
  - vm_compute. reflexivity.
  - intros y Hy. simpl in Hy.
    repeat (destruct Hy as [<- | Hy];
            [eexists; split; [reflexivity | vm_compute; discriminate]|]).
    contradiction.
  - exists c, e, pc, pe. auto.
Defined.

(** On the forecast of the example day the two handlers answer with
    11:00 at 0.2200 and 12:00 at 0.3000. *)
Example cheapest_and_expensive_time_of_day :
  SmartEnergyAssistant._get_cheapest_time (Main.grid_data Examples.env_day)
  = Ok "⚡ Am günstigsten ist Strom heute um 11:00: 0.2200 €/kWh"
  /\ SmartEnergyAssistant._get_expensive_time
       (Main.grid_data Examples.env_day)
     = Ok "🔴 Am teuersten ist Strom heute um 12:00: 0.3000 €/kWh".
Proof. split; vm_compute; reflexivity. Qed.

(** ** The washing advice against the recommendation endpoint *)

(** X22 -- for a current price that is a number different from zero, the
    washing advice of the assistant and the recommendation for a device of
    2 kWh decide on the same savings, and never against each other in the
    direction of running now: the advice is one of its two texts, it is
    the "can run now" text whenever the endpoint recommends "now", and
    whenever it is the "better later" text, naming the label of the
    cheapest point, the endpoint recommends "wait".  Savings below 4.9
    cents give "now" and the "can run now" text, savings above 5.1 cents
    give "wait" and the "better later" text. *)
Theorem X22_washing_advice_and_recommendation (env : Env)
    (db : list UserDevice) (device_id : Z) (d : UserDevice) (p : Q) :
  SMARDClient.get_current_price env = VNum p ->
  ~ p == 0 ->
  List.find (fun d => (id d =? device_id)%Z) db = Some d ->
  power_kwh d = 2 ->
  let c := costs p 2 (SMARDClient.get_price_forecast env 24) in
  let run_now := fun text =>
    exists amount,
      text = "✅ Waschmaschine kann jetzt laufen. Kosten: " ++ amount
               ++ "€ (kaum Unterschied zu günstigster Zeit)" in
  let run_later := fun text =>
    exists saved cost_now cost_then,
      text = "⏳ Waschmaschine besser um "
               ++ get (Point.hour (Costs.cheapest c)) "N/A"
               ++ " laufen lassen. Spart " ++ saved ++ "€ (jetzt: "
               ++ cost_now ++ "€ vs. dann: " ++ cost_then ++ "€)" in
  exists r text,
    Main.get_device_recommendation env db device_id = inl r
    /\ SmartEnergyAssistant._get_washing_advice (Main.grid_data env)
       = Ok text
    /\ (run_now text \/ run_later text)
    /\ (Main.recommendation r = "now" -> run_now text)
    /\ (run_later text -> Main.recommendation r = "wait")
    /\ (Costs.savings c < 49 # 1000 ->
        Main.recommendation r = "now" /\ run_now text)
    /\ (51 # 1000 < Costs.savings c ->
        Main.recommendation r = "wait" /\ run_later text).
Proof.
  intros Hp Hp0 Hfind Hpower c run_now run_later.
  assert (Ep : Qeq_bool p 0 = false).
  { destruct (Qeq_bool p 0) eqn:E; [|reflexivity].
    apply Qeq_bool_iff in E. contradiction. }
  assert (Hprice : Main.recommendation_price env = p).
  { unfold Main.recommendation_price. rewrite Hp. cbn [or_default].
    rewrite Ep. reflexivity. }
  destruct (get_device_recommendation_found env db device_id d Hfind)
    as (r & Hr & _ & Hrec & _).
  rewrite Hprice, Hpower in Hrec. fold c in Hrec.
  set (later :=
         "⏳ " ++ "Waschmaschine" ++ " besser um "
           ++ get (Point.hour (Costs.cheapest c)) "N/A"
           ++ " laufen lassen. Spart " ++ format_f 2 (Costs.savings c)
           ++ "€ (jetzt: " ++ format_f 2 (Costs.cost_now c)
           ++ "€ vs. dann: " ++ format_f 2 (Costs.cost_cheapest c) ++ "€)").
  set (at_once :=
         "✅ " ++ "Waschmaschine" ++ " kann jetzt laufen. Kosten: "
           ++ format_f 2 (Costs.cost_now c)
           ++ "€ (kaum Unterschied zu günstigster Zeit)").
  assert (Htext : SmartEnergyAssistant._get_washing_advice
                    (Main.grid_data env)
                  = Ok (if SmartEnergyAssistant.advises_waiting c
                        then later else at_once)).
  { unfold SmartEnergyAssistant._get_washing_advice,
      SmartEnergyAssistant._get_device_advice, Main.grid_data.
    cbn [GridData.current GridData.forecast get Current.price].
    rewrite Hp. cbn [as_num bind]. fold c.
    destruct (SmartEnergyAssistant.advises_waiting c); reflexivity. }
  assert (Hlater : run_later later).
  { exists (format_f 2 (Costs.savings c)), (format_f 2 (Costs.cost_now c)),
           (format_f 2 (Costs.cost_cheapest c)). reflexivity. }
  assert (Hat_once : run_now at_once).
  { exists (format_f 2 (Costs.cost_now c)). reflexivity. }
  assert (Hapart : ~ run_later at_once).
  { intros (saved & cost_now & cost_then & H).
    unfold at_once in H. cbn in H. discriminate H. }
  exists r, (if SmartEnergyAssistant.advises_waiting c
             then later else at_once).
  split; [exact Hr|]. split; [exact Htext|].
  rewrite Hrec.
  unfold Main.recommends_now, SmartEnergyAssistant.advises_waiting.
  destruct (ltb (Costs.savings c) (5 # 100)) eqn:Enow;
    destruct (ltb (5 # 100) (Costs.savings c)) eqn:Elater;
    try (apply ltb_lt in Enow); try (apply ltb_ge in Enow);
    try (apply ltb_lt in Elater); try (apply ltb_ge in Elater).
  - exfalso. lra.
  - split; [left; exact Hat_once|].
    split; [intros _; exact Hat_once|].
    split; [intro H; exfalso; exact (Hapart H)|].
    split; [intros _; split; [reflexivity | exact Hat_once]|].
    intro H. exfalso. lra.
  - split; [right; exact Hlater|].
    split; [intro H; discriminate H|].
    split; [intros _; reflexivity|].
    split; [intro H; exfalso; lra|].
    intros _. split; [reflexivity | exact Hlater].
  - split; [left; exact Hat_once|].
    split; [intro H; discriminate H|].
    split; [intros _; reflexivity|].
    split; intro H; exfalso; lra.
Qed.

Lemma X22_washing_advice_and_recommendation_witness :
  (exists r text,
      Main.get_device_recommendation Examples.env_day seed_devices 1
      = inl r
      /\ SmartEnergyAssistant._get_washing_advice
           (Main.grid_data Examples.env_day) = Ok text
      /\ Main.recommendation r = "wait"
      /\ exists saved cost_now cost_then,
           text = "⏳ Waschmaschine besser um 11:00 laufen lassen. Spart "
                    ++ saved ++ "€ (jetzt: " ++ cost_now ++ "€ vs. dann: "
                    ++ cost_then ++ "€)")
  /\ (let env :=
        {| series := fun _ _ => [(1767265200000%Z, VNum 300)];
           utcoffset := fun _ => 0%Z |} in
      exists r text,
        Main.get_device_recommendation env seed_devices 1 = inl r
        /\ SmartEnergyAssistant._get_washing_advice (Main.grid_data env)
           = Ok text
        /\ Main.recommendation r = "now"
        /\ exists amount,
             text = "✅ Waschmaschine kann jetzt laufen. Kosten: " ++ amount
                      ++ "€ (kaum Unterschied zu günstigster Zeit)").
Proof.
  split.
  - destruct (X22_washing_advice_and_recommendation Examples.env_day
                seed_devices 1
                {| id := 1; name := "Waschmaschine";
                   device_type := "appliance"; power_kwh := 2;
                   usage_per_week := 3; flexible := 1;
                   room := Some "bathroom" |}
                (Py.round (300 / 1000) 4))
      as (r & text & Hr & Htext & _ & _ & _ & _ & Hgt).
    + vm_compute. reflexivity.
    + vm_compute. discriminate.
    + reflexivity.
    + reflexivity.
    + exists r, text. split; [exact Hr|]. split; [exact Htext|].
      destruct Hgt as [Hrec Hlater]; [vm_compute; reflexivity|].
      split; [exact Hrec|]. exact Hlater.
  - intro env.
    destruct (X22_washing_advice_and_recommendation env seed_devices 1
                {| id := 1; name := "Waschmaschine";
                   device_type := "appliance"; power_kwh := 2;
                   usage_per_week := 3; flexible := 1;
                   room := Some "bathroom" |}
                (Py.round (300 / 1000) 4))
      as (r & text & Hr & Htext & _ & _ & _ & Hlt & _).
    + vm_compute. reflexivity.
    + vm_compute. discriminate.
    + reflexivity.
    + reflexivity.
    + exists r, text. split; [exact Hr|]. split; [exact Htext|].
      destruct Hlt as [Hrec Hnow]; [vm_compute; reflexivity|].
      split; [exact Hrec|]. exact Hnow.
Defined.
